(** * Metadata normalisation and quality scoring of the systematic-review
    extractor: a shallow embedding and its verified properties.

  The development follows the Python sources:
  - [src/extractors/paper_data.py]   (module [PaperData])
  - [src/validation/quality_checker.py] (module [QualityChecker])
  - [src/exporters/validator.py]     (modules [DataValidator], [Report])
  - [src/review.py]                  (modules [Review], [ReviewOutput])
  - [src/extractors/pubmed.py]       (module [Pubmed])
  - [src/exporters/base.py], [csv.py], [excel.py] (module [Exporters])

  Python text is modelled on the Latin-1 range (one [ascii] per code
  point); the character tables below are CPython's on that range.
  Scores, which Python computes in binary floating point, are modelled as
  exact rationals ([Q]). *)

From Stdlib Require Import String Ascii ZArith QArith Qminmax List Bool Lia Lqa.
From stdpp Require Import gmap strings list pretty.
Import ListNotations.

Local Close Scope Q_scope.
Local Open Scope string_scope.
Local Open Scope list_scope.

(* ===================================================================== *)
(** * Python strings *)
(* ===================================================================== *)

Module PyStr.

Definition code (c : ascii) : nat := nat_of_ascii c.

Definition between (lo hi : nat) (c : ascii) : bool :=
  (lo <=? code c)%nat && (code c <=? hi)%nat.

(** [str.isspace] and the regular-expression class [\s]. *)
Definition isspace (c : ascii) : bool :=
  between 9 13 c || between 28 32 c || (code c =? 133)%nat || (code c =? 160)%nat.

(** The regular-expression class [\d]. *)
Definition isdigit (c : ascii) : bool := between 48 57 c.

(** The regular-expression class [\w]: alphanumerics and the underscore. *)
Definition isword (c : ascii) : bool :=
  isdigit c || between 65 90 c || (code c =? 95)%nat || between 97 122 c
  || (code c =? 170)%nat || between 178 179 c || (code c =? 181)%nat
  || between 185 186 c || between 188 190 c || between 192 214 c
  || between 216 246 c || between 248 255 c.

(** The regular-expression wildcard [.]: anything but a line feed. *)
Definition isdot (c : ascii) : bool := negb (code c =? 10)%nat.

Definition lower_char (c : ascii) : ascii :=
  if between 65 90 c || (between 192 222 c && negb (code c =? 215)%nat)
  then ascii_of_nat (code c + 32) else c.

(** [s.lower()] *)
Fixpoint lower (s : string) : string :=
  match s with
  | EmptyString => EmptyString
  | String c s' => String (lower_char c) (lower s')
  end.

Fixpoint lstrip (s : string) : string :=
  match s with
  | EmptyString => EmptyString
  | String c s' => if isspace c then lstrip s' else s
  end.

Fixpoint rstrip (s : string) : string :=
  match s with
  | EmptyString => EmptyString
  | String c s' =>
      match rstrip s' with
      | EmptyString => if isspace c then EmptyString else String c EmptyString
      | r => String c r
      end
  end.

(** [s.strip()] *)
Definition strip (s : string) : string := rstrip (lstrip s).

(** [len(s)] *)
Definition len (s : string) : nat := String.length s.

(** [s.startswith(p)] *)
Definition startswith (p s : string) : bool := String.prefix p s.

(** [kw in s] *)
Fixpoint contains (kw s : string) : bool :=
  String.prefix kw s
  || match s with
     | EmptyString => false
     | String _ s' => contains kw s'
     end.

(** [sep.join(parts)] *)
Definition join (sep : string) (parts : list string) : string :=
  String.concat sep parts.

Fixpoint take (n : nat) (s : string) : string :=
  match n, s with
  | S n', String c s' => String c (take n' s')
  | _, _ => EmptyString
  end.

Fixpoint drop (n : nat) (s : string) : string :=
  match n, s with
  | S n', String _ s' => drop n' s'
  | _, _ => s
  end.

(** Splitting: [cur] is the piece being read, kept in reverse. *)
Fixpoint rev_onto (s acc : string) : string :=
  match s with
  | EmptyString => acc
  | String c s' => rev_onto s' (String c acc)
  end.

(** [s.split(sep)] for a one-character separator: empty pieces are kept. *)
Fixpoint split_char_aux (sep : ascii) (s cur : string) : list string :=
  match s with
  | EmptyString => [rev_onto cur EmptyString]
  | String c s' =>
      if Ascii.eqb c sep
      then rev_onto cur EmptyString :: split_char_aux sep s' EmptyString
      else split_char_aux sep s' (String c cur)
  end.

Definition split_char (sep : ascii) (s : string) : list string :=
  split_char_aux sep s EmptyString.

(** [s.split()]: split on runs of whitespace, no empty pieces. *)
Fixpoint split_ws_aux (s cur : string) : list string :=
  match s with
  | EmptyString =>
      match cur with
      | EmptyString => []
      | _ => [rev_onto cur EmptyString]
      end
  | String c s' =>
      if isspace c
      then match cur with
           | EmptyString => split_ws_aux s' EmptyString
           | _ => rev_onto cur EmptyString :: split_ws_aux s' EmptyString
           end
      else split_ws_aux s' (String c cur)
  end.

Definition split_ws (s : string) : list string := split_ws_aux s EmptyString.

(** [int(s)] on a run of decimal digits. *)
Fixpoint int_of_digits_aux (s : string) (acc : Z) : Z :=
  match s with
  | EmptyString => acc
  | String c s' => int_of_digits_aux s' (10 * acc + Z.of_nat (code c - 48))%Z
  end.

Definition int_of_digits (s : string) : Z := int_of_digits_aux s 0%Z.

End PyStr.

(* ===================================================================== *)
(** * Regular expressions, as far as the sources use them *)
(* ===================================================================== *)

(** Every pattern in the sources is a concatenation of literal text,
  alternations of literal texts, and greedily repeated character classes;
  a capturing group wraps one alternation or one repetition.  The matcher
  is Python's: leftmost start, alternatives in order, repetitions greedy
  with backtracking. *)

Module Re.
Import PyStr.

Inductive atom : Type :=
| Lit (text : string)
| Alt (capture : bool) (alts : list string)
| Rep (capture : bool) (cls : ascii -> bool) (lo : nat) (hi : option nat).

Definition pattern : Type := list atom.

(** One character of a class. *)
Definition One (cls : ascii -> bool) : atom := Rep false cls 1 (Some 1%nat).

(** Character comparison; [ic] is the flag [re.IGNORECASE]. *)
Definition char_eq (ic : bool) (a b : ascii) : bool :=
  if ic then Ascii.eqb (lower_char a) (lower_char b) else Ascii.eqb a b.

(** Match literal text at the head of [s]; the rest of [s] on success. *)
Fixpoint match_lit (ic : bool) (lit s : string) : option string :=
  match lit with
  | EmptyString => Some s
  | String a lit' =>
      match s with
      | EmptyString => None
      | String b s' => if char_eq ic a b then match_lit ic lit' s' else None
      end
  end.

(** Length of the longest run of class characters at the head of [s],
    capped by [hi]. *)
Fixpoint span (cls : ascii -> bool) (hi : option nat) (s : string) : nat :=
  match s with
  | EmptyString => 0
  | String c s' =>
      match hi with
      | Some 0%nat => 0
      | Some (S h) => if cls c then S (span cls (Some h) s') else 0
      | None => if cls c then S (span cls None s') else 0
      end
  end.

Definition captured (cap : bool) (text : string) (groups : list string)
  : list string :=
  if cap then text :: groups else groups.

(** The outcome of a match at the head of a string: the number of
    characters consumed and the texts of the capturing groups, in pattern
    order. *)
Definition outcome : Type := option (nat * list string).

(** Literal text [l], then the rest of the pattern, [k]. *)
Definition lit_then (ic : bool) (l : string) (k : string -> outcome) (s : string)
  : outcome :=
  match match_lit ic l s with
  | Some rest =>
      match k rest with
      | Some (n, g) => Some ((len l + n)%nat, g)
      | None => None
      end
  | None => None
  end.

(** The alternatives in order: the first whose text matches and after
    which the rest of the pattern matches. *)
Fixpoint try_alts (ic cap : bool) (k : string -> outcome) (s : string)
  (alts : list string) : outcome :=
  match alts with
  | [] => None
  | l :: alts' =>
      match lit_then ic l k s with
      | Some (n, g) => Some (n, captured cap (take (len l) s) g)
      | None => try_alts ic cap k s alts'
      end
  end.

(** A greedy repetition that may take [n] characters: the largest count
    from [n] down to [lo] after which the rest of the pattern matches. *)
Fixpoint back (cap : bool) (lo : nat) (k : string -> outcome) (s : string)
  (n : nat) : outcome :=
  match (if (lo <=? n)%nat then k (drop n s) else None) with
  | Some (m, g) => Some ((n + m)%nat, captured cap (take n s) g)
  | None =>
      match n with
      | O => None
      | S n' => back cap lo k s n'
      end
  end.

(** Match the whole pattern at the head of [s]. *)
Fixpoint match_here (ic : bool) (p : pattern) (s : string) : outcome :=
  match p with
  | [] => Some (0%nat, [])
  | Lit l :: p' => lit_then ic l (match_here ic p') s
  | Alt cap alts :: p' => try_alts ic cap (match_here ic p') s alts
  | Rep cap cls lo hi :: p' => back cap lo (match_here ic p') s (span cls hi s)
  end.

(** A match object: start offset, [group(0)] and the capturing groups. *)
Record re_match : Type := MkMatch
  { m_start : nat; group0 : string; groups : list string }.

(** [m.group(1)] *)
Definition group1 (m : re_match) : option string := head (groups m).

(** [m.end()] *)
Definition m_end (m : re_match) : nat := (m_start m + len (group0 m))%nat.

Fixpoint search_from (ic : bool) (p : pattern) (s : string) (pos : nat)
  : option re_match :=
  match match_here ic p s with
  | Some (n, g) => Some (MkMatch pos (take n s) g)
  | None =>
      match s with
      | EmptyString => None
      | String _ s' => search_from ic p s' (S pos)
      end
  end.

(** [re.search(p, s)] *)
Definition search (p : pattern) (s : string) : option re_match :=
  search_from false p s 0.

(** [re.match(p, s)]: anchored at the start only. *)
Definition match_start (ic : bool) (p : pattern) (s : string) : option re_match :=
  match match_here ic p s with
  | Some (n, g) => Some (MkMatch 0 (take n s) g)
  | None => None
  end.

End Re.


(* ===================================================================== *)
(** * Python values, exceptions and the effects of the sources *)
(* ===================================================================== *)

Module Py.

(** The values a raw record or a result record holds. *)
#[warnings="-register-all"]
Inductive PyVal : Type :=
| VNone
| VInt (z : Z)
| VStr (s : string)
| VList (items : list PyVal).

(** A [dict] with string keys. *)
Abbreviation PyDict := (gmap string PyVal).

(** [d.get(key, default)] *)
Definition get (d : PyDict) (key : string) (default : PyVal) : PyVal :=
  match d !! key with
  | Some v => v
  | None => default
  end.

(** Truth value of an object, as [if v:] and [not v] take it. *)
Definition truthy (v : PyVal) : bool :=
  match v with
  | VNone => false
  | VInt z => negb (z =? 0)%Z
  | VStr s => negb (String.eqb s "")
  | VList l => match l with [] => false | _ => true end
  end.

Definition type_name (v : PyVal) : string :=
  match v with
  | VNone => "NoneType"
  | VInt _ => "int"
  | VStr _ => "str"
  | VList _ => "list"
  end.

Inductive exn_kind : Type :=
| ValueError | TypeError | AttributeError | IndexError
| ZeroDivisionError | NameError.

(** A raised exception: its class and [str(e)]. *)
Record exn : Type := Exn { kind : exn_kind; message : string }.

Inductive level : Type := INFO | WARNING | ERROR.

(** One call of the [logging] module. *)
Record log_record : Type := Log { log_level : level; log_text : string }.

(** A computation either raises or returns, and emits log records on the
    way. *)
Definition M (A : Type) : Type := (exn + A) * list log_record.

Definition ret {A} (a : A) : M A := (inr a, []).

Definition raise {A} (e : exn) : M A := (inl e, []).

Definition bind {A B} (m : M A) (f : A -> M B) : M B :=
  match m with
  | (inl e, l) => (inl e, l)
  | (inr a, l) => let (r, l') := f a in (r, l ++ l')
  end.

Definition logging (lvl : level) (text : string) : M unit :=
  (inr tt, [Log lvl text]).

(** [try: m except Exception as e: h e] *)
Definition try_except {A} (m : M A) (h : exn -> M A) : M A :=
  match m with
  | (inl e, l) => let (r, l') := h e in (r, l ++ l')
  | (inr a, l) => (inr a, l)
  end.

(** [try: m except K as e: h e]: exceptions of another class pass. *)
Definition try_except_kind {A} (k : exn_kind -> bool) (m : M A) (h : exn -> M A)
  : M A :=
  try_except m (fun e => if k (kind e) then h e else raise e).

Definition is_ValueError (k : exn_kind) : bool :=
  match k with ValueError => true | _ => false end.

Definition result {A} (m : M A) : exn + A := fst m.
Definition logs {A} (m : M A) : list log_record := snd m.

Definition no_attribute (v : PyVal) (attr : string) : exn :=
  Exn AttributeError
      ("'" ++ type_name v ++ "' object has no attribute '" ++ attr ++ "'").

Definition not_iterable (v : PyVal) : exn :=
  Exn TypeError ("'" ++ type_name v ++ "' object is not iterable").

(** [v.strip()] *)
Definition py_strip (v : PyVal) : M string :=
  match v with
  | VStr s => ret (PyStr.strip s)
  | _ => raise (no_attribute v "strip")
  end.

(** The items a [for] loop over [v] visits.  A string yields its
    characters. *)
Definition iterate (v : PyVal) : M (list PyVal) :=
  match v with
  | VList l => ret l
  | VStr s => ret (map (fun c => VStr (String c EmptyString)) (list_ascii_of_string s))
  | _ => raise (not_iterable v)
  end.

(** [sep.join(items)]: every item must be a [str]. *)
Fixpoint strings_of (items : list PyVal) (i : nat) : M (list string) :=
  match items with
  | [] => ret []
  | VStr s :: rest => bind (strings_of rest (S i)) (fun ss => ret (s :: ss))
  | v :: _ =>
      raise (Exn TypeError ("sequence item " ++ pretty i ++ ": expected str instance, "
                              ++ type_name v ++ " found"))
  end.

Definition py_join (sep : string) (items : list PyVal) : M string :=
  bind (strings_of items 0) (fun ss => ret (PyStr.join sep ss)).

(** [re.search(p, v)] *)
Definition re_search (p : Re.pattern) (v : PyVal) : M (option Re.re_match) :=
  match v with
  | VStr s => ret (Re.search p s)
  | _ =>
      raise (Exn TypeError ("expected string or bytes-like object, got '"
                              ++ type_name v ++ "'"))
  end.

End Py.

Declare Scope py_scope.
Delimit Scope py_scope with py.
Notation "x <- m ;; k" := (Py.bind m (fun x => k))
(at level 100, m at next level, right associativity) : py_scope.
Notation "m ;;; k" := (Py.bind m (fun _ => k))
(at level 100, right associativity) : py_scope.

(* ===================================================================== *)
(** * [datetime.strptime], for the formats of the sources *)
(* ===================================================================== *)

Module Datetime.
Import PyStr Re Py.
Local Open Scope py_scope.

Definition digit (n : nat) : string := String (ascii_of_nat (48 + n)) EmptyString.
Definition digits2 (a b : nat) : string := digit a ++ digit b.

(** The regular expressions of the directives: [%Y] is [\d\d\d\d], [%m] is
    [1[0-2]|0[1-9]|[1-9]], [%d] is [3[0-1]|[1-2]\d|0[1-9]|[1-9]| [1-9]],
    [%b] the abbreviated month names of the C locale. *)
Definition re_Y : atom := Rep true isdigit 4 (Some 4%nat).

Definition re_m : atom :=
  Alt true ([digits2 1 0; digits2 1 1; digits2 1 2]
              ++ map (digits2 0) (seq 1 9) ++ map digit (seq 1 9)).

Definition re_d : atom :=
  Alt true ([digits2 3 0; digits2 3 1]
              ++ map (digits2 1) (seq 0 10) ++ map (digits2 2) (seq 0 10)
              ++ map (digits2 0) (seq 1 9) ++ map digit (seq 1 9)
              ++ map (fun n => (" " ++ digit n)%string) (seq 1 9)).

Definition month_names : list string :=
  ["jan"; "feb"; "mar"; "apr"; "may"; "jun";
   "jul"; "aug"; "sep"; "oct"; "nov"; "dec"].

Definition re_b : atom := Alt true month_names.

(** Translation of a format string: directives become their expressions, a
    run of whitespace becomes [\s+], anything else is literal. *)
Fixpoint compile (after_space : bool) (fmt : string) : option pattern :=
  match fmt with
  | EmptyString => Some []
  | String c rest =>
      if Ascii.eqb c "%" then
        match rest with
        | String d rest' =>
            match
              (if Ascii.eqb d "Y" then Some re_Y
               else if Ascii.eqb d "m" then Some re_m
               else if Ascii.eqb d "d" then Some re_d
               else if Ascii.eqb d "b" then Some re_b
               else None),
              compile false rest'
            with
            | Some a, Some p => Some (a :: p)
            | _, _ => None
            end
        | EmptyString => None
        end
      else if isspace c then
        match compile true rest with
        | Some p => Some (if after_space then p else Rep false isspace 1 None :: p)
        | None => None
        end
      else
        match compile false rest with
        | Some p => Some (Lit (String c EmptyString) :: p)
        | None => None
        end
  end.

Fixpoint index_of (x : string) (l : list string) (i : nat) : option nat :=
  match l with
  | [] => None
  | y :: l' => if String.eqb x y then Some i else index_of x l' (S i)
  end.

Definition is_leap (y : Z) : bool :=
  ((y mod 4 =? 0) && negb (y mod 100 =? 0) || (y mod 400 =? 0))%Z.

Definition days_in_month (y m : Z) : Z :=
  if (m =? 2)%Z then (if is_leap y then 29 else 28)%Z
  else if ((m =? 4) || (m =? 6) || (m =? 9) || (m =? 11))%Z then 30%Z
  else 31%Z.

Definition bad_time (s fmt : string) : exn :=
  Exn ValueError ("time data '" ++ s ++ "' does not match format '" ++ fmt ++ "'").

(** The fields a match yields, by the directives of the format in order. *)
Fixpoint fields (fmt : string) (gs : list string) (ymd : Z * Z * Z) : Z * Z * Z :=
  match fmt with
  | EmptyString => ymd
  | String c rest =>
      if Ascii.eqb c "%" then
        match rest, gs with
        | String d rest', g :: gs' =>
            let '(y, m, dd) := ymd in
            fields rest' gs'
              (if Ascii.eqb d "Y" then (int_of_digits g, m, dd)
               else if Ascii.eqb d "m" then (y, int_of_digits g, dd)
               else if Ascii.eqb d "d" then (y, m, int_of_digits (lstrip g))
               else if Ascii.eqb d "b" then
                 (y, match index_of (lower g) month_names 1 with
                     | Some i => Z.of_nat i
                     | None => m
                     end, dd)
               else ymd)
        | _, _ => ymd
        end
      else fields rest gs ymd
  end.

(** [datetime.strptime(s, fmt).year] *)
Definition strptime_year (s fmt : string) : M Z :=
  match compile false fmt with
  | None => raise (Exn ValueError ("bad directive in format '" ++ fmt ++ "'"))
  | Some p =>
      match match_start true p s with
      | None => raise (bad_time s fmt)
      | Some m =>
          if negb (m_end m =? len s)%nat
          then raise (Exn ValueError
                        ("unconverted data remains: " ++ drop (m_end m) s))
          else
            let '(y, mo, d) := fields fmt (groups m) (1900, 1, 1)%Z in
            if (y <? 1)%Z
            then raise (Exn ValueError "year 0 is out of range")
            else if (days_in_month y mo <? d)%Z
            then raise (Exn ValueError "day is out of range for month")
            else ret y
      end
  end.

End Datetime.


(* ===================================================================== *)
(** * [src/extractors/paper_data.py] *)
(* ===================================================================== *)

Module PaperData.
Import PyStr Re Py.
Local Open Scope py_scope.

Record PaperMetadata : Type := MkPaperMetadata
  { title : string;
    authors : list string;
    doi : option string;
    year : option Z;
    sample_size : option Z;
    study_type : option string;
    full_text_links : list string }.

(** [r'10.\d{4,9}/[-._;()/:\w]+']: the dot after [10] is the wildcard. *)
Definition doi_suffix_char (c : ascii) : bool :=
  existsb (Ascii.eqb c) (list_ascii_of_string "-._;()/:") || isword c.

Definition DOI_PATTERN : pattern :=
  [Lit "10"; One isdot; Rep false isdigit 4 (Some 9%nat); Lit "/";
   Rep false doi_suffix_char 1 None].

Definition STUDY_TYPES : list (string * list string) :=
  [("RCT", ["randomized"; "randomised"; "rct"]);
   ("Cohort", ["cohort"; "longitudinal"]);
   ("Case-Control", ["case-control"; "case control"]);
   ("Meta-Analysis", ["meta-analysis"; "meta analysis"]);
   ("Systematic Review", ["systematic review"]);
   ("Observational", ["observational"; "cross-sectional"])].

Definition _validate_title (title : PyVal) : M string :=
  if negb (truthy title) then raise (Exn ValueError "Invalid or missing title")
  else
    t <- py_strip title ;;
    if (len t <? 3)%nat then raise (Exn ValueError "Invalid or missing title")
    else py_strip title.

(** The loop [for author in raw_authors] of [_extract_authors]. *)
Fixpoint authors_loop (raw : list PyVal) (acc : list string) : M (list string) :=
  match raw with
  | [] => ret acc
  | a :: rest =>
      author <- py_strip a ;;
      if truthy (VStr author) && (1 <? len author)%nat
      then authors_loop rest (acc ++ [author])
      else authors_loop rest acc
  end.

Definition _extract_authors (data : PyDict) : M (list string) :=
  let raw_authors :=
    get data "AU" (get data "authors" (get data "FAU" (VList []))) in
  raw_authors <-
    match raw_authors with
    | VStr s => ret (map (fun a => VStr (strip a)) (split_char "," s))
    | v => iterate v
    end ;;
  authors <- authors_loop raw_authors [] ;;
  (if match authors with [] => true | _ => false end
   then logging WARNING "No valid authors found" else ret tt) ;;;
  ret authors.

Definition _extract_doi (data : PyDict) : M (option string) :=
  let doi := get data "DOI" (get data "doi" (VStr "")) in
  if truthy doi then
    doi_match <- re_search DOI_PATTERN doi ;;
    match doi_match with
    | Some m => ret (Some (group0 m))
    | None => ret None
    end
  else ret None.

(** [date_str.split()[0]] *)
Definition first_token (date_str : PyVal) : M string :=
  match date_str with
  | VStr s =>
      match split_ws s with
      | tok :: _ => ret tok
      | [] => raise (Exn IndexError "list index out of range")
      end
  | v => raise (no_attribute v "split")
  end.

(** The loop over the formats: the year of the first format that parses;
    a [ValueError] moves on to the next format, any other exception
    leaves the loop. *)
Fixpoint formats_loop (date_str : PyVal) (fmts : list string) : M (option Z) :=
  match fmts with
  | [] => ret None
  | fmt :: rest =>
      try_except_kind is_ValueError
        (tok <- first_token date_str ;;
         y <- Datetime.strptime_year tok fmt ;;
         ret (Some y))
        (fun _ => formats_loop date_str rest)
  end.

Definition date_formats : list string :=
  ["%Y"; "%Y/%m/%d"; "%Y-%m-%d"; "%Y %b %d"].

(** The loop over the date fields. *)
Fixpoint fields_loop (data : PyDict) (fields : list string) : M (option Z) :=
  match fields with
  | [] => ret None
  | field :: rest =>
      let date_str := get data field VNone in
      if truthy date_str then
        r <- formats_loop date_str date_formats ;;
        match r with
        | Some y => ret (Some y)
        | None => fields_loop data rest
        end
      else fields_loop data rest
  end.

Definition _extract_year (data : PyDict) : M (option Z) :=
  try_except
    (fields_loop data ["DP"; "PDAT"; "publication_date"; "year"])
    (fun e =>
       logging WARNING ("Failed to extract year: " ++ message e) ;;;
       ret None).

(** The four sample-size patterns:
    [n\s*=\s*(\d+)], [sample size (?:of|was|=)\s*(\d+)],
    [enrolled\s*(\d+)\s*participants], [included\s*(\d+)\s*patients]. *)
Definition sample_size_patterns : list pattern :=
  [[Lit "n"; Rep false isspace 0 None; Lit "="; Rep false isspace 0 None;
    Rep true isdigit 1 None];
   [Lit "sample size "; Alt false ["of"; "was"; "="]; Rep false isspace 0 None;
    Rep true isdigit 1 None];
   [Lit "enrolled"; Rep false isspace 0 None; Rep true isdigit 1 None;
    Rep false isspace 0 None; Lit "participants"];
   [Lit "included"; Rep false isspace 0 None; Rep true isdigit 1 None;
    Rep false isspace 0 None; Lit "patients"]].

Fixpoint patterns_loop (text : string) (ps : list pattern) : M (option Z) :=
  match ps with
  | [] => ret None
  | p :: rest =>
      match search p text with
      | Some m =>
          match group1 m with
          | Some g => ret (Some (int_of_digits g))
          | None => raise (Exn IndexError "no such group")
          end
      | None => patterns_loop text rest
      end
  end.

Definition _extract_sample_size (data : PyDict) : M (option Z) :=
  try_except
    (joined <- py_join " " [get data "AB" (VStr ""); get data "abstract" (VStr "");
                            get data "methods" (VStr "")] ;;
     let text := lower joined in
     patterns_loop text sample_size_patterns)
    (fun e =>
       logging WARNING ("Failed to extract sample size: " ++ message e) ;;;
       ret None).

(** [any(keyword in text for keyword in keywords)] *)
Definition any_keyword (keywords : list string) (text : string) : bool :=
  existsb (fun keyword => contains keyword text) keywords.

Fixpoint study_types_loop (text : string) (types : list (string * list string))
  : option string :=
  match types with
  | [] => None
  | (study_type, keywords) :: rest =>
      if any_keyword keywords text then Some study_type
      else study_types_loop text rest
  end.

Definition _detect_study_type (data : PyDict) : M (option string) :=
  try_except
    (joined <- py_join " " [get data "TI" (VStr ""); get data "AB" (VStr "");
                            get data "PT" (VStr "");
                            get data "publication_type" (VStr "")] ;;
     let text := lower joined in
     ret (study_types_loop text STUDY_TYPES))
    (fun e =>
       logging WARNING ("Failed to detect study type: " ++ message e) ;;;
       ret None).

(** The loop [for url in urls]: the links appended so far and, when a
    [url] has no [startswith], the exception that ends the loop. *)
Fixpoint urls_loop (urls : list PyVal) (links : list string)
  : list string * option exn :=
  match urls with
  | [] => (links, None)
  | VStr url :: rest =>
      if startswith "http://" url || startswith "https://" url
      then urls_loop rest (links ++ [url])
      else urls_loop rest links
  | v :: _ => (links, Some (no_attribute v "startswith"))
  end.

(** The loop over the URL-bearing fields. *)
Fixpoint link_fields_loop (data : PyDict) (fields : list string)
  (links : list string) : list string * option exn :=
  match fields with
  | [] => (links, None)
  | field :: rest =>
      let urls := get data field (VList []) in
      match
        match urls with
        | VStr _ => ret [urls]
        | v => iterate v
        end
      with
      | (inl e, _) => (links, Some e)
      | (inr urls, _) =>
          match urls_loop urls links with
          | (links', None) => link_fields_loop data rest links'
          | (links', Some e) => (links', Some e)
          end
      end
  end.

(** The body of the [try] block of [_extract_full_text_links]: the list
    [links] as the block leaves it, and how the block ends. *)
Definition links_try (data : PyDict) : list string * M unit :=
  match link_fields_loop data ["LID"; "OUR"; "full_text_url"] [] with
  | (links, Some e) => (links, raise e)
  | (links, None) =>
      match _extract_doi data with
      | (inl e, l) => (links, (inl e, l))
      | (inr (Some doi), l) =>
          (if truthy (VStr doi) then links ++ [("https://doi.org/" ++ doi)%string] else links,
           (inr tt, l))
      | (inr None, l) => (links, (inr tt, l))
      end
  end.

(** [list(set(links))]; the order of the result is not specified in
    Python, and nothing below depends on it. *)
Definition list_set (links : list string) : list string :=
  elements (list_to_set links : gset string).

Definition _extract_full_text_links (data : PyDict) : M (list string) :=
  let (links, body) := links_try data in
  try_except body
    (fun e => logging WARNING ("Failed to extract full text links: " ++ message e)) ;;;
  ret (list_set links).

Definition extract_metadata (paper_data : PyDict) : M PaperMetadata :=
  try_except
    (title <- _validate_title
                (get paper_data "TI" (get paper_data "title" (VStr ""))) ;;
     authors <- _extract_authors paper_data ;;
     doi <- _extract_doi paper_data ;;
     year <- _extract_year paper_data ;;
     sample_size <- _extract_sample_size paper_data ;;
     study_type <- _detect_study_type paper_data ;;
     full_text_links <- _extract_full_text_links paper_data ;;
     ret (MkPaperMetadata title authors doi year sample_size study_type
            full_text_links))
    (fun e =>
       logging ERROR ("Error extracting metadata: " ++ message e) ;;;
       raise (Exn ValueError ("Failed to extract paper metadata: " ++ message e))).

(** [metadata.__dict__] *)
Definition opt_val {A} (f : A -> PyVal) (o : option A) : PyVal :=
  match o with
  | Some a => f a
  | None => VNone
  end.

Definition __dict__ (m : PaperMetadata) : PyDict :=
  list_to_map
    [("title", VStr (title m));
     ("authors", VList (map VStr (authors m)));
     ("doi", opt_val VStr (doi m));
     ("year", opt_val VInt (year m));
     ("sample_size", opt_val VInt (sample_size m));
     ("study_type", opt_val VStr (study_type m));
     ("full_text_links", VList (map VStr (full_text_links m)))].

End PaperData.


(* ===================================================================== *)
(** * [src/review.py] *)
(* ===================================================================== *)

Module Review.
Import PyStr Py PaperData.
Local Open Scope py_scope.

(** The source readers, which the controller only calls: each catches its
    own errors and returns a (possibly empty) list, or an empty record. *)
Record Readers : Type := MkReaders
  { pubmed_search : string -> Z -> list string;
    pubmed_fetch_details : string -> PyDict;
    cochrane_search : string -> Z -> list PyDict;
    clinicaltrials_search : string -> Z -> list PyDict }.

(** An entry [{'source': ..., 'data': metadata.__dict__}] of
    [self.results]. *)
Record result_entry : Type := MkEntry { source : string; data : PyDict }.

(** One pass of a [for] loop of [search_databases] over the items of a
    source: [fetch] yields the raw record of an item, [failure] the text
    logged when its extraction raises [ValueError]. *)
Fixpoint extract_loop {I : Type} (src : string) (fetch : I -> PyDict)
  (failure : I -> string) (items : list I) (results : list result_entry)
  : M (list result_entry) :=
  match items with
  | [] => ret results
  | item :: rest =>
      let article := fetch item in
      results' <-
        try_except_kind is_ValueError
          (metadata <- extract_metadata article ;;
           ret (results ++ [MkEntry src (__dict__ metadata)]))
          (fun e =>
             logging ERROR (failure item +:+ ": " +:+ message e) ;;;
             ret results) ;;
      extract_loop src fetch failure rest results'
  end.

(** [search_databases]; [results] is [self.results] before the call, the
    value returned is [self.results] after it. *)
Definition search_databases (rd : Readers) (results : list result_entry)
  (query : string) (max_results : Z)
  (include_cochrane include_clinicaltrials : bool) : M (list result_entry) :=
  logging INFO "Searching PubMed..." ;;;
  let pmids := pubmed_search rd query max_results in
  results <- extract_loop "pubmed" (pubmed_fetch_details rd)
               (fun pmid => "Failed to extract metadata for PMID " +:+ pmid)
               pmids results ;;
  results <-
    (if include_cochrane then
       logging INFO "Searching Cochrane Library..." ;;;
       let cochrane_results := cochrane_search rd query max_results in
       extract_loop "cochrane" (fun article => article)
         (fun _ => "Failed to extract Cochrane metadata")
         cochrane_results results
     else ret results) ;;
  (if include_clinicaltrials then
     logging INFO "Searching ClinicalTrials.gov..." ;;;
     let ct_results := clinicaltrials_search rd query max_results in
     extract_loop "clinicaltrials" (fun trial => trial)
       (fun _ => "Failed to extract ClinicalTrials metadata")
       ct_results results
   else ret results).

End Review.

(* ===================================================================== *)
(** * The part of pandas the quality checks use *)
(* ===================================================================== *)

(** [pd.DataFrame(data)] for a list of dicts: one row per dict, one column
  per key that occurs in some dict; an entry a dict lacks is NaN. *)

Module Pandas.
Import PyStr Re Py.
Local Open Scope py_scope.

Record DataFrame : Type := MkDataFrame { rows : list PyDict }.

(** [df.columns], as a set: only membership is ever asked. *)
Definition columns (df : DataFrame) : gset string :=
  foldr (fun (row : PyDict) acc => dom row ∪ acc) ∅ (rows df).

Definition has_column (df : DataFrame) (name : string) : bool :=
  bool_decide (name ∈ columns df).

(** [len(df)] *)
Definition df_len (df : DataFrame) : nat := length (rows df).

Inductive cell : Type :=
| NaN
| Obj (v : PyVal).

(** [df[name]], for a column that exists. *)
Definition column (df : DataFrame) (name : string) : list cell :=
  map (fun row : PyDict =>
         match row !! name with
         | Some v => Obj v
         | None => NaN
         end) (rows df).

(** [isna]: NaN and [None]. *)
Definition isna (c : cell) : bool :=
  match c with
  | NaN | Obj VNone => true
  | _ => false
  end.

Definition is_int (c : cell) : bool :=
  match c with Obj (VInt _) => true | _ => false end.

Definition is_str (c : cell) : bool :=
  match c with Obj (VStr _) => true | _ => false end.

Definition int_in (lo hi : Z) (c : cell) : bool :=
  match c with Obj (VInt z) => (lo <=? z)%Z && (z <? hi)%Z | _ => false end.

(** The dtypes of NumPy that the constructor infers, and the nullable
    extension dtypes of pandas, which it never infers. *)
Inductive dtype : Type :=
| np_int64 | np_uint64 | np_float64 | np_object
| pd_Int64Dtype | pd_Float64Dtype.

Definition dtype_eqb (a b : dtype) : bool :=
  match a, b with
  | np_int64, np_int64 | np_uint64, np_uint64 | np_float64, np_float64
  | np_object, np_object | pd_Int64Dtype, pd_Int64Dtype
  | pd_Float64Dtype, pd_Float64Dtype => true
  | _, _ => false
  end.

(** The dtype of a column built from Python objects: integers alone give an
    integer dtype, integers with missing entries give [float64], anything
    else stays [object]. *)
Definition dtype_of (col : list cell) : dtype :=
  if forallb (int_in (- 2 ^ 63) (2 ^ 63)) col then np_int64
  else if forallb (int_in 0 (2 ^ 64)) col then np_uint64
  else if forallb (fun c => isna c || int_in (- 2 ^ 63) (2 ^ 64) c) col
          && existsb (fun c => is_int c || match c with NaN => true | _ => false end) col
  then np_float64
  else np_object.

(** [series.notna().mean()] *)
Definition notna_mean (col : list cell) : Q :=
  inject_Z (Z.of_nat (length (List.filter (fun c => negb (isna c)) col)))
  / inject_Z (Z.of_nat (length col)).

(** An ordered comparison of one entry with an integer ([sym] is the
    operator as written); a missing entry compares false, a string or a
    list cannot be compared. *)
Definition compare_cell (sym : string) (op : Z -> Z -> bool) (rhs : Z) (c : cell)
  : M bool :=
  match c with
  | NaN | Obj VNone => ret false
  | Obj (VInt z) => ret (op z rhs)
  | Obj v =>
      raise (Exn TypeError
               ("'" ++ sym ++ "' not supported between instances of '"
                  ++ type_name v ++ "' and 'int'"))
  end.

(** [series < rhs] and the like: the boolean mask. *)
Fixpoint compare (sym : string) (op : Z -> Z -> bool) (rhs : Z) (col : list cell)
  : M (list bool) :=
  match col with
  | [] => ret []
  | c :: rest =>
      b <- compare_cell sym op rhs c ;;
      bs <- compare sym op rhs rest ;;
      ret (b :: bs)
  end.

(** [mask1 | mask2] *)
Definition mask_or (m1 m2 : list bool) : list bool :=
  map (fun p : bool * bool => orb (fst p) (snd p)) (combine m1 m2).

(** [df[mask].index.tolist()]: the positions the mask selects. *)
Fixpoint selected (mask : list bool) (i : nat) : list nat :=
  match mask with
  | [] => []
  | b :: rest => if b then i :: selected rest (S i) else selected rest (S i)
  end.

(** Whether [series.str] exists: the column must be of dtype [object] and
    its entries, missing ones apart, must not all be integers. *)
Definition has_str_accessor (col : list cell) : bool :=
  match dtype_of col with
  | np_object =>
      let present := List.filter (fun c => negb (isna c)) col in
      match present with
      | [] => true
      | _ => negb (forallb is_int present)
      end
  | _ => false
  end.

(** [series.str.match(p, na=True).all()]: a string must match at its
    start; a missing entry, and an entry that is no string, count as
    [True]. *)
Definition str_match_all (p : pattern) (col : list cell) : M bool :=
  if has_str_accessor col then
    ret (forallb (fun c =>
                    match c with
                    | Obj (VStr s) =>
                        match match_start false p s with
                        | Some _ => true
                        | None => false
                        end
                    | _ => true
                    end) col)
  else raise (Exn AttributeError "Can only use .str accessor with string values!").

End Pandas.

(* ===================================================================== *)
(** * [src/validation/quality_checker.py] *)
(* ===================================================================== *)

Module QualityChecker.
Import PyStr Re Py Pandas.
Local Open Scope py_scope.

(** The issue texts, by their templates:
    ["Low completeness for {field}: {score:.1f}%"],
    ["Failed consistency check: {check}"],
    ["Found {n} invalid publication years"],
    ["Found {n} invalid sample sizes"]. *)
Inductive issue : Type :=
| LowCompleteness (field : string) (score : Q)
| FailedConsistency (check : string)
| InvalidYears (n : nat)
| InvalidSamples (n : nat).

Record QualityMetrics : Type := MkQualityMetrics
  { completeness_score : Q;
    consistency_score : Q;
    validity_score : Q;
    overall_score : Q;
    issues : list issue }.

(** [__init__]: [required_fields or [...]]. *)
Definition __init__ (required_fields : option (list string)) : list string :=
  match required_fields with
  | Some (f :: fs) => f :: fs
  | _ => ["title"; "authors"; "year"; "doi"; "sample_size"]
  end.

(** [d[k] = v] on a dict kept in insertion order. *)
Fixpoint dict_set {V : Type} (k : string) (v : V) (d : list (string * V))
  : list (string * V) :=
  match d with
  | [] => [(k, v)]
  | (k', v') :: d' =>
      if String.eqb k k' then (k, v) :: d' else (k', v') :: dict_set k v d'
  end.

Definition qsum (l : list Q) : Q := foldr Qplus 0%Q l.

(** [x / n] for a count [n]. *)
Definition divide (x : Q) (n : nat) : M Q :=
  match n with
  | O => raise (Exn ZeroDivisionError "division by zero")
  | _ => ret (x / inject_Z (Z.of_nat n))%Q
  end.

Fixpoint completeness_loop (df : DataFrame) (fields : list string)
  (field_scores : list (string * Q)) : list (string * Q) :=
  match fields with
  | [] => field_scores
  | field :: rest =>
      completeness_loop df rest
        (dict_set field
           (if has_column df field
            then (notna_mean (column df field) * 100)%Q else 0%Q)
           field_scores)
  end.

Record completeness_result : Type := MkCompleteness
  { c_scores : list (string * Q); c_score : Q }.

Definition _check_completeness (required_fields : list string) (df : DataFrame)
  : M completeness_result :=
  let field_scores := completeness_loop df required_fields [] in
  score <- divide (qsum (map snd field_scores)) (length field_scores) ;;
  ret (MkCompleteness field_scores score).

(** [df['year'].dtype in [pd.Int64Dtype(), pd.Float64Dtype()]] *)
Definition _check_year_format (df : DataFrame) : bool :=
  if negb (has_column df "year") then true
  else existsb (dtype_eqb (dtype_of (column df "year")))
         [pd_Int64Dtype; pd_Float64Dtype].

Definition _check_author_format (df : DataFrame) : bool :=
  if negb (has_column df "authors") then true
  else forallb (fun c => match c with Obj (VList _) => true | _ => false end)
         (column df "authors").

Definition doi_pattern : pattern := PaperData.DOI_PATTERN.

Definition _check_doi_format (df : DataFrame) : M bool :=
  if negb (has_column df "doi") then ret true
  else str_match_all doi_pattern (column df "doi").

Record consistency_result : Type := MkConsistency
  { k_checks : list (string * bool); k_score : Q }.

Definition _check_consistency (df : DataFrame) : M consistency_result :=
  let year_format := _check_year_format df in
  let author_format := _check_author_format df in
  doi_format <- _check_doi_format df ;;
  let checks := [("year_format", year_format); ("author_format", author_format);
                 ("doi_format", doi_format)] in
  score <- divide (inject_Z (Z.of_nat (length (List.filter (fun c => snd c) checks))))
             (length checks) ;;
  ret (MkConsistency checks (score * 100)%Q).

Record validity_result : Type := MkValidity
  { v_issues : list issue; v_score : Q }.

Definition _check_validity (current_year : Z) (df : DataFrame) : M validity_result :=
  issues <-
    (if has_column df "year" then
       too_old <- compare "<" Z.ltb 1800 (column df "year") ;;
       too_new <- compare ">" Z.gtb current_year (column df "year") ;;
       let invalid_years := selected (mask_or too_old too_new) 0 in
       ret (match invalid_years with
            | [] => []
            | _ => [InvalidYears (length invalid_years)]
            end)
     else ret []) ;;
  issues <-
    (if has_column df "sample_size" then
       nonpositive <- compare "<=" Z.leb 0 (column df "sample_size") ;;
       let invalid_samples := selected nonpositive 0 in
       ret (match invalid_samples with
            | [] => issues
            | _ => issues ++ [InvalidSamples (length invalid_samples)]
            end)
     else ret issues) ;;
  let score := Qmax 0 (100 - inject_Z (Z.of_nat (length issues)) * 10)%Q in
  ret (MkValidity issues score).

Definition _get_completeness_issues (completeness : completeness_result)
  : list issue :=
  flat_map (fun fs : string * Q =>
              if negb (Qle_bool 90 (snd fs))
              then [LowCompleteness (fst fs) (snd fs)] else [])
    (c_scores completeness).

Definition _get_consistency_issues (consistency : consistency_result)
  : list issue :=
  flat_map (fun cp : string * bool =>
              if negb (snd cp) then [FailedConsistency (fst cp)] else [])
    (k_checks consistency).

Definition _get_validity_issues (validity : validity_result) : list issue :=
  v_issues validity.

Definition check_quality (required_fields : list string) (current_year : Z)
  (data : list PyDict) : M QualityMetrics :=
  try_except
    (let df := MkDataFrame data in
     completeness <- _check_completeness required_fields df ;;
     consistency <- _check_consistency df ;;
     validity <- _check_validity current_year df ;;
     let issues :=
       _get_completeness_issues completeness
         ++ _get_consistency_issues consistency
         ++ _get_validity_issues validity in
     let overall_score :=
       (c_score completeness * (4 # 10) + k_score consistency * (3 # 10)
        + v_score validity * (3 # 10))%Q in
     ret (MkQualityMetrics (c_score completeness) (k_score consistency)
            (v_score validity) overall_score issues))
    (fun e =>
       logging ERROR ("Quality check failed: " ++ message e) ;;;
       raise e).

End QualityChecker.


(* ===================================================================== *)
(** * [src/exporters/validator.py] *)
(* ===================================================================== *)

Module DataValidator.
Import PyStr Re Py Pandas.

(** An entry of [self.validation_results], by its template
    ["Completeness warning: {field} ({score:.1f}% < {threshold}%)"]. *)
Inductive warning : Type :=
| CompletenessWarning (field : string) (score : Q) (threshold : Q).

(** A method of the validator reads and extends [self.validation_results];
    what was appended before an exception stays appended. *)
Definition V (A : Type) : Type := list warning -> M A * list warning.

Definition vret {A} (a : A) : V A := fun st => (ret a, st).

Definition vlift {A} (m : M A) : V A := fun st => (m, st).

Definition vbind {A B} (m : V A) (f : A -> V B) : V B :=
  fun st =>
    match m st with
    | ((inl e, l), st') => ((inl e, l), st')
    | ((inr a, l), st') =>
        match f a st' with
        | ((r, l'), st'') => ((r, l ++ l'), st'')
        end
    end.

Definition append_result (w : warning) : V unit :=
  fun st => (ret tt, st ++ [w]).

Definition get_results : V (list warning) := fun st => (ret st, st).

Declare Scope dv_scope.
Delimit Scope dv_scope with dv.
Notation "x <- m ;; k" := (vbind m (fun x => k))
  (at level 100, m at next level, right associativity) : dv_scope.
Notation "m ;;; k" := (vbind m (fun _ => k))
  (at level 100, right associativity) : dv_scope.
Local Open Scope dv_scope.

(** The time of the call: [datetime.now().year] and
    [datetime.now().isoformat()]. *)
Record clock : Type := MkClock { now_year : Z; now_isoformat : string }.

Definition required_fields : list (string * Q) :=
  [("title", 100%Q); ("authors", 100%Q); ("year", 90%Q);
   ("study_type", 80%Q); ("sample_size", 70%Q)].

Fixpoint completeness_loop (df : DataFrame) (fields : list (string * Q))
  (completeness : list (string * Q)) : V (list (string * Q)) :=
  match fields with
  | [] => vret completeness
  | (field, threshold) :: rest =>
      if has_column df field then
        let score := (notna_mean (column df field) * 100)%Q in
        (if negb (Qle_bool threshold score)
         then append_result (CompletenessWarning field score threshold)
         else vret tt) ;;;
        completeness_loop df rest (QualityChecker.dict_set field score completeness)
      else completeness_loop df rest completeness
  end.

Definition _check_completeness (df : DataFrame) : V (list (string * Q)) :=
  completeness_loop df required_fields [].

(** [self.df['year'].dtype in [np.int64, np.float64]]: the module never
    imports [np]. *)
Definition _check_year_consistency (df : DataFrame) : M bool :=
  if negb (has_column df "year") then ret true
  else raise (Exn NameError "name 'np' is not defined").

Definition _check_author_format (df : DataFrame) : bool :=
  if negb (has_column df "authors") then true
  else forallb (fun c => match c with Obj (VList _) => true | _ => false end)
         (column df "authors").

Definition doi_pattern : pattern := PaperData.DOI_PATTERN.

Definition _check_doi_format (df : DataFrame) : M bool :=
  if negb (has_column df "doi") then ret true
  else str_match_all doi_pattern (column df "doi").

Definition _check_consistency (df : DataFrame) : V (list (string * bool)) :=
  valid_years <- vlift (_check_year_consistency df) ;;
  let author_format := _check_author_format df in
  doi_format <- vlift (_check_doi_format df) ;;
  vret [("valid_years", valid_years); ("author_format", author_format);
        ("doi_format", doi_format)].

Definition _check_validity (clk : clock) (df : DataFrame)
  : V (list (string * list nat)) :=
  validity_issues <-
    (if has_column df "year" then
       too_old <- vlift (compare "<" Z.ltb 1900 (column df "year")) ;;
       too_new <- vlift (compare ">" Z.gtb (now_year clk) (column df "year")) ;;
       vret [("year", selected (mask_or too_old too_new) 0)]
     else vret []) ;;
  (if has_column df "sample_size" then
     nonpositive <- vlift (compare "<=" Z.leb 0 (column df "sample_size")) ;;
     vret (validity_issues ++ [("sample_size", selected nonpositive 0)])
   else vret validity_issues).

Definition _completeness_score (df : DataFrame) : V Q :=
  completeness <- _check_completeness df ;;
  vlift (QualityChecker.divide (QualityChecker.qsum (map snd completeness))
           (length completeness)).

Definition _consistency_score (df : DataFrame) : V Q :=
  consistency <- _check_consistency df ;;
  score <- vlift (QualityChecker.divide
                    (inject_Z (Z.of_nat
                       (length (List.filter (fun c => snd c) consistency))))
                    (length consistency)) ;;
  vret (score * 100)%Q.

Definition _validity_score (clk : clock) (df : DataFrame) : V Q :=
  validity <- _check_validity clk df ;;
  let total_issues :=
    fold_right Nat.add 0%nat (map (fun fi => length (snd fi)) validity) in
  ratio <- vlift (QualityChecker.divide (inject_Z (Z.of_nat total_issues))
                    (df_len df)) ;;
  vret (Qmax 0 (100 - ratio * 100))%Q.

Definition _calculate_quality_score (clk : clock) (df : DataFrame) : V Q :=
  completeness <- _completeness_score df ;;
  consistency <- _consistency_score df ;;
  validity <- _validity_score clk df ;;
  vret (0 + completeness * (4 # 10) + consistency * (3 # 10)
        + validity * (3 # 10))%Q.

Record summary : Type := MkSummary
  { quality_score : Q; total_issues : nat; validation_date : string }.

Definition _generate_validation_summary (clk : clock) (df : DataFrame)
  : V summary :=
  score <- _calculate_quality_score clk df ;;
  results <- get_results ;;
  vret (MkSummary score (length results) (now_isoformat clk)).

(** What [validate_all] returns: the four results, or the empty dict. *)
Inductive validation : Type :=
| Results (completeness : list (string * Q))
          (consistency : list (string * bool))
          (validity : list (string * list nat))
          (summary_ : summary)
| EmptyDict.

Definition v_try_except {A} (m : V A) (h : exn -> V A) : V A :=
  fun st =>
    match m st with
    | ((inl e, l), st') =>
        match h e st' with
        | ((r, l'), st'') => ((r, l ++ l'), st'')
        end
    | ok => ok
    end.

Definition validate_all (clk : clock) (df : DataFrame) : V validation :=
  v_try_except
    (completeness <- _check_completeness df ;;
     consistency <- _check_consistency df ;;
     validity <- _check_validity clk df ;;
     summary <- _generate_validation_summary clk df ;;
     vret (Results completeness consistency validity summary))
    (fun e =>
       vlift (logging ERROR ("Validation failed: " ++ message e)) ;;;
       vret EmptyDict).

(** [DataValidator(data)] *)
Definition __init__ (data : list PyDict) : DataFrame * list warning :=
  (MkDataFrame data, []).

End DataValidator.


(* ===================================================================== *)
(** * Notions the statements are written with *)
(* ===================================================================== *)

Module Notions.
Import PyStr Re Py PaperData Review Pandas.

(** ** Titles *)

(** The value the title is read from. *)
Definition resolved_title (data : PyDict) : PyVal :=
get data "TI" (get data "title" (VStr "")).

(** A title the normaliser accepts: a string of trimmed length at least 3. *)
Definition usable_title (v : PyVal) : Prop :=
exists s, v = VStr s /\ (3 <= len (strip s))%nat.

(** ** Study types *)

(** [kw] occurs in [text]. *)
Definition occurs_in (kw text : string) : Prop :=
exists before after, text = (before ++ kw ++ after)%string.





(** ** Links *)

Definition doi_link (d : string) : string := "https://doi.org/" +:+ d.

Definition url_fields : list string := ["LID"; "OUR"; "full_text_url"].

Definition is_str (v : PyVal) : bool :=
match v with VStr _ => true | _ => false end.

(** A value the link scan reads without error: a string or a list of
  strings. *)
Definition readable (v : PyVal) : bool :=
match v with
| VStr _ => true
| VList items => forallb is_str items
| _ => false
end.

(** Every URL-bearing field of the record is readable or not there. *)
Definition url_fields_readable (data : PyDict) : bool :=
forallb (fun field => readable (get data field (VList []))) url_fields.

(** The strings a URL-bearing field holds. *)
Definition strings_in (v : PyVal) : list string :=
match v with
| VStr s => [s]
| VList items =>
    flat_map (fun x => match x with VStr s => [s] | _ => [] end) items
| _ => []
end.

Definition source_urls (data : PyDict) : list string :=
flat_map (fun field => strings_in (get data field (VList []))) url_fields.

(** The DOI syntax in the words of the specification, [10.NNNN+/suffix]:
  the text [10.], four digits or more, a slash, a suffix that is not
  empty. *)
Definition spec_doi_syntax : pattern :=
[Lit "10."; Rep false isdigit 4 None; Lit "/"; Rep false (fun _ => true) 1 None].

(** ** The language of a pattern *)

(** [t] is the literal text [l], letter case apart when [ic] is set. *)
Fixpoint lit_eq (ic : bool) (l t : string) : bool :=
  match l, t with
  | EmptyString, EmptyString => true
  | String a l', String b t' => char_eq ic a b && lit_eq ic l' t'
  | _, _ => false
  end.

Fixpoint all_chars (cls : ascii -> bool) (t : string) : bool :=
  match t with
  | EmptyString => true
  | String c t' => cls c && all_chars cls t'
  end.

Definition within (hi : option nat) (n : nat) : Prop :=
  match hi with
  | Some h => (n <= h)%nat
  | None => True
  end.

(** The texts one atom stands for. *)
Definition atom_lang (ic : bool) (a : atom) (u : string) : Prop :=
  match a with
  | Lit l => lit_eq ic l u = true
  | Alt _ alts => exists l, l ∈ alts /\ lit_eq ic l u = true
  | Rep _ cls lo hi => all_chars cls u = true /\ (lo <= len u)%nat /\ within hi (len u)
  end.

(** The texts a pattern stands for: one text per atom, in a row. *)
Fixpoint in_lang (ic : bool) (p : pattern) (t : string) : Prop :=
  match p with
  | [] => t = ""
  | a :: p' => exists u v, t = (u ++ v)%string /\ atom_lang ic a u /\ in_lang ic p' v
  end.

(** ** Records handed to the controller *)

(** The entries a list of raw records contributes: those of the records
  the normaliser accepts, in order. *)
Definition normalized (src : string) (articles : list PyDict)
: list result_entry :=
omap (fun article =>
        match result (extract_metadata article) with
        | inr metadata => Some (MkEntry src (__dict__ metadata))
        | inl _ => None
        end) articles.

(** ** Validity *)

(** An entry that is an integer or missing. *)
Definition numeric_cell (c : cell) : Prop :=
match c with
| NaN | Obj VNone | Obj (VInt _) => True
| _ => False
end.

(** The outcome of an ordered comparison on such an entry. *)
Definition test_cell (op : Z -> Z -> bool) (rhs : Z) (c : cell) : bool :=
match c with
| Obj (VInt z) => op z rhs
| _ => false
end.

(** The field of the record is an integer, [None], or not there. *)
Definition int_or_missing (field : string) (row : PyDict) : bool :=
match row !! field with
| None | Some VNone | Some (VInt _) => true
| _ => false
end.

(** The years and the sample sizes of the records are integers or missing. *)
Definition numeric_records (data : list PyDict) : bool :=
forallb (int_or_missing "year") data && forallb (int_or_missing "sample_size") data.

(** The year of the record is an integer outside [lo, now]. *)
Definition year_flagged (lo now : Z) (row : PyDict) : bool :=
match row !! "year" with
| Some (VInt y) => (y <? lo)%Z || (now <? y)%Z
| _ => false
end.

(** The sample size of the record is an integer that is not positive. *)
Definition sample_flagged (row : PyDict) : bool :=
match row !! "sample_size" with
| Some (VInt n) => (n <=? 0)%Z
| _ => false
end.

Definition count (p : PyDict -> bool) (data : list PyDict) : nat :=
length (List.filter p data).

(** The number of the two checks of [QualityChecker._check_validity] that
  some record violates. *)
Definition violated_checks (lo now : Z) (data : list PyDict) : nat :=
((if (0 <? count (year_flagged lo now) data)%nat then 1 else 0)
 + (if (0 <? count sample_flagged data)%nat then 1 else 0))%nat.

(** The validity score in the words of the specification: one hundred less
  the percentage of flagged records, a record being flagged when its year
  is out of range or its sample size is not positive. *)
Definition spec_validity (lo now : Z) (data : list PyDict) : Q :=
Qmax 0 (100 - inject_Z (Z.of_nat
                 (count (fun row => year_flagged lo now row || sample_flagged row) data))
              / inject_Z (Z.of_nat (length data)) * 100)%Q.

End Notions.

(* ===================================================================== *)
(** * Sample records *)
(* ===================================================================== *)

Module Samples.
Import Py Review DataValidator.

(** A usable title, and a DOI given as a list of strings. *)
Definition doi_as_list : PyDict :=
list_to_map [("title", VStr "Valid Title"); ("DOI", VList [VStr "10.1234/abc"])].

(** A usable title, and an author field that is [None]. *)
Definition authors_none : PyDict :=
list_to_map [("title", VStr "Valid Title"); ("authors", VNone)].

(** The record of [test_extract_full_text_links]. *)
Definition doi_and_link : PyDict :=
list_to_map [("DOI", VStr "10.1234/example.12345");
             ("LID", VStr "https://example.com/paper")].

(** A DOI, and a link nested one list deeper. *)
Definition nested_link : PyDict :=
list_to_map [("DOI", VStr "10.1234/abc");
             ("LID", VList [VList [VStr "https://example.com/paper"]])].

(** A DOI field whose third character is not a dot. *)
Definition doi_without_dot : PyDict :=
list_to_map [("DOI", VStr "10X1234/abc")].

(** A normalised record with every field present and valid. *)
Definition complete_record : PyDict :=
list_to_map [("title", VStr "A Study"); ("authors", VList [VStr "Smith J"]);
             ("year", VInt 2020); ("doi", VStr "10.1234/abc");
             ("sample_size", VInt 100)].

(** A record that fails both validity checks, and one that fails none. *)
Definition two_flags : PyDict :=
list_to_map [("year", VInt 1750); ("sample_size", VInt 0)].

Definition no_flag : PyDict :=
list_to_map [("year", VInt 2020); ("sample_size", VInt 10)].

Definition flag_pair : list PyDict := [two_flags; no_flag].

Definition clock_2026 : clock := MkClock 2026 "2026-11-04T12:00:00".

(** The three raw records of the end-to-end scenario: a randomised trial
  with DOI, year 2023 and 500 participants; a record without title; a
  record of the year 1750. *)
Definition trial_record : PyDict :=
list_to_map [("TI", VStr "A Randomized Controlled Trial");
             ("DOI", VStr "10.1234/example.12345");
             ("DP", VStr "2023 Jan 15");
             ("AB", VStr "This study included n=500 participants")].

Definition untitled_record : PyDict :=
list_to_map [("DP", VStr "2021")].

Definition old_record : PyDict :=
list_to_map [("TI", VStr "An Old Study"); ("DP", VStr "1750")].

Definition scenario_readers : Readers :=
MkReaders
  (fun _ _ => ["1"; "2"; "3"])
  (fun pmid =>
     if String.eqb pmid "1" then trial_record
     else if String.eqb pmid "2" then untitled_record
     else old_record)
  (fun _ _ => [])
  (fun _ _ => []).


End Samples.

(* ===================================================================== *)
(** * Exceptions that carry a key *)
(* ===================================================================== *)

Module Raised.
Import Py.

(** What the code below may raise: [KeyError(key)], or one of the
    exceptions of [Py.exn]. *)
Inductive raised : Type :=
| KeyError (key : string)
| Other (e : exn).

(** [str(e)]: a [KeyError] shows its key between quotes. *)
Definition str (r : raised) : string :=
  match r with
  | KeyError key => "'" ++ key ++ "'"
  | Other e => message e
  end.

Definition index_out_of_range : raised :=
  Other (Exn IndexError "list index out of range").

End Raised.

(* ===================================================================== *)
(** * [src/extractors/pubmed.py] *)
(* ===================================================================== *)

Module Pubmed.
Import PyStr Py Raised.

(** The line feed. *)
Definition nl : ascii := ascii_of_nat 10.

(** [line.split('-', 1)] when the line has a ['-']: the text before the
    first one and the text after it. *)
Fixpoint split_dash (line : string) : option (string * string) :=
  match line with
  | EmptyString => None
  | String c rest =>
      if Ascii.eqb c "-" then Some (EmptyString, rest)
      else
        match split_dash rest with
        | Some (before, after) => Some (String c before, after)
        | None => None
        end
  end.

(** The variables of the loop of [_parse_medline]: [data] and
    [current_field]. *)
Definition parse_state : Type := gmap string string * option string.

(** One pass of the loop [for line in record.split('\n')]. *)
Definition parse_line (st : parse_state) (line : string) : raised + parse_state :=
  let (data, current_field) := st in
  if String.eqb (strip line) "" then inr st
  else if startswith "      " line then
    match current_field with
    | Some field =>
        if negb (String.eqb field "") then
          match data !! field with
          | Some value =>
              inr (<[field := (value ++ " " ++ strip line)%string]> data, current_field)
          | None => inl (KeyError field)
          end
        else inr st
    | None => inr st
    end
  else if startswith "PMID" line then
    match split_dash line with
    | Some (_, after) => inr (<["pmid" := strip after]> data, current_field)
    | None => inl index_out_of_range
    end
  else
    match split_dash line with
    | Some (field, value) =>
        inr (<[strip field := strip value]> data, Some (strip field))
    | None => inr st
    end.

Fixpoint parse_lines (lines : list string) (st : parse_state)
  : raised + parse_state :=
  match lines with
  | [] => inr st
  | line :: rest =>
      match parse_line st line with
      | inl e => inl e
      | inr st' => parse_lines rest st'
      end
  end.

Definition _parse_medline (record : string) : raised + gmap string string :=
  match parse_lines (split_char nl record) (∅, None) with
  | inl e => inl e
  | inr (data, _) => inr data
  end.

(** [fetch_details]; [efetch] is the request to the server, which yields
    the text of the record or fails.  The value returned and the error
    logged. *)
Definition fetch_details (efetch : string -> raised + string) (pmid : string)
  : gmap string string * list log_record :=
  match
    match efetch pmid with
    | inl e => inl e
    | inr record => _parse_medline record
    end
  with
  | inr data => (data, [])
  | inl e =>
      (∅, [Log ERROR ("Failed to fetch details for PMID " ++ pmid ++ ": " ++ str e)])
  end.

(** A parsed record as the normaliser receives it. *)
Definition raw_record (data : gmap string string) : PyDict := VStr <$> data.

End Pubmed.

(* ===================================================================== *)
(** * [src/exporters/validator.py]: the report *)
(* ===================================================================== *)

Module Report.
Import Py Pandas DataValidator Raised.

(** The calls of [f.write] in [generate_report], by their templates:
    ["Data Validation Report\n"], ["Generated: {now}\n\n"],
    ["Data Completeness:\n"], ["- {field}: {score:.1f}%\n"],
    ["\nData Consistency:\n"], ["- {check}: Pass\n"] or ["- {check}: Fail\n"],
    ["\nData Validity:\n"], ["- {field}: {n} issues found\n"],
    ["\nSummary:\n"], ["Overall Quality Score: {score:.1f}%\n"],
    ["Total Issues Found: {n}\n"]. *)
Inductive write : Type :=
| Title
| Generated (now : string)
| CompletenessHeading
| CompletenessLine (field : string) (score : Q)
| ConsistencyHeading
| ConsistencyLine (check : string) (passed : bool)
| ValidityHeading
| ValidityLine (field : string) (n : nat)
| SummaryHeading
| QualityScoreLine (score : Q)
| TotalIssuesLine (n : nat).

(** What a call of [generate_report] leaves behind: the writes to the
    report file, in order ([None] when the file was never opened), how the
    call ended, what it logged, and [self.validation_results]. *)
Record report_run : Type := MkRun
  { written : option (list write);
    ended : raised + unit;
    logged : list log_record;
    results_after : list warning }.

(** [generate_report]; [now] is [str(datetime.now())] when the second line
    is written, and the report file can be opened for writing. *)
Definition generate_report (clk : clock) (now : string) (df : DataFrame)
  (st : list warning) : report_run :=
  match validate_all clk df st with
  | ((inl e, l), st') =>
      MkRun None (inl (Other e))
        (l ++ [Log ERROR ("Report generation failed: " ++ message e)]) st'
  | ((inr EmptyDict, l), st') =>
      MkRun (Some [Title; Generated now; CompletenessHeading])
        (inl (KeyError "completeness"))
        (l ++ [Log ERROR ("Report generation failed: " ++ str (KeyError "completeness"))])
        st'
  | ((inr (Results completeness consistency validity summary), l), st') =>
      MkRun
        (Some ([Title; Generated now; CompletenessHeading]
                 ++ map (fun fs : string * Q => CompletenessLine (fst fs) (snd fs))
                      completeness
                 ++ [ConsistencyHeading]
                 ++ map (fun cr : string * bool => ConsistencyLine (fst cr) (snd cr))
                      consistency
                 ++ [ValidityHeading]
                 ++ map (fun fi : string * list nat => ValidityLine (fst fi) (length (snd fi)))
                      validity
                 ++ [SummaryHeading; QualityScoreLine (quality_score summary);
                     TotalIssuesLine (total_issues summary)]))
        (inr tt) l st'
  end.

End Report.

(* ===================================================================== *)
(** * [src/exporters/base.py], [csv.py], [excel.py] *)
(* ===================================================================== *)

Module Exporters.
Import Py Pandas.
Local Open Scope py_scope.

(** What the exporters only call: [df.drop_duplicates()] of pandas, and
    the part of each [export] that follows [_prepare_data] (the path, the
    writing of the file), which returns the path written. *)
Record Backend : Type := MkBackend
  { drop_duplicates : DataFrame -> M DataFrame;
    write_csv : DataFrame -> string -> M string;
    write_excel : DataFrame -> string -> M string }.

(** [_clean_dataframe]: a frame built from the values of [PyVal] has no
    [datetime64] column, so the loop over the date columns has nothing to
    visit. *)
Definition _clean_dataframe (bk : Backend) (df : DataFrame) : M DataFrame :=
  df <- drop_duplicates bk df ;;
  ret df.

Definition _prepare_data (bk : Backend) (data : list PyDict) : M DataFrame :=
  try_except
    (let df := MkDataFrame data in
     _clean_dataframe bk df)
    (fun e =>
       logging ERROR ("Data preparation failed: " ++ message e) ;;;
       raise (Exn ValueError "Failed to prepare data for export")).

Module CSVExporter.

Definition export (bk : Backend) (data : list PyDict) (filename : string) : M string :=
  try_except
    (df <- _prepare_data bk data ;;
     write_csv bk df filename)
    (fun e =>
       logging ERROR ("CSV export failed: " ++ message e) ;;;
       raise e).

End CSVExporter.

Module ExcelExporter.

Definition export (bk : Backend) (data : list PyDict) (filename : string) : M string :=
  try_except
    (df <- _prepare_data bk data ;;
     write_excel bk df filename)
    (fun e =>
       logging ERROR ("Excel export failed: " ++ message e) ;;;
       raise e).

End ExcelExporter.

End Exporters.

(* ===================================================================== *)
(** * [src/review.py]: export and validation *)
(* ===================================================================== *)

Module ReviewOutput.
Import Py Pandas Review DataValidator Raised Report Exporters.
Local Open Scope py_scope.

(** [export_results]; [results] is [self.results]. *)
Definition export_results (bk : Backend) (results : list result_entry)
  (format filename : string) : M string :=
  let data := map data results in
  try_except
    (if String.eqb format "csv" then CSVExporter.export bk data filename
     else if String.eqb format "excel" then ExcelExporter.export bk data filename
     else raise (Exn ValueError "Supported formats: 'csv', 'excel'"))
    (fun e =>
       logging ERROR ("Export failed: " ++ message e) ;;;
       raise e).

(** What a call of [validate_data] leaves behind: the value returned, the
    log, and the writes to [validation_report.txt] when it was opened. *)
Record validation_run : Type := MkValidationRun
  { returned : validation;
    run_log : list log_record;
    report_file : option (list write) }.

(** [validate_data]; [now] is the time at which the report is written. *)
Definition validate_data (clk : clock) (now : string) (results : list result_entry)
  (generate_report : bool) : validation_run :=
  let (df, st) := DataValidator.__init__ (map data results) in
  match validate_all clk df st with
  | ((inl e, l), _) =>
      MkValidationRun EmptyDict
        (l ++ [Log ERROR ("Data validation failed: " ++ message e)]) None
  | ((inr validation_results, l), st') =>
      if generate_report then
        let run := Report.generate_report clk now df st' in
        match ended run with
        | inl e =>
            MkValidationRun EmptyDict
              (l ++ logged run ++ [Log ERROR ("Data validation failed: " ++ str e)])
              (written run)
        | inr _ => MkValidationRun validation_results (l ++ logged run) (written run)
        end
      else MkValidationRun validation_results l None
  end.

End ReviewOutput.

(* ===================================================================== *)
(** * Notions of the further properties *)
(* ===================================================================== *)

Module Fields.
Import PyStr Re Py PaperData.

(** The value the authors are read from. *)
Definition raw_authors (data : PyDict) : PyVal :=
  get data "AU" (get data "authors" (get data "FAU" (VList []))).

(** The names an author field holds when it is a string (its pieces
    between commas) or a list of strings. *)
Definition author_pieces (v : PyVal) : option (list string) :=
  match v with
  | VStr s => Some (split_char "," s)
  | VList items =>
      if forallb Notions.is_str items then Some (Notions.strings_in v) else None
  | _ => None
  end.

(** A name the author list keeps: more than one character. *)
Definition long_name (a : string) : bool := (1 <? len a)%nat.

(** The names kept out of those of the field. *)
Definition kept_authors (pieces : list string) : list string :=
  List.filter long_name (map strip pieces).

(** The value the DOI is read from. *)
Definition doi_field (data : PyDict) : PyVal :=
  get data "DOI" (get data "doi" (VStr "")).

(** A web link. *)
Definition is_http (l : string) : bool :=
  startswith "http://" l || startswith "https://" l.

End Fields.

Module Groups.
Import PyStr Re Notions.

(** The texts a pattern stands for, with the texts of its capturing
    groups. *)
Fixpoint in_lang_groups (ic : bool) (p : pattern) (t : string) (g : list string)
  : Prop :=
  match p with
  | [] => t = "" /\ g = []
  | a :: p' =>
      exists u v g',
        t = (u ++ v)%string /\ atom_lang ic a u /\ in_lang_groups ic p' v g'
        /\ g = match a with
               | Lit _ => g'
               | Alt cap _ | Rep cap _ _ _ => captured cap u g'
               end
  end.

(** The string is empty or begins with a character outside the class. *)
Definition stops (cls : ascii -> bool) (s : string) : Prop :=
  match s with
  | EmptyString => True
  | String c _ => cls c = false
  end.

End Groups.

Module MoreSamples.
Import Py.

(** An author field given as one string. *)
Definition authors_as_text : PyDict :=
  list_to_map [("authors", VStr "Smith J, Doe A , X,")].

(** An abstract that reports no participant. *)
Definition zero_participants : PyDict :=
  list_to_map [("AB", VStr "Enrolment failed (N = 0).")].

(** A DOI quoted inside a sentence. *)
Definition doi_in_a_sentence : PyDict :=
  list_to_map [("doi", VStr "(see doi:10.1234/abc). Further text")].

(** A result record with every field resolved. *)
Definition complete_metadata : PaperData.PaperMetadata :=
  PaperData.MkPaperMetadata "A Study" ["Smith J"] (Some "10.1234/abc") (Some 2020%Z)
    (Some 100%Z) (Some "RCT") ["https://doi.org/10.1234/abc"].

(** A record whose title is missing ([None]) and that has no year. *)
Definition untitled_row : PyDict :=
  list_to_map [("title", VNone); ("authors", VList [VStr "Smith J"])].

(** A record whose year is a string. *)
Definition year_as_text : PyDict :=
  list_to_map [("title", VStr "A Study"); ("year", VStr "2020")].

End MoreSamples.

Module Scores.
Import Py Pandas PaperData.

(** A score between 0 and 100. *)
Definition in_range (q : Q) : Prop := (0 <= q /\ q <= 100)%Q.

(** An entry of a column of strings with missing values. *)
Definition text_cell (c : cell) : bool :=
  match c with
  | Obj VNone | Obj (VStr _) => true
  | _ => false
  end.

(** The records the normaliser hands on. *)
Definition normalised (ms : list PaperMetadata) : list PyDict := map __dict__ ms.

End Scores.

Module Validation.
Import Py Pandas DataValidator.

(** The warnings one pass of [_check_completeness] appends: one for each
    required field that is a column and whose score is below its
    threshold. *)
Definition low_fields (df : DataFrame) (fields : list (string * Q)) : list warning :=
  flat_map (fun ft : string * Q =>
              if has_column df (fst ft)
                 && negb (Qle_bool (snd ft) (notna_mean (column df (fst ft)) * 100)%Q)
              then [CompletenessWarning (fst ft)
                      (notna_mean (column df (fst ft)) * 100)%Q (snd ft)]
              else [])
    fields.

(** A method that leaves [self.validation_results] as it found it. *)
Definition keeps_results {A} (m : V A) : Prop :=
  forall st, snd (m st) = st.

End Validation.

Module ListCells.
Import Py Pandas.

Definition is_list (v : PyVal) : bool :=
  match v with VList _ => true | _ => false end.

(** Some entry of the record is a list. *)
Definition holds_list (row : PyDict) : bool :=
  existsb (fun kv : string * PyVal => is_list (snd kv)) (map_to_list row).

(** Some record of the frame holds a list. *)
Definition has_list_cell (df : DataFrame) : bool := existsb holds_list (rows df).

(** A stand-in for pandas that refuses to hash a list, as
    [drop_duplicates] does, and writes nothing. *)
Definition hashing_backend : Exporters.Backend :=
  Exporters.MkBackend
    (fun df =>
       if has_list_cell df then raise (Exn TypeError "unhashable type: 'list'")
       else ret df)
    (fun _ filename => ret ("exports/" +:+ filename +:+ ".csv"))
    (fun _ filename => ret ("exports/" +:+ filename +:+ ".xlsx")).

End ListCells.

Module Medline.
Import PyStr Py Pubmed.

(** The characters of a string. *)
Definition chars (s : string) : list ascii := list_ascii_of_string s.

(** A line of the form [field-value] that the parser reads as a tag: it
    holds no line feed, the field holds no ['-'], and the line begins
    neither with six spaces nor with [PMID]. *)
Definition tag_line (field value : string) : Prop :=
  ~ In "-"%char (chars field)
  /\ ~ In nl (chars field) /\ ~ In nl (chars value)
  /\ startswith "      " (field ++ "-" ++ value) = false
  /\ startswith "PMID" (field ++ "-" ++ value) = false.

(** The current field, when there is one, is a key of the data. *)
Definition field_is_key (st : parse_state) : Prop :=
  match snd st with
  | Some field => is_Some (fst st !! field)
  | None => True
  end.

End Medline.

Module Dates.
Import PyStr.

Definition notspace (c : ascii) : bool := negb (isspace c).

(** The formats of [_extract_year] that can parse a word. *)
Definition live_formats : list string := ["%Y"; "%Y/%m/%d"; "%Y-%m-%d"].

End Dates.

Module Pipeline.
Import Py PaperData.

(** A result record that the normaliser returned for some raw record. *)
Definition extracted (m : PaperMetadata) : Prop :=
  exists data, result (extract_metadata data) = inr m.

End Pipeline.

(* ===================================================================== *)
(** * Properties *)
(* ===================================================================== *)

(** ** The effect monad *)

Section MonadFacts.
Import Py Notions.
Context {A B : Type}.

Lemma result_ret (a : A) : result (ret a) = inr a.
Proof. reflexivity. Qed.

Lemma result_bind_inr (m : M A) (f : A -> M B) (a : A) :
  result m = inr a -> result (bind m f) = result (f a).
Proof.
  destruct m as [[e | a'] l]; simpl; intros [= ->].
  unfold bind. destruct (f a) as [r l']. reflexivity.
Qed.

Lemma result_bind_inl (m : M A) (f : A -> M B) (e : exn) :
  result m = inl e -> result (bind m f) = inl e.
Proof. destruct m as [[e' | a] l]; simpl; intros [= ->]. reflexivity. Qed.

Lemma logs_bind_inr (m : M A) (f : A -> M B) (a : A) :
  result m = inr a -> logs (bind m f) = logs m ++ logs (f a).
Proof.
  destruct m as [[e | a'] l]; simpl; intros [= ->].
  unfold bind. destruct (f a) as [r l']. reflexivity.
Qed.

Lemma bind_inv_inr (m : M A) (f : A -> M B) (b : B) :
  result (bind m f) = inr b ->
  exists a, result m = inr a /\ result (f a) = inr b.
Proof.
  destruct m as [[e | a] l]; simpl; [discriminate |].
  destruct (f a) as [r l'] eqn:E. simpl. intros ->.
  exists a. rewrite E. auto.
Qed.

End MonadFacts.

(** ** The normaliser raises nothing but [ValueError] *)

Section Normaliser.
Import PyStr Py PaperData Notions.

Lemma extract_metadata_raises_ValueError (data : PyDict) (e : exn) :
  result (extract_metadata data) = inl e -> kind e = ValueError.
Proof.
  unfold extract_metadata, try_except.
  match goal with |- context [match ?m with _ => _ end] => destruct m as [[e' | m'] l] end.
  - simpl. intros [= <-]. reflexivity.
  - simpl. discriminate.
Qed.

End Normaliser.

(** ** The aggregation controller *)

Section Controller.
Import PyStr Py PaperData Review Notions.

Context {I : Type} (src : string) (fetch : I -> PyDict) (failure : I -> string).

Lemma extract_loop_result (items : list I) (results : list result_entry) :
  result (extract_loop src fetch failure items results)
  = inr (results ++ normalized src (map fetch items)).
Proof.
  revert results. induction items as [| item rest IH]; intros results.
  - simpl. unfold normalized. simpl. rewrite app_nil_r. reflexivity.
  - cbn [extract_loop map]. unfold normalized. cbn [omap list_omap].
    fold (normalized src (map fetch rest)).
    destruct (extract_metadata (fetch item)) as [[e | m] l] eqn:E.
    + pose proof (extract_metadata_raises_ValueError (fetch item) e) as Hk.
      rewrite E in Hk. specialize (Hk eq_refl).
      rewrite (result_bind_inr _ _ results); [apply IH |].
      unfold try_except_kind, try_except. simpl. rewrite Hk. reflexivity.
    + rewrite (result_bind_inr _ _ (results ++ [MkEntry src (__dict__ m)]))
        by reflexivity.
      rewrite IH, <- app_assoc. reflexivity.
Qed.

Lemma extract_loop_logged (items : list I) (results : list result_entry)
  (item : I) (e : exn) :
  item ∈ items ->
  result (extract_metadata (fetch item)) = inl e ->
  Log ERROR (failure item +:+ ": " +:+ message e)
    ∈ logs (extract_loop src fetch failure items results).
Proof.
  intros Hin He. revert results.
  induction items as [| it rest IH]; intros results; [inversion Hin |].
  cbn [extract_loop].
  match goal with |- _ ∈ logs (bind ?m ?f) => destruct (result m) as [e' | r'] eqn:Er end.
  - (* the guarded step never raises *)
    exfalso. revert Er.
    destruct (extract_metadata (fetch it)) as [[e0 | m0] l0] eqn:E; simpl.
    + pose proof (extract_metadata_raises_ValueError (fetch it) e0) as Hk.
      rewrite E in Hk. specialize (Hk eq_refl).
      unfold try_except_kind, try_except. simpl. rewrite Hk. discriminate.
    + discriminate.
  - erewrite logs_bind_inr by exact Er.
    apply elem_of_app.
    apply elem_of_cons in Hin as [-> | Hin].
    + left.
      destruct (extract_metadata (fetch it)) as [[e0 | m0] l0] eqn:E;
        simpl in He; [| discriminate].
      injection He as ->.
      pose proof (extract_metadata_raises_ValueError (fetch it) e) as Hk.
      rewrite E in Hk. specialize (Hk eq_refl).
      unfold try_except_kind, try_except, logs. simpl. rewrite Hk. simpl.
      apply elem_of_app. right. apply list_elem_of_here.
    + right. apply IH. exact Hin.
Qed.

End Controller.

Section ControllerRun.
Import PyStr Py PaperData Review Notions.

Lemma logs_bind_l {A B} (m : M A) (f : A -> M B) (r : log_record) :
  r ∈ logs m -> r ∈ logs (bind m f).
Proof.
  destruct m as [[e | a] l]; simpl; [auto |].
  unfold bind. destruct (f a) as [r' l']. simpl.
  intros H. apply elem_of_app. left. exact H.
Qed.

Lemma logs_bind_r {A B} (m : M A) (f : A -> M B) (a : A) (r : log_record) :
  result m = inr a -> r ∈ logs (f a) -> r ∈ logs (bind m f).
Proof.
  intros Hm H. rewrite (logs_bind_inr m f a Hm).
  apply elem_of_app. right. exact H.
Qed.

Variables (rd : Readers) (results : list result_entry) (query : string)
  (max_results : Z) (include_cochrane include_clinicaltrials : bool).

Let run := search_databases rd results query max_results
             include_cochrane include_clinicaltrials.
Let pmids := pubmed_search rd query max_results.
Let cochrane := if include_cochrane then cochrane_search rd query max_results else [].
Let trials :=
  if include_clinicaltrials then clinicaltrials_search rd query max_results else [].

Lemma search_databases_result :
  result run
  = inr (results
           ++ normalized "pubmed" (map (pubmed_fetch_details rd) pmids)
           ++ normalized "cochrane" cochrane
           ++ normalized "clinicaltrials" trials).
Proof.
  unfold run, search_databases.
  rewrite (result_bind_inr _ _ tt) by reflexivity.
  erewrite result_bind_inr by apply extract_loop_result.
  subst cochrane trials pmids.
  destruct include_cochrane.
  - erewrite result_bind_inr.
    2:{ rewrite (result_bind_inr _ _ tt) by reflexivity.
        apply extract_loop_result. }
    destruct include_clinicaltrials.
    + rewrite (result_bind_inr _ _ tt) by reflexivity.
      rewrite extract_loop_result, map_id, !map_id, <- !app_assoc. reflexivity.
    + simpl. rewrite map_id, app_nil_r, <- !app_assoc. reflexivity.
  - erewrite result_bind_inr by reflexivity.
    destruct include_clinicaltrials.
    + rewrite (result_bind_inr _ _ tt) by reflexivity.
      rewrite extract_loop_result, map_id, <- !app_assoc. reflexivity.
    + simpl. rewrite app_nil_r. reflexivity.
Qed.

Lemma search_databases_logs_pubmed (pmid : string) (e : exn) :
  pmid ∈ pmids ->
  result (extract_metadata (pubmed_fetch_details rd pmid)) = inl e ->
  Log ERROR ("Failed to extract metadata for PMID " +:+ pmid +:+ ": " +:+ message e)
    ∈ logs run.
Proof.
  intros Hin He. unfold run, search_databases.
  eapply logs_bind_r; [reflexivity |].
  apply logs_bind_l.
  apply (extract_loop_logged "pubmed" (pubmed_fetch_details rd)
           (fun pmid => "Failed to extract metadata for PMID " +:+ pmid)
           pmids results pmid e Hin He).
Qed.

Lemma search_databases_logs_cochrane (article : PyDict) (e : exn) :
  article ∈ cochrane ->
  result (extract_metadata article) = inl e ->
  Log ERROR ("Failed to extract Cochrane metadata" +:+ ": " +:+ message e)
    ∈ logs run.
Proof.
  intros Hin He. unfold run, search_databases. subst cochrane.
  destruct include_cochrane; [| inversion Hin].
  eapply logs_bind_r; [reflexivity |].
  eapply logs_bind_r; [apply extract_loop_result |].
  apply logs_bind_l.
  eapply logs_bind_r; [reflexivity |].
  apply (extract_loop_logged "cochrane" (fun a : PyDict => a)
           (fun _ => "Failed to extract Cochrane metadata") _ _ article e Hin He).
Qed.

Lemma search_databases_logs_trials (trial : PyDict) (e : exn) :
  trial ∈ trials ->
  result (extract_metadata trial) = inl e ->
  Log ERROR ("Failed to extract ClinicalTrials metadata" +:+ ": " +:+ message e)
    ∈ logs run.
Proof.
  intros Hin He. unfold run, search_databases. subst trials.
  destruct include_clinicaltrials; [| inversion Hin].
  eapply logs_bind_r; [reflexivity |].
  eapply logs_bind_r; [apply extract_loop_result |].
  assert (Hstep : exists r, result
    (if include_cochrane
     then bind (logging INFO "Searching Cochrane Library...")
            (fun _ => extract_loop "cochrane" (fun a : PyDict => a)
                        (fun _ => "Failed to extract Cochrane metadata")
                        (cochrane_search rd query max_results)
                        (results ++ normalized "pubmed"
                           (map (pubmed_fetch_details rd) pmids)))
     else ret (results ++ normalized "pubmed"
                 (map (pubmed_fetch_details rd) pmids))) = inr r).
  { destruct include_cochrane.
    - eexists. rewrite (result_bind_inr _ _ tt) by reflexivity.
      apply extract_loop_result.
    - eexists. reflexivity. }
  destruct Hstep as [r Hr].
  eapply logs_bind_r; [exact Hr |].
  eapply logs_bind_r; [reflexivity |].
  apply (extract_loop_logged "clinicaltrials" (fun a : PyDict => a)
           (fun _ => "Failed to extract ClinicalTrials metadata") _ _ trial e Hin He).
Qed.

End ControllerRun.

(** ** Substrings and case *)

Section Strings.
Import PyStr Notions.

Lemma append_cons (c : ascii) (a b : string) :
  (String c a ++ b)%string = String c (a ++ b).
Proof. reflexivity. Qed.

Lemma prefix_spec (p s : string) :
  String.prefix p s = true <-> exists rest, s = (p ++ rest)%string.
Proof.
  revert s. induction p as [| a p IH]; intros s.
  - split; [intros _; exists s; reflexivity | intros _; destruct s; reflexivity].
  - destruct s as [| b s]; simpl.
    + split; [discriminate | intros [rest H]; discriminate].
    + destruct (Ascii.ascii_dec a b) as [-> | Hne].
      * rewrite IH. split; intros [rest H]; exists rest;
          rewrite append_cons in *; congruence.
      * split; [discriminate | intros [rest H]; rewrite append_cons in H; congruence].
Qed.




End Strings.

(** ** Study-type detection *)

Section StudyType.
Import PyStr Py PaperData Notions.





End StudyType.

(** ** The matcher finds the texts of the language *)

Section Regex.
Import PyStr Re Notions.

Lemma append_nil_r (s : string) : (s ++ "")%string = s.
Proof. induction s as [| c s IH]; [reflexivity |]. rewrite append_cons, IH. reflexivity. Qed.

Lemma append_assoc (a b c : string) : ((a ++ b) ++ c = a ++ b ++ c)%string.
Proof.
  induction a as [| x a IH]; [reflexivity |].
  rewrite !append_cons, IH. reflexivity.
Qed.

Lemma len_app (a b : string) : len (a ++ b) = (len a + len b)%nat.
Proof.
  induction a as [| x a IH]; [reflexivity |].
  rewrite append_cons. unfold len in *. simpl. rewrite IH. reflexivity.
Qed.

Lemma take_drop (n : nat) (s : string) : (take n s ++ drop n s)%string = s.
Proof.
  revert s. induction n as [| n IH]; intros [| c s]; try reflexivity.
  cbn [take drop]. rewrite append_cons, IH. reflexivity.
Qed.

Lemma take_app (a b : string) (n : nat) :
  take (len a + n) (a ++ b) = (a ++ take n b)%string.
Proof.
  induction a as [| x a IH]; [reflexivity |].
  rewrite !append_cons. unfold len in *. cbn [String.length Nat.add take].
  rewrite IH. reflexivity.
Qed.

Lemma drop_app (a b : string) : drop (len a) (a ++ b) = b.
Proof.
  induction a as [| x a IH]; [destruct b; reflexivity |].
  rewrite append_cons. unfold len in *. cbn [String.length drop]. exact IH.
Qed.

Lemma len_take (n : nat) (s : string) : (n <= len s)%nat -> len (take n s) = n.
Proof.
  revert s. induction n as [| n IH]; intros [| c s] H; try reflexivity.
  - unfold len in H. simpl in H. lia.
  - unfold len in *. cbn [take String.length] in *. rewrite IH; [reflexivity | lia].
Qed.

Lemma take_add (k n : nat) (s : string) :
  (k <= len s)%nat -> take (k + n) s = (take k s ++ take n (drop k s))%string.
Proof.
  intros H. rewrite <- (take_drop k s) at 1.
  rewrite <- (len_take k s H) at 1. apply take_app.
Qed.

Lemma len_drop (n : nat) (s : string) : (n <= len s)%nat -> len (drop n s) = (len s - n)%nat.
Proof.
  intros H. pose proof (len_app (take n s) (drop n s)) as E.
  rewrite take_drop, (len_take n s H) in E. lia.
Qed.

Lemma lit_eq_len (ic : bool) (l t : string) : lit_eq ic l t = true -> len t = len l.
Proof.
  revert t. induction l as [| a l IH]; intros [| b t]; simpl; try discriminate; auto.
  intros H. apply andb_true_iff in H as [_ H]. unfold len in *. simpl.
  rewrite (IH t H). reflexivity.
Qed.

Lemma match_lit_spec (ic : bool) (l s rest : string) :
  match_lit ic l s = Some rest
  <-> exists u, s = (u ++ rest)%string /\ lit_eq ic l u = true.
Proof.
  revert s. induction l as [| a l IH]; intros s.
  - simpl. split.
    + intros [= ->]. exists EmptyString. auto.
    + intros [[| b u] [-> H]]; [reflexivity | discriminate].
  - destruct s as [| b s]; simpl.
    + split; [discriminate |]. intros [[| c u] [H1 H2]]; try discriminate.
    + destruct (char_eq ic a b) eqn:E.
      * rewrite IH. split.
        -- intros [u [-> H]]. exists (String b u). rewrite append_cons.
           simpl. rewrite E. auto.
        -- intros [[| c u] [H1 H2]]; [discriminate |].
           rewrite append_cons in H1. injection H1 as <- ->.
           simpl in H2. rewrite E in H2. exists u. auto.
      * split; [discriminate |]. intros [[| c u] [H1 H2]]; [discriminate |].
        rewrite append_cons in H1. injection H1 as <- ->.
        simpl in H2. rewrite E in H2. discriminate.
Qed.

Lemma span_le_len (cls : ascii -> bool) (hi : option nat) (s : string) :
  (span cls hi s <= len s)%nat.
Proof.
  revert hi. induction s as [| c s IH]; intros hi; [simpl; lia |].
  unfold len in *. cbn [span String.length].
  destruct hi as [[| h] |]; try lia;
    destruct (cls c); try lia; [specialize (IH (Some h)) | specialize (IH None)]; lia.
Qed.

Lemma span_within (cls : ascii -> bool) (hi : option nat) (s : string) :
  within hi (span cls hi s).
Proof.
  revert hi. induction s as [| c s IH]; intros [h |]; simpl; try lia; auto.
  destruct h as [| h]; [lia |]. destruct (cls c); [| lia].
  specialize (IH (Some h)). simpl in IH. lia.
Qed.

Lemma span_all (cls : ascii -> bool) (hi : option nat) (s : string) (k : nat) :
  (k <= span cls hi s)%nat -> all_chars cls (take k s) = true.
Proof.
  revert hi k. induction s as [| c s IH]; intros hi k H.
  - destruct k; reflexivity.
  - destruct k as [| k]; [reflexivity |]. cbn [span] in H. cbn [take all_chars].
    destruct hi as [[| h] |]; try lia; destruct (cls c); try lia; simpl;
      [apply (IH (Some h)) | apply (IH None)]; lia.
Qed.

(** The run found is the longest the bound allows. *)
Lemma span_max (cls : ascii -> bool) (hi : option nat) (u rest : string) :
  all_chars cls u = true -> within hi (len u) ->
  (len u <= span cls hi (u ++ rest))%nat.
Proof.
  revert hi. induction u as [| c u IH]; intros hi Hall Hin; [simpl; lia |].
  rewrite append_cons. unfold len in *. cbn [all_chars String.length span] in *.
  apply andb_true_iff in Hall as [Hc Hall]. rewrite Hc.
  destruct hi as [[| h] |]; simpl in Hin; try lia.
  - specialize (IH (Some h) Hall). simpl in IH. specialize (IH ltac:(lia)). lia.
  - specialize (IH None Hall I). lia.
Qed.

Lemma back_sound (cap : bool) (lo : nat) (k : string -> outcome) (s : string)
  (n m : nat) (g : list string) :
  back cap lo k s n = Some (m, g) ->
  exists j m' g', (lo <= j <= n)%nat /\ k (drop j s) = Some (m', g') /\ m = (j + m')%nat.
Proof.
  induction n as [| n IH]; cbn [back].
  - destruct (lo <=? 0)%nat eqn:E; [| discriminate].
    destruct (k (drop 0 s)) as [[m' g'] |] eqn:Ek; [| discriminate].
    intros [= <- <-]. apply Nat.leb_le in E. exists 0%nat, m', g'. repeat split; auto; lia.
  - destruct (lo <=? S n)%nat eqn:E.
    + destruct (k (drop (S n) s)) as [[m' g'] |] eqn:Ek.
      * intros [= <- <-]. apply Nat.leb_le in E.
        exists (S n), m', g'. repeat split; auto; lia.
      * intros H. destruct (IH H) as [j [m' [g' [Hj [Hk Hm]]]]].
        exists j, m', g'. repeat split; auto; lia.
    + intros H. destruct (IH H) as [j [m' [g' [Hj [Hk Hm]]]]].
      exists j, m', g'. repeat split; auto; lia.
Qed.

Lemma back_complete (cap : bool) (lo : nat) (k : string -> outcome) (s : string)
  (n j : nat) :
  (lo <= j <= n)%nat -> k (drop j s) <> None -> back cap lo k s n <> None.
Proof.
  intros Hj Hk. induction n as [| n IH]; cbn [back].
  - assert (j = 0%nat) as -> by lia.
    replace (lo <=? 0)%nat with true by (symmetry; apply Nat.leb_le; lia).
    destruct (k (drop 0 s)) as [[m' g'] |]; [discriminate | contradiction].
  - destruct (lo <=? S n)%nat eqn:E.
    + destruct (k (drop (S n) s)) as [[m' g'] |] eqn:Ek; [discriminate |].
      apply IH. destruct (Nat.eq_dec j (S n)) as [-> | Hne]; [congruence | lia].
    + apply Nat.leb_gt in E. lia.
Qed.

Lemma try_alts_sound (ic cap : bool) (k : string -> outcome) (s : string)
  (alts : list string) (n : nat) (g : list string) :
  try_alts ic cap k s alts = Some (n, g) ->
  exists l rest m' g',
    l ∈ alts /\ match_lit ic l s = Some rest /\ k rest = Some (m', g')
    /\ n = (len l + m')%nat.
Proof.
  induction alts as [| l alts IH]; cbn [try_alts]; [discriminate |].
  unfold lit_then.
  destruct (match_lit ic l s) as [rest |] eqn:El.
  - destruct (k rest) as [[m' g'] |] eqn:Ek.
    + intros [= <- <-]. exists l, rest, m', g'.
      repeat split; auto. apply list_elem_of_here.
    + intros H. destruct (IH H) as [l' [r' [m' [g' [Hin H']]]]].
      exists l', r', m', g'. split; [apply list_elem_of_further; exact Hin | exact H'].
  - intros H. destruct (IH H) as [l' [r' [m' [g' [Hin H']]]]].
    exists l', r', m', g'. split; [apply list_elem_of_further; exact Hin | exact H'].
Qed.

Lemma try_alts_complete (ic cap : bool) (k : string -> outcome) (s : string)
  (alts : list string) (l rest : string) :
  l ∈ alts -> match_lit ic l s = Some rest -> k rest <> None ->
  try_alts ic cap k s alts <> None.
Proof.
  intros Hin Hl Hk. induction alts as [| l' alts IH]; [inversion Hin |].
  cbn [try_alts]. unfold lit_then.
  destruct (match_lit ic l' s) as [rest' |] eqn:El.
  - destruct (k rest') as [[m' g'] |] eqn:Ek; [discriminate |].
    apply IH. apply elem_of_cons in Hin as [-> | Hin]; [| exact Hin].
    rewrite El in Hl. injection Hl as ->. contradiction.
  - apply IH. apply elem_of_cons in Hin as [-> | Hin]; [congruence | exact Hin].
Qed.

(** What the matcher consumes is a text of the language. *)
Lemma match_here_sound (ic : bool) (p : pattern) (s : string) (n : nat)
  (g : list string) :
  match_here ic p s = Some (n, g) ->
  (n <= len s)%nat /\ in_lang ic p (take n s).
Proof.
  revert s n g. induction p as [| a p IH]; intros s n g.
  - simpl. intros [= <- <-]. split; [lia | destruct s; reflexivity].
  - destruct a as [l | cap alts | cap cls lo hi]; cbn [match_here in_lang].
    + unfold lit_then.
      destruct (match_lit ic l s) as [rest |] eqn:El; [| discriminate].
      destruct (match_here ic p rest) as [[m' g'] |] eqn:Ek; [| discriminate].
      intros [= <- <-]. apply match_lit_spec in El as [u [-> Hu]].
      destruct (IH _ _ _ Ek) as [Hle Hin].
      rewrite <- (lit_eq_len ic l u Hu), take_app, len_app.
      split; [lia |]. exists u, (take m' rest). auto.
    + intros H. apply try_alts_sound in H as [l [rest [m' [g' [Hl [El [Ek ->]]]]]]].
      apply match_lit_spec in El as [u [-> Hu]].
      destruct (IH _ _ _ Ek) as [Hle Hin].
      rewrite <- (lit_eq_len ic l u Hu), take_app, len_app.
      split; [lia |]. exists u, (take m' rest). split; [reflexivity |].
      split; [exists l; auto | exact Hin].
    + intros H. apply back_sound in H as [j [m' [g' [Hj [Ek ->]]]]].
      destruct (IH _ _ _ Ek) as [Hle Hin].
      pose proof (span_le_len cls hi s) as Hs.
      rewrite len_drop in Hle by lia.
      rewrite take_add by lia. split; [lia |].
      exists (take j s), (take m' (drop j s)). split; [reflexivity |].
      split; [| exact Hin].
      split; [apply (span_all cls hi); lia |].
      rewrite len_take by lia. split; [lia |].
      pose proof (span_within cls hi s) as Hw. destruct hi; simpl in *; [lia | exact I].
Qed.

(** Where a text of the language begins, the matcher succeeds. *)
Lemma match_here_complete (ic : bool) (p : pattern) (t rest : string) :
  in_lang ic p t -> match_here ic p (t ++ rest) <> None.
Proof.
  revert t. induction p as [| a p IH]; intros t; [discriminate |].
  cbn [in_lang]. intros [u [v [-> [Ha Hv]]]]. rewrite append_assoc.
  specialize (IH v Hv).
  destruct a as [l | cap alts | cap cls lo hi]; cbn [match_here]; simpl in Ha.
  - unfold lit_then.
    assert (El : match_lit ic l (u ++ v ++ rest) = Some (v ++ rest)%string)
      by (apply match_lit_spec; exists u; auto).
    rewrite El. destruct (match_here ic p (v ++ rest)) as [[m' g'] |];
      [discriminate | contradiction].
  - destruct Ha as [l [Hl Hu]].
    apply (try_alts_complete ic cap _ _ alts l (v ++ rest)); auto.
    apply match_lit_spec. exists u. auto.
  - destruct Ha as [Hall [Hlo Hhi]].
    apply (back_complete cap lo _ _ _ (len u)).
    + split; [exact Hlo | apply span_max; assumption].
    + rewrite drop_app. exact IH.
Qed.

(** [re.search] returns the leftmost text of the language in the string,
    and nothing exactly when the string holds none. *)
Lemma search_from_some (ic : bool) (p : pattern) (s : string) (pos : nat)
  (m : re_match) :
  search_from ic p s pos = Some m ->
  exists before after,
    s = (before ++ group0 m ++ after)%string
    /\ m_start m = (pos + len before)%nat
    /\ in_lang ic p (group0 m)
    /\ forall before' t after',
        s = (before' ++ t ++ after')%string -> in_lang ic p t ->
        (len before <= len before')%nat.
Proof.
  revert pos. induction s as [| c s IH]; intros pos; cbn [search_from].
  - destruct (match_here ic p "") as [[n g] |] eqn:E; [| discriminate].
    intros [= <-]. destruct (match_here_sound _ _ _ _ _ E) as [_ Hin].
    exists "", (drop n ""). cbn [group0 m_start].
    split; [symmetry; apply (take_drop n "") |].
    split; [simpl; lia |]. split; [exact Hin | intros; simpl; lia].
  - destruct (match_here ic p (String c s)) as [[n g] |] eqn:E.
    + intros [= <-]. destruct (match_here_sound _ _ _ _ _ E) as [_ Hin].
      exists "", (drop n (String c s)). cbn [group0 m_start].
      split; [symmetry; apply (take_drop n (String c s)) |].
      split; [simpl; lia |]. split; [exact Hin | intros; simpl; lia].
    + intros H. destruct (IH _ H) as [before [after [Hs [Hst [Hin Hleft]]]]].
      exists (String c before), after. rewrite append_cons.
      split; [congruence |]. split; [unfold len in *; simpl; lia |].
      split; [exact Hin |].
      intros [| c' before'] t after' Hs' Ht.
      * exfalso. apply (match_here_complete ic p t after' Ht).
        change (("" ++ t ++ after')%string) with ((t ++ after')%string) in Hs'.
        rewrite <- Hs'. exact E.
      * rewrite append_cons in Hs'. injection Hs' as _ Hs'.
        specialize (Hleft before' t after' Hs' Ht). unfold len in *. simpl. lia.
Qed.

Lemma search_from_none (ic : bool) (p : pattern) (s : string) (pos : nat) :
  search_from ic p s pos = None
  <-> forall before t after, s = (before ++ t ++ after)%string -> ~ in_lang ic p t.
Proof.
  split.
  - revert pos. induction s as [| c s IH]; intros pos; cbn [search_from].
    + destruct (match_here ic p "") as [[n g] |] eqn:E; [discriminate |].
      intros _ [| b before] t after Hs Ht; [| discriminate].
      apply (match_here_complete ic p t after Ht).
      change (("" ++ t ++ after)%string) with ((t ++ after)%string) in Hs.
      rewrite <- Hs. exact E.
    + destruct (match_here ic p (String c s)) as [[n g] |] eqn:E; [discriminate |].
      intros H [| b before] t after Hs Ht.
      * apply (match_here_complete ic p t after Ht).
        change (("" ++ t ++ after)%string) with ((t ++ after)%string) in Hs.
        rewrite <- Hs. exact E.
      * rewrite append_cons in Hs. injection Hs as _ Hs.
        apply (IH _ H before t after Hs Ht).
  - intros H. destruct (search_from ic p s pos) as [m |] eqn:E; [| reflexivity].
    exfalso. destruct (search_from_some _ _ _ _ _ E) as [before [after [Hs [_ [Hin _]]]]].
    apply (H before (group0 m) after Hs Hin).
Qed.

End Regex.

(** ** DOI matches and full-text links *)

Section Links.
Import PyStr Re Py PaperData Notions.

Lemma match_lit_cons (ic : bool) (a : ascii) (lit s rest : string) :
  match_lit ic (String a lit) s = Some rest -> exists b s', s = String b s'.
Proof. destruct s as [| b s']; simpl; [discriminate | eauto]. Qed.

(** A match of a pattern that begins with literal text is not empty. *)
Lemma match_here_lit_nonempty (ic : bool) (a : ascii) (lit : string)
  (p : pattern) (s : string) (n : nat) (g : list string) :
  match_here ic (Lit (String a lit) :: p) s = Some (n, g) -> take n s <> "".
Proof.
  cbn [match_here]. unfold lit_then.
  destruct (match_lit ic (String a lit) s) as [rest |] eqn:E; [| discriminate].
  destruct (match_lit_cons _ _ _ _ _ E) as [b [s' ->]].
  destruct (match_here ic p rest) as [[n' g'] |]; [| discriminate].
  intros [= <- <-]. simpl. discriminate.
Qed.

Lemma search_from_nonempty (ic : bool) (a : ascii) (lit : string) (p : pattern)
  (s : string) (pos : nat) (m : re_match) :
  search_from ic (Lit (String a lit) :: p) s pos = Some m -> group0 m <> "".
Proof.
  revert pos. induction s as [| c s IH]; intros pos.
  - unfold search_from.
    destruct (match_here ic (Lit (String a lit) :: p) "") as [[n g] |] eqn:E;
      [| discriminate].
    intros [= <-]. simpl. eapply match_here_lit_nonempty. exact E.
  - cbn [search_from].
    destruct (match_here ic (Lit (String a lit) :: p) (String c s)) as [[n g] |] eqn:E.
    + intros [= <-]. cbn [group0]. eapply match_here_lit_nonempty. exact E.
    + apply IH.
Qed.

(** A DOI that is resolved is never the empty string. *)
Lemma extract_doi_nonempty (data : PyDict) (d : string) :
  result (_extract_doi data) = inr (Some d) -> d <> "".
Proof.
  unfold _extract_doi.
  destruct (truthy (get data "DOI" (get data "doi" (VStr "")))); [| discriminate].
  destruct (get data "DOI" (get data "doi" (VStr ""))) as [| z | s | l];
    try discriminate.
  cbn [re_search bind ret]. unfold search.
  destruct (search_from false DOI_PATTERN s 0) as [m |] eqn:E; simpl; [| discriminate].
  intros [= <-]. eapply search_from_nonempty. exact E.
Qed.

Lemma truthy_nonempty (s : string) : s <> "" -> truthy (VStr s) = true.
Proof. destruct s; [congruence | reflexivity]. Qed.

Lemma urls_loop_spec (urls : list PyVal) (links : list string) :
  (forall l, l ∈ (urls_loop urls links).1 ->
     l ∈ links \/ l ∈ strings_in (VList urls))
  /\ (forallb is_str urls = true -> (urls_loop urls links).2 = None).
Proof.
  revert links. induction urls as [| u rest IH]; intros links.
  - simpl. auto.
  - destruct u as [| z | s | items]; cbn [urls_loop]; simpl;
      try (split; [auto | discriminate]).
    destruct (startswith "http://" s || startswith "https://" s);
      destruct (IH (links ++ [s])) as [IH1 IH2];
      destruct (IH links) as [IH1' IH2']; split; auto.
    + intros l Hl. destruct (IH1 l Hl) as [H | H].
      * apply elem_of_app in H as [H | H]; [auto |].
        apply list_elem_of_singleton in H as ->. right. apply list_elem_of_here.
      * right. apply list_elem_of_further. exact H.
    + intros l Hl. destruct (IH1' l Hl) as [H | H]; [auto |].
      right. apply list_elem_of_further. exact H.
Qed.

Lemma link_fields_loop_spec (data : PyDict) (fields : list string)
  (links : list string) :
  (forall l, l ∈ (link_fields_loop data fields links).1 ->
     l ∈ links
     \/ l ∈ flat_map (fun field => strings_in (get data field (VList []))) fields)
  /\ (forallb (fun field => readable (get data field (VList []))) fields = true
      -> (link_fields_loop data fields links).2 = None).
Proof.
  revert links. induction fields as [| field rest IH]; intros links.
  - simpl. auto.
  - cbn [link_fields_loop flat_map].
    assert (Hread : forallb (fun f => readable (get data f (VList [])))
                      (field :: rest) = true ->
                    readable (get data field (VList [])) = true).
    { cbn [forallb]. intros Hr. apply andb_true_iff in Hr as [Hr _]. exact Hr. }
    assert (Hrest : forallb (fun f => readable (get data f (VList [])))
                      (field :: rest) = true ->
                    forallb (fun f => readable (get data f (VList []))) rest = true).
    { cbn [forallb]. intros Hr. apply andb_true_iff in Hr as [_ Hr]. exact Hr. }
    destruct (get data field (VList [])) as [| z | s | items] eqn:Eg;
      unfold iterate, ret, raise; cbv beta iota.
    + simpl. split; [auto |]. intros Hr. specialize (Hread Hr). discriminate Hread.
    + simpl. split; [auto |]. intros Hr. specialize (Hread Hr). discriminate Hread.
    + destruct (urls_loop_spec [VStr s] links) as [U1 U2].
      specialize (U2 eq_refl).
      destruct (urls_loop [VStr s] links) as [links' o] eqn:Eu.
      simpl in U1, U2. subst o.
      destruct (IH links') as [IH1 IH2]. split.
      * intros l Hl. destruct (IH1 l Hl) as [H | H].
        -- destruct (U1 l H) as [H' | H']; [auto |].
           right. apply elem_of_app. left. exact H'.
        -- right. apply elem_of_app. right. exact H.
      * intros Hr. apply IH2. apply Hrest. exact Hr.
    + destruct (urls_loop_spec items links) as [U1 U2].
      destruct (urls_loop items links) as [links' o] eqn:Eu.
      simpl in U1, U2.
      assert (Hsub : forall l, l ∈ links' ->
                 l ∈ links \/ l ∈ strings_in (VList items) ++
                   flat_map (fun field => strings_in (get data field (VList []))) rest).
      { intros l Hl. destruct (U1 l Hl) as [H | H]; [auto |].
        right. apply elem_of_app. left. exact H. }
      destruct o as [e |].
      * split; [exact Hsub |]. intros Hr. exfalso.
        specialize (Hread Hr). simpl in Hread.
        specialize (U2 Hread). discriminate U2.
      * destruct (IH links') as [IH1 IH2]. split.
        -- intros l Hl. destruct (IH1 l Hl) as [H | H].
           ++ apply Hsub. exact H.
           ++ right. apply elem_of_app. right. exact H.
        -- intros Hr. apply IH2. apply Hrest. exact Hr.
Qed.

End Links.

Section LinksMain.
Import PyStr Re Py PaperData Notions.

Lemma extract_full_text_links_value (data : PyDict) :
  result (_extract_full_text_links data) = inr (list_set (links_try data).1).
Proof.
  unfold _extract_full_text_links.
  destruct (links_try data) as [links [[e | []] l]]; reflexivity.
Qed.

Lemma list_set_NoDup (links : list string) : List.NoDup (list_set links).
Proof. apply NoDup_ListNoDup. unfold list_set. apply NoDup_elements. Qed.

Lemma list_set_In (links : list string) (l : string) :
  In l (list_set links) <-> l ∈ links.
Proof.
  unfold list_set. rewrite <- list_elem_of_In, elem_of_elements.
  apply elem_of_list_to_set.
Qed.

Lemma links_try_resolved (data : PyDict) (d : string) :
  result (_extract_doi data) = inr (Some d) ->
  url_fields_readable data = true ->
  doi_link d ∈ (links_try data).1.
Proof.
  intros Hd Hr. unfold links_try.
  destruct (link_fields_loop_spec data ["LID"; "OUR"; "full_text_url"] []) as [_ Hok].
  specialize (Hok Hr).
  destruct (link_fields_loop data ["LID"; "OUR"; "full_text_url"] []) as [links o].
  simpl in Hok. subst o.
  pose proof (extract_doi_nonempty data d Hd) as Hne.
  destruct (_extract_doi data) as [[e | [d' |]] l]; simpl in Hd; try discriminate.
  injection Hd as ->. rewrite (truthy_nonempty d Hne). simpl.
  apply elem_of_app. right. apply list_elem_of_here.
Qed.

Lemma links_try_unresolved (data : PyDict) (l : string) :
  (forall d, result (_extract_doi data) <> inr (Some d)) ->
  l ∈ (links_try data).1 -> l ∈ source_urls data.
Proof.
  intros Hno. unfold links_try.
  destruct (link_fields_loop_spec data ["LID"; "OUR"; "full_text_url"] []) as [Hsub _].
  destruct (link_fields_loop data ["LID"; "OUR"; "full_text_url"] []) as [links o].
  simpl in Hsub.
  assert (Hin : l ∈ links -> l ∈ source_urls data).
  { intros H. destruct (Hsub l H) as [H' | H']; [inversion H' | exact H']. }
  destruct o as [e |]; [exact Hin |].
  destruct (_extract_doi data) as [[e | [d' |]] lg]; simpl; try exact Hin.
  exfalso. apply (Hno d'). reflexivity.
Qed.

End LinksMain.

(** ** Columns, masks and counts *)

Section Frames.
Import Py Pandas Notions.

Lemma columns_spec (data : list PyDict) (name : string) :
  name ∈ columns (MkDataFrame data)
  <-> exists row, row ∈ data /\ is_Some (row !! name).
Proof.
  unfold columns. simpl. induction data as [| r rest IH]; simpl.
  - split; [intros H; exfalso; revert H; apply not_elem_of_empty |].
    intros [row [H _]]. inversion H.
  - rewrite elem_of_union, elem_of_dom, IH. split.
    + intros [H | [row [Hin H]]].
      * exists r. split; [apply list_elem_of_here | exact H].
      * exists row. split; [apply list_elem_of_further; exact Hin | exact H].
    + intros [row [Hin H]]. apply elem_of_cons in Hin as [-> | Hin].
      * left. exact H.
      * right. exists row. auto.
Qed.

Lemma has_column_true (data : list PyDict) (name : string) :
  has_column (MkDataFrame data) name = true
  <-> exists row, row ∈ data /\ is_Some (row !! name).
Proof. unfold has_column. rewrite bool_decide_eq_true. apply columns_spec. Qed.

Lemma has_column_false (data : list PyDict) (name : string) (row : PyDict) :
  has_column (MkDataFrame data) name = false -> row ∈ data -> row !! name = None.
Proof.
  intros H Hin. destruct (row !! name) as [v |] eqn:E; [| reflexivity].
  exfalso. apply not_true_iff_false in H. apply H.
  apply has_column_true. exists row. split; [exact Hin |]. rewrite E. eauto.
Qed.

Lemma compare_numeric (sym : string) (op : Z -> Z -> bool) (rhs : Z)
  (col : list cell) :
  Forall numeric_cell col -> compare sym op rhs col = ret (map (test_cell op rhs) col).
Proof.
  induction 1 as [| c rest Hc _ IH]; [reflexivity |].
  cbn [compare map]. rewrite IH.
  destruct c as [| [| z | s | l]]; simpl in Hc; try contradiction; reflexivity.
Qed.

Lemma selected_length (mask : list bool) (i : nat) :
  length (selected mask i) = length (List.filter (fun b => b) mask).
Proof.
  revert i. induction mask as [| b rest IH]; intros i; [reflexivity |].
  destruct b; simpl; rewrite IH; reflexivity.
Qed.

Lemma filter_map_length {X Y} (f : X -> Y) (p : Y -> bool) (l : list X) :
  length (List.filter p (map f l)) = length (List.filter (fun x => p (f x)) l).
Proof.
  induction l as [| x rest IH]; [reflexivity |].
  simpl. destruct (p (f x)); simpl; rewrite IH; reflexivity.
Qed.

Lemma mask_or_map {X} (f g : X -> bool) (l : list X) :
  mask_or (map f l) (map g l) = map (fun x => f x || g x) l.
Proof.
  unfold mask_or. induction l as [| x rest IH]; [reflexivity |].
  simpl. f_equal. exact IH.
Qed.

Lemma filter_ext_length {X} (f g : X -> bool) (l : list X) :
  (forall x, x ∈ l -> f x = g x) ->
  length (List.filter f l) = length (List.filter g l).
Proof.
  induction l as [| x rest IH]; intros H; [reflexivity |].
  simpl. rewrite (H x (list_elem_of_here _ _)).
  destruct (g x); simpl; rewrite IH; auto;
    intros y Hy; apply H; apply list_elem_of_further; exact Hy.
Qed.

End Frames.

(** ** Validity scores *)

Section Validity.
Import Py Pandas Notions.

Lemma column_numeric (data : list PyDict) (field : string) :
  forallb (int_or_missing field) data = true ->
  Forall numeric_cell (column (MkDataFrame data) field).
Proof.
  intros H. unfold column. simpl. apply Forall_forall. intros c Hc.
  apply list_elem_of_fmap in Hc as [row [-> Hin]].
  rewrite forallb_forall in H. apply list_elem_of_In in Hin.
  specialize (H row Hin). unfold int_or_missing in H.
  destruct (row !! field) as [[| z | s | l] |]; simpl; auto; discriminate.
Qed.

Lemma year_mask_count (lo now : Z) (data : list PyDict) :
  length (selected
            (mask_or (map (test_cell Z.ltb lo) (column (MkDataFrame data) "year"))
               (map (test_cell Z.gtb now) (column (MkDataFrame data) "year"))) 0)
  = count (year_flagged lo now) data.
Proof.
  rewrite selected_length, mask_or_map. unfold column, count. simpl.
  rewrite (filter_map_length _ (fun b : bool => b)), filter_map_length.
  apply filter_ext_length. intros row _. unfold year_flagged.
  destruct (row !! "year") as [[| z | s | l] |]; simpl; try reflexivity.
  rewrite Z.gtb_ltb. reflexivity.
Qed.

Lemma sample_mask_count (data : list PyDict) :
  length (selected (map (test_cell Z.leb 0) (column (MkDataFrame data) "sample_size")) 0)
  = count sample_flagged data.
Proof.
  rewrite selected_length. unfold column, count. simpl.
  rewrite (filter_map_length _ (fun b : bool => b)), filter_map_length.
  apply filter_ext_length. intros row _. unfold sample_flagged.
  destruct (row !! "sample_size") as [[| z | s | l] |]; reflexivity.
Qed.

Lemma count_no_column (p : PyDict -> bool) (field : string) (data : list PyDict) :
  has_column (MkDataFrame data) field = false ->
  (forall row, row !! field = None -> p row = false) ->
  count p data = 0%nat.
Proof.
  intros Hc Hp. unfold count.
  rewrite (filter_ext_length p (fun _ => false)).
  - clear. induction data as [| r rest IH]; [reflexivity | exact IH].
  - intros row Hin. apply Hp. eapply has_column_false; eauto.
Qed.

Lemma year_count_no_column (lo now : Z) (data : list PyDict) :
  has_column (MkDataFrame data) "year" = false ->
  count (year_flagged lo now) data = 0%nat.
Proof.
  intros H. apply (count_no_column _ "year"); [exact H |].
  intros row Hr. unfold year_flagged. rewrite Hr. reflexivity.
Qed.

Lemma sample_count_no_column (data : list PyDict) :
  has_column (MkDataFrame data) "sample_size" = false ->
  count sample_flagged data = 0%nat.
Proof.
  intros H. apply (count_no_column _ "sample_size"); [exact H |].
  intros row Hr. unfold sample_flagged. rewrite Hr. reflexivity.
Qed.

Lemma bind_ret_l {A B} (a : A) (f : A -> M B) : bind (ret a) f = f a.
Proof. unfold bind, ret. destruct (f a) as [r l]. reflexivity. Qed.

Lemma vbind_vret {A B} (a : A) (f : A -> DataValidator.V B)
  (st : list DataValidator.warning) :
  DataValidator.vbind (DataValidator.vret a) f st = f a st.
Proof.
  unfold DataValidator.vbind, DataValidator.vret, ret.
  destruct (f a st) as [[r l] st']. reflexivity.
Qed.

(** The flags [DataValidator._check_validity] collects, counted. *)
Lemma dv_check_validity_numeric (clk : DataValidator.clock) (data : list PyDict)
  (st : list DataValidator.warning) :
  forallb (int_or_missing "year") data = true ->
  forallb (int_or_missing "sample_size") data = true ->
  exists validity,
    DataValidator._check_validity clk (MkDataFrame data) st = ((inr validity, []), st)
    /\ fold_right Nat.add 0%nat (map (fun fi : string * list nat => length fi.2) validity)
       = (count (year_flagged 1900 (DataValidator.now_year clk)) data
          + count sample_flagged data)%nat.
Proof.
  intros Hy Hs. unfold DataValidator._check_validity.
  pose proof (compare_numeric "<" Z.ltb 1900 _ (column_numeric data "year" Hy)) as C1.
  pose proof (compare_numeric ">" Z.gtb (DataValidator.now_year clk) _
                (column_numeric data "year" Hy)) as C2.
  pose proof (compare_numeric "<=" Z.leb 0 _ (column_numeric data "sample_size" Hs)) as C3.
  rewrite C1, C2, C3.
  change (DataValidator.vlift (ret ?x)) with (DataValidator.vret x).
  destruct (has_column (MkDataFrame data) "year") eqn:Ey;
    destruct (has_column (MkDataFrame data) "sample_size") eqn:Es;
    rewrite ?vbind_vret; eexists; (split; [reflexivity |]); simpl;
    rewrite ?year_mask_count, ?sample_mask_count,
      ?(year_count_no_column _ _ _ Ey), ?(sample_count_no_column _ Es); lia.
Qed.

End Validity.

Section ValidityScores.
Import Py Pandas Notions.

Lemma vbind_eq {A B} (m : DataValidator.V A) (f : A -> DataValidator.V B)
  (st st' : list DataValidator.warning) (a : A) :
  m st = ((inr a, []), st') -> DataValidator.vbind m f st = f a st'.
Proof.
  intros H. unfold DataValidator.vbind. rewrite H.
  destruct (f a st') as [[r l] st'']. reflexivity.
Qed.

Lemma divide_pos (x : Q) (n : nat) :
  n <> 0%nat -> QualityChecker.divide x n = ret (x / inject_Z (Z.of_nat n))%Q.
Proof. destruct n; [congruence | reflexivity]. Qed.

(** [DataValidator._validity_score] on records whose years and sample
    sizes are integers or missing: every flag counts. *)
Lemma dv_validity_score_numeric (clk : DataValidator.clock) (data : list PyDict)
  (st : list DataValidator.warning) :
  data <> [] ->
  forallb (int_or_missing "year") data = true ->
  forallb (int_or_missing "sample_size") data = true ->
  DataValidator._validity_score clk (MkDataFrame data) st
  = ((inr (Qmax 0
             (100 - inject_Z (Z.of_nat
                       (count (year_flagged 1900 (DataValidator.now_year clk)) data
                        + count sample_flagged data))
                    / inject_Z (Z.of_nat (length data)) * 100))%Q, []), st).
Proof.
  intros Hne Hy Hs.
  destruct (dv_check_validity_numeric clk data st Hy Hs) as [validity [Hv Hsum]].
  unfold DataValidator._validity_score.
  rewrite (vbind_eq _ _ st st validity Hv). cbv zeta.
  rewrite Hsum. unfold df_len. simpl rows.
  rewrite divide_pos by (destruct data; [congruence | discriminate]).
  change (DataValidator.vlift (ret ?x)) with (DataValidator.vret x).
  rewrite vbind_vret. reflexivity.
Qed.

Lemma nonempty_length {X} (l : list X) :
  length (match l with [] => [] | _ => [length l] end)
  = if (0 <? length l)%nat then 1%nat else 0%nat.
Proof. destruct l; reflexivity. Qed.

(** [QualityChecker._check_validity] on such records: ten points per
    violated check. *)
Lemma qc_check_validity_numeric (now : Z) (data : list PyDict) :
  forallb (int_or_missing "year") data = true ->
  forallb (int_or_missing "sample_size") data = true ->
  exists validity,
    QualityChecker._check_validity now (MkDataFrame data) = (inr validity, [])
    /\ QualityChecker.v_score validity
       = Qmax 0 (100 - inject_Z (Z.of_nat (violated_checks 1800 now data)) * 10)%Q.
Proof.
  intros Hy Hs. unfold QualityChecker._check_validity.
  pose proof (compare_numeric "<" Z.ltb 1800 _ (column_numeric data "year" Hy)) as C1.
  pose proof (compare_numeric ">" Z.gtb now _ (column_numeric data "year" Hy)) as C2.
  pose proof (compare_numeric "<=" Z.leb 0 _ (column_numeric data "sample_size" Hs)) as C3.
  rewrite C1, C2, C3. unfold violated_checks.
  pose proof (year_mask_count 1800 now data) as Ny.
  pose proof (sample_mask_count data) as Ns.
  destruct (has_column (MkDataFrame data) "year") eqn:Ey;
    destruct (has_column (MkDataFrame data) "sample_size") eqn:Es;
    rewrite ?bind_ret_l; cbv zeta; rewrite ?bind_ret_l;
    rewrite ?(year_count_no_column _ _ _ Ey), ?(sample_count_no_column _ Es),
      <- ?Ny, <- ?Ns.
  - destruct (selected (mask_or _ _) 0); destruct (selected (map _ _) 0);
      eexists; split; reflexivity.
  - destruct (selected (mask_or _ _) 0); eexists; split; reflexivity.
  - destruct (selected (map _ _) 0); eexists; split; reflexivity.
  - eexists; split; reflexivity.
Qed.

End ValidityScores.

(** ** [validate_all] in the presence of a year column *)

Section ValidateAll.
Import Py Pandas DataValidator Notions.

Lemma completeness_loop_returns (df : DataFrame) (fields : list (string * Q))
  (acc : list (string * Q)) (st : list warning) :
  exists completeness st',
    completeness_loop df fields acc st = ((inr completeness, []), st').
Proof.
  revert acc st. induction fields as [| [field threshold] rest IH]; intros acc st.
  - exists acc, st. reflexivity.
  - cbn [completeness_loop]. destruct (has_column df field); [| apply IH].
    set (score := (notna_mean (column df field) * 100)%Q).
    destruct (negb (Qle_bool threshold score)).
    + destruct (IH (QualityChecker.dict_set field score acc)
                  (st ++ [CompletenessWarning field score threshold]))
        as [c [st' E]].
      exists c, st'. unfold vbind, append_result. simpl. rewrite E. reflexivity.
    + destruct (IH (QualityChecker.dict_set field score acc) st) as [c [st' E]].
      exists c, st'. rewrite vbind_vret. exact E.
Qed.

Lemma check_year_consistency_raises (df : DataFrame) :
  has_column df "year" = true ->
  _check_year_consistency df = raise (Exn NameError "name 'np' is not defined").
Proof. intros H. unfold _check_year_consistency. rewrite H. reflexivity. Qed.

Lemma validate_all_year_column (clk : clock) (df : DataFrame) (st : list warning) :
  has_column df "year" = true ->
  exists st',
    validate_all clk df st
    = ((inr EmptyDict, [Log ERROR "Validation failed: name 'np' is not defined"]), st').
Proof.
  intros Hy. unfold validate_all, v_try_except, _check_completeness.
  destruct (completeness_loop_returns df required_fields [] st) as [c [st' E]].
  exists st'.
  rewrite (vbind_eq _ _ st st' c E).
  unfold _check_consistency.
  rewrite (check_year_consistency_raises df Hy).
  reflexivity.
Qed.

End ValidateAll.

(** ** What [extract_metadata] does with the title and with its
     sub-extractions *)

Section Extraction.
Import PyStr Py PaperData Notions.

Lemma result_try_except_inr {A} (m : M A) (h : exn -> M A) (a : A) :
  result m = inr a -> result (try_except m h) = inr a.
Proof. destruct m as [[e | a'] l]; simpl; [discriminate | auto]. Qed.

Lemma try_except_returns {A} (m : M A) (h : exn -> M A) :
  (forall e, exists a, result (h e) = inr a) ->
  exists a, result (try_except m h) = inr a.
Proof.
  intros Hh. destruct m as [[e | a] l]; simpl.
  - destruct (Hh e) as [a Ha]. exists a.
    destruct (h e) as [r l']. simpl in *. exact Ha.
  - exists a. reflexivity.
Qed.

(** The four guarded sub-extractions return whatever the record holds. *)
Lemma extract_year_returns (data : PyDict) :
  exists y, result (_extract_year data) = inr y.
Proof. apply try_except_returns. intros e. exists None. reflexivity. Qed.

Lemma extract_sample_size_returns (data : PyDict) :
  exists n, result (_extract_sample_size data) = inr n.
Proof. apply try_except_returns. intros e. exists None. reflexivity. Qed.

Lemma detect_study_type_returns (data : PyDict) :
  exists t, result (_detect_study_type data) = inr t.
Proof. apply try_except_returns. intros e. exists None. reflexivity. Qed.

Lemma extract_full_text_links_returns (data : PyDict) :
  exists links, result (_extract_full_text_links data) = inr links.
Proof. eexists. apply extract_full_text_links_value. Qed.

Lemma classic_usable (v : PyVal) : usable_title v \/ ~ usable_title v.
Proof.
  destruct v as [| z | s | l];
    try (right; intros [s' [H _]]; discriminate).
  destruct (le_dec 3 (len (strip s))) as [H | H].
  - left. exists s. auto.
  - right. intros [s' [[= <-] H']]. contradiction.
Qed.

Lemma validate_title_usable (s : string) :
  (3 <= len (strip s))%nat -> _validate_title (VStr s) = ret (strip s).
Proof.
  intros H. unfold _validate_title.
  destruct s as [| c s]; [simpl in H; lia |].
  cbn [truthy negb String.eqb py_strip]. rewrite bind_ret_l.
  destruct (len (strip (String c s)) <? 3)%nat eqn:E; [| reflexivity].
  apply Nat.ltb_lt in E. lia.
Qed.

Lemma validate_title_unusable (v : PyVal) :
  ~ usable_title v -> exists e, result (_validate_title v) = inl e.
Proof.
  intros H. unfold _validate_title.
  destruct (truthy v) eqn:T; [| eexists; reflexivity].
  destruct v as [| z | s | l]; try (eexists; reflexivity).
  cbn [negb py_strip]. rewrite bind_ret_l.
  destruct (len (strip s) <? 3)%nat eqn:E; [eexists; reflexivity |].
  exfalso. apply H. exists s. split; [reflexivity |].
  apply Nat.ltb_ge in E. exact E.
Qed.

(** Whenever a record is returned, its title is the trimmed input title. *)
Lemma extract_metadata_title (data : PyDict) (m : PaperMetadata) :
  result (extract_metadata data) = inr m ->
  exists s, resolved_title data = VStr s /\ (3 <= len (strip s))%nat
            /\ title m = strip s.
Proof.
  unfold extract_metadata, try_except. fold (resolved_title data).
  match goal with
  | |- context [bind (_validate_title ?v) ?k] =>
      destruct (bind (_validate_title v) k) as [[e | m'] l] eqn:E
  end; simpl; [discriminate |].
  intros [= ->].
  assert (Er : result (bind (_validate_title (resolved_title data))
                (fun title => authors <- _extract_authors data ;;
                   doi <- _extract_doi data ;;
                   year <- _extract_year data ;;
                   sample_size <- _extract_sample_size data ;;
                   study_type <- _detect_study_type data ;;
                   full_text_links <- _extract_full_text_links data ;;
                   ret (MkPaperMetadata title authors doi year sample_size
                          study_type full_text_links))%py) = inr m)
    by (rewrite E; reflexivity).
  clear E.
  destruct (classic_usable (resolved_title data)) as [[s [Hs Hlen]] | Hbad].
  - exists s. split; [exact Hs |]. split; [exact Hlen |].
    rewrite Hs, (validate_title_usable s Hlen), bind_ret_l in Er.
    repeat (apply bind_inv_inr in Er as [? [_ Er]]).
    simpl in Er. injection Er as <-. reflexivity.
  - destruct (validate_title_unusable _ Hbad) as [e He].
    rewrite (result_bind_inl _ _ e He) in Er. discriminate.
Qed.

End Extraction.

Section ExtractionOutcome.
Import PyStr Py PaperData Notions.

(** A record without a usable title is rejected with [ValueError]. *)
Lemma extract_metadata_unusable (data : PyDict) :
  ~ usable_title (resolved_title data) ->
  exists e, result (extract_metadata data) = inl e /\ kind e = ValueError.
Proof.
  intros Hbad. destruct (result (extract_metadata data)) as [e | m] eqn:E.
  - exists e. split; [reflexivity |].
    apply (extract_metadata_raises_ValueError data e E).
  - exfalso. destruct (extract_metadata_title data m E) as [s [Hs [Hlen _]]].
    apply Hbad. exists s. auto.
Qed.

(** A record with a usable title is returned as soon as the two unguarded
    sub-extractions, of the authors and of the DOI, do not raise. *)
Lemma extract_metadata_returns (data : PyDict) (s : string)
  (au : list string) (d : option string) :
  resolved_title data = VStr s -> (3 <= len (strip s))%nat ->
  result (_extract_authors data) = inr au ->
  result (_extract_doi data) = inr d ->
  exists m, result (extract_metadata data) = inr m
            /\ title m = strip s /\ authors m = au /\ doi m = d.
Proof.
  intros Hs Hlen Hau Hd.
  destruct (extract_year_returns data) as [y Hy].
  destruct (extract_sample_size_returns data) as [n Hn].
  destruct (detect_study_type_returns data) as [t Ht].
  destruct (extract_full_text_links_returns data) as [links Hl].
  exists (MkPaperMetadata (strip s) au d y n t links).
  split; [| auto].
  unfold extract_metadata. fold (resolved_title data).
  apply result_try_except_inr.
  rewrite Hs, (validate_title_usable s Hlen), bind_ret_l.
  rewrite (result_bind_inr _ _ au Hau), (result_bind_inr _ _ d Hd),
    (result_bind_inr _ _ y Hy), (result_bind_inr _ _ n Hn),
    (result_bind_inr _ _ t Ht), (result_bind_inr _ _ links Hl).
  reflexivity.
Qed.

End ExtractionOutcome.

(** ** DOI extraction on strings *)

Section DoiStrings.
Import PyStr Re Py PaperData Notions.

Lemma lit_eq_exact (l u : string) : lit_eq false l u = true <-> u = l.
Proof.
  revert u. induction l as [| a l IH]; intros [| b u]; simpl;
    try (split; [discriminate | congruence]); [tauto |].
  rewrite andb_true_iff, IH, Ascii.eqb_eq. split; [intros [-> ->]; reflexivity |].
  intros [= -> ->]. auto.
Qed.

(** The texts of [DOI_PATTERN]: [10], one character that is no line feed,
    four to nine digits, a slash, and one or more characters of the suffix
    class. *)
Lemma doi_pattern_lang (d : string) :
  in_lang false DOI_PATTERN d
  <-> exists c digits suffix,
      d = ("10" ++ String c "" ++ digits ++ "/" ++ suffix)%string
      /\ isdot c = true
      /\ all_chars isdigit digits = true /\ (4 <= len digits <= 9)%nat
      /\ all_chars doi_suffix_char suffix = true /\ (1 <= len suffix)%nat.
Proof.
  unfold DOI_PATTERN, One. cbn [in_lang atom_lang within]. split.
  - intros [u1 [v1 [-> [H1 R1]]]].
    destruct R1 as [u2 [v2 [-> [[H2 [H2lo H2hi]] R2]]]].
    destruct R2 as [u3 [v3 [-> [[H3 [H3lo H3hi]] R3]]]].
    destruct R3 as [u4 [v4 [-> [H4 R4]]]].
    destruct R4 as [u5 [v5 [-> [[H5 [H5lo _]] ->]]]].
    apply lit_eq_exact in H1 as ->. apply lit_eq_exact in H4 as ->.
    destruct u2 as [| c [| c' u2]]; unfold len in H2lo, H2hi; simpl in H2lo, H2hi;
      try lia.
    simpl in H2. rewrite andb_true_r in H2.
    exists c, u3, u5. rewrite append_nil_r. repeat split; auto.
  - intros [c [digits [suffix [-> [Hc [Hd [[Hlo Hhi] [Hs Hl]]]]]]]].
    exists "10", (String c "" ++ digits ++ "/" ++ suffix)%string.
    split; [reflexivity |]. split; [reflexivity |].
    exists (String c ""), (digits ++ "/" ++ suffix)%string.
    split; [reflexivity |].
    split; [simpl; rewrite Hc; repeat split; unfold len; simpl; lia |].
    exists digits, ("/" ++ suffix)%string. split; [reflexivity |].
    split; [repeat split; assumption |].
    exists "/", suffix. split; [reflexivity |]. split; [reflexivity |].
    exists suffix, "". rewrite append_nil_r. repeat split; auto.
Qed.

(** No DOI field, no DOI. *)
Lemma extract_doi_missing (data : PyDict) :
  data !! "DOI" = None -> data !! "doi" = None -> _extract_doi data = ret None.
Proof. intros H1 H2. unfold _extract_doi, get. rewrite H1, H2. reflexivity. Qed.

(** On a DOI field that is a string, nothing is raised: the DOI is
    [group(0)] of the search, if there is a match. *)
Lemma extract_doi_on_string (data : PyDict) (s : string) :
  get data "DOI" (get data "doi" (VStr "")) = VStr s ->
  _extract_doi data = ret (option_map group0 (search DOI_PATTERN s)).
Proof.
  intros H. unfold _extract_doi. rewrite H. destruct s as [| c s]; [reflexivity |].
  cbn [truthy negb String.eqb re_search]. rewrite bind_ret_l.
  destruct (search DOI_PATTERN (String c s)); reflexivity.
Qed.

(** The DOI returned for a string is its leftmost piece that is a text of
    [DOI_PATTERN]; none is returned exactly when the string has no such
    piece. *)
Lemma extract_doi_leftmost (data : PyDict) (s : string) :
  get data "DOI" (get data "doi" (VStr "")) = VStr s ->
  (forall d,
      result (_extract_doi data) = inr (Some d) ->
      exists before after,
        s = (before ++ d ++ after)%string /\ in_lang false DOI_PATTERN d
        /\ forall before' t after',
            s = (before' ++ t ++ after')%string -> in_lang false DOI_PATTERN t ->
            (len before <= len before')%nat)
  /\ (result (_extract_doi data) = inr None
      <-> forall before t after,
          s = (before ++ t ++ after)%string -> ~ in_lang false DOI_PATTERN t).
Proof.
  intros H. rewrite (extract_doi_on_string data s H), result_ret. unfold search.
  split.
  - intros d Hd. destruct (search_from false DOI_PATTERN s 0) as [m |] eqn:E;
      simpl in Hd; [| discriminate].
    injection Hd as <-.
    destruct (search_from_some _ _ _ _ _ E) as [before [after [Hs [_ [Hin Hleft]]]]].
    exists before, after. auto.
  - rewrite <- (search_from_none false DOI_PATTERN s 0).
    destruct (search_from false DOI_PATTERN s 0); simpl;
      split; intros H'; try discriminate; reflexivity.
Qed.

End DoiStrings.

(** ** The tests of the repository, on the model *)

Section RepositoryTests.
Import PyStr Re Py PaperData Notions.

Example test_validate_title :
  _validate_title (VStr "Valid Title") = ret "Valid Title"
  /\ result (_validate_title (VStr "")) = inl (Exn ValueError "Invalid or missing title")
  /\ result (_validate_title (VStr "  ")) = inl (Exn ValueError "Invalid or missing title").
Proof. repeat split; vm_compute; reflexivity. Qed.

Example test_extract_authors :
  result (_extract_authors
            (list_to_map [("AU", VList [VStr "Smith J"; VStr "Johnson M"]);
                          ("FAU", VList [VStr "Smith, John"; VStr "Johnson, Mary"])]))
  = inr ["Smith J"; "Johnson M"].
Proof. vm_compute. reflexivity. Qed.

Example test_extract_doi :
  result (_extract_doi (list_to_map [("DOI", VStr "10.1234/example.12345")]))
  = inr (Some "10.1234/example.12345")
  /\ result (_extract_doi (list_to_map [("DOI", VStr "invalid-doi")])) = inr None.
Proof. split; vm_compute; reflexivity. Qed.

Example test_extract_year :
  result (_extract_year (list_to_map [("DP", VStr "2023")])) = inr (Some 2023%Z)
  /\ result (_extract_year (list_to_map [("DP", VStr "2023/01/15")])) = inr (Some 2023%Z)
  /\ result (_extract_year (list_to_map [("DP", VStr "2023-01-15")])) = inr (Some 2023%Z)
  /\ result (_extract_year (list_to_map [("DP", VStr "2023 Jan 15")])) = inr (Some 2023%Z)
  /\ result (_extract_year (list_to_map [("DP", VStr "invalid")])) = inr None.
Proof. repeat split; vm_compute; reflexivity. Qed.

Example test_extract_sample_size :
  result (_extract_sample_size
            (list_to_map [("AB", VStr "This study included n=500 participants")]))
  = inr (Some 500%Z)
  /\ result (_extract_sample_size (list_to_map [("AB", VStr "sample size of 300")]))
     = inr (Some 300%Z)
  /\ result (_extract_sample_size
               (list_to_map [("AB", VStr "enrolled 250 participants")]))
     = inr (Some 250%Z).
Proof. repeat split; vm_compute; reflexivity. Qed.

Example test_detect_study_type :
  result (_detect_study_type (list_to_map [("TI", VStr "A Randomized Controlled Trial")]))
  = inr (Some "RCT")
  /\ result (_detect_study_type (list_to_map [("TI", VStr "A Meta-Analysis")]))
     = inr (Some "Meta-Analysis")
  /\ result (_detect_study_type (list_to_map [("TI", VStr "A Study")])) = inr None.
Proof. repeat split; vm_compute; reflexivity. Qed.

(** The text of the detection is read from the keys TI, AB, PT and
    publication_type only: a title under the generic key title, which
    [extract_metadata] accepts as the title, is not part of it. *)
Example detect_study_type_generic_title :
  exists m,
    result (extract_metadata
              (list_to_map [("title", VStr "A Randomized Controlled Trial")]))
    = inr m
    /\ title m = "A Randomized Controlled Trial" /\ study_type m = None.
Proof. eexists. split; [vm_compute; reflexivity |]. split; reflexivity. Qed.

Example test_extract_full_text_links :
  exists links,
    result (_extract_full_text_links Samples.doi_and_link) = inr links
    /\ length links = 2%nat
    /\ In "https://doi.org/10.1234/example.12345" links.
Proof.
  eexists. split; [vm_compute; reflexivity |]. split; [reflexivity |].
  simpl. auto.
Qed.

End RepositoryTests.

(** ** The year-format check of the quality checker *)

Section YearFormat.
Import Py Pandas QualityChecker.

Lemma dtype_of_numpy (col : list cell) :
  dtype_of col = np_int64 \/ dtype_of col = np_uint64
  \/ dtype_of col = np_float64 \/ dtype_of col = np_object.
Proof.
  unfold dtype_of.
  repeat match goal with |- context [if ?b then _ else _] => destruct b end; auto.
Qed.

(** A year column never has one of the two dtypes the check accepts. *)
Lemma check_year_format_spec (df : DataFrame) :
  _check_year_format df = negb (has_column df "year").
Proof.
  unfold _check_year_format. destruct (has_column df "year"); [| reflexivity].
  simpl negb. cbv iota.
  destruct (dtype_of_numpy (column df "year")) as [-> | [-> | [-> | ->]]]; reflexivity.
Qed.

End YearFormat.

(* ===================================================================== *)
(** * The properties of the specification, C1 to C10 *)
(* ===================================================================== *)

Import PyStr Re Py PaperData Review Pandas Notions.

(** C1 (the code departs from the specification).  Specified: a raw record whose
    title resolves to a string of trimmed length at least 3 yields a record
    with that trimmed title, and any other raw record is rejected with
    ValueError.  The second half holds, and a record that is returned does
    carry the trimmed title; but a usable title is not enough for a record
    to be returned: the title "Valid Title" below is usable, yet the record
    is rejected, because its DOI field is a list of strings, on which the
    unguarded [_extract_doi] raises. *)
Theorem C1_usable_title_rejected :
  (forall data,
      ~ usable_title (resolved_title data) ->
      exists e, result (extract_metadata data) = inl e /\ kind e = ValueError)
  /\ (forall data m,
         result (extract_metadata data) = inr m ->
         exists s, resolved_title data = VStr s /\ (3 <= len (strip s))%nat
                   /\ title m = strip s)
  /\ usable_title (resolved_title Samples.doi_as_list)
  /\ result (extract_metadata Samples.doi_as_list)
     = inl (Exn ValueError
              "Failed to extract paper metadata: expected string or bytes-like object, got 'list'").
Proof.
  split; [exact extract_metadata_unusable |].
  split; [exact extract_metadata_title |].
  split.
  - exists "Valid Title". split; [reflexivity | vm_compute; lia].
  - vm_compute. reflexivity.
Qed.

(** C2 (the code departs from the specification).  Specified: once the title is
    usable, no failure of a sub-extraction leaves [extract_metadata].  The
    sub-extractions of the year, the sample size, the study type and the
    links are guarded and always return; those of the DOI and of the authors
    are not: a DOI field that is a list, or an author field that is None,
    raises TypeError, which [extract_metadata] turns into ValueError. *)
Theorem C2_unguarded_failures_propagate :
  (forall data,
      (exists y, result (_extract_year data) = inr y)
      /\ (exists n, result (_extract_sample_size data) = inr n)
      /\ (exists t, result (_detect_study_type data) = inr t)
      /\ (exists l, result (_extract_full_text_links data) = inr l))
  /\ usable_title (resolved_title Samples.doi_as_list)
  /\ result (_extract_doi Samples.doi_as_list)
     = inl (Exn TypeError "expected string or bytes-like object, got 'list'")
  /\ result (extract_metadata Samples.doi_as_list)
     = inl (Exn ValueError
              "Failed to extract paper metadata: expected string or bytes-like object, got 'list'")
  /\ usable_title (resolved_title Samples.authors_none)
  /\ result (_extract_authors Samples.authors_none)
     = inl (Exn TypeError "'NoneType' object is not iterable")
  /\ result (extract_metadata Samples.authors_none)
     = inl (Exn ValueError
              "Failed to extract paper metadata: 'NoneType' object is not iterable").
Proof.
  split.
  { intros data. split; [apply extract_year_returns |].
    split; [apply extract_sample_size_returns |].
    split; [apply detect_study_type_returns | apply extract_full_text_links_returns]. }
  split; [exists "Valid Title"; split; [reflexivity | vm_compute; lia] |].
  split; [vm_compute; reflexivity |].
  split; [vm_compute; reflexivity |].
  split; [exists "Valid Title"; split; [reflexivity | vm_compute; lia] |].
  split; vm_compute; reflexivity.
Qed.

(** C3, as stated, fails: on the empty collection [check_quality] returns a
    consistency score and a validity score that are not 0 (and an overall
    score that is not 0); the validity score and the completeness score of
    [DataValidator] raise ZeroDivisionError, and [validate_all] returns the
    empty dict, without any score. *)
Lemma C3_empty_collection_counterexample :
  (exists m,
      result (QualityChecker.check_quality (QualityChecker.__init__ None) 2026 [])
      = inr m
      /\ ~ (QualityChecker.consistency_score m == 0)%Q
      /\ ~ (QualityChecker.validity_score m == 0)%Q
      /\ ~ (QualityChecker.overall_score m == 0)%Q)
  /\ result (DataValidator._validity_score Samples.clock_2026 (MkDataFrame []) []).1
     = inl (Exn ZeroDivisionError "division by zero")
  /\ result (DataValidator._completeness_score (MkDataFrame []) []).1
     = inl (Exn ZeroDivisionError "division by zero")
  /\ result (DataValidator.validate_all Samples.clock_2026 (MkDataFrame []) []).1
     = inr DataValidator.EmptyDict.
Proof.
  split; [| repeat split; vm_compute; reflexivity].
  eexists. split; [vm_compute; reflexivity |].
  repeat split; vm_compute; discriminate.
Qed.

(** C3, amended.  Scoring the empty collection with
    [QualityChecker.check_quality] raises nothing, logs nothing, and yields
    completeness 0, consistency 100, validity 100 and the overall score
    60 = 0.4 * 0 + 0.3 * 100 + 0.3 * 100. *)
Theorem C3_empty_collection_quality (current_year : Z) :
  exists m,
    QualityChecker.check_quality (QualityChecker.__init__ None) current_year []
    = (inr m, [])
    /\ (QualityChecker.completeness_score m == 0)%Q
    /\ (QualityChecker.consistency_score m == 100)%Q
    /\ (QualityChecker.validity_score m == 100)%Q
    /\ (QualityChecker.overall_score m == 60)%Q.
Proof.
  eexists. split; [vm_compute; reflexivity |].
  repeat split; vm_compute; reflexivity.
Qed.

(** C4 (the code departs from the specification).  Specified: a non-empty
    collection of complete and valid records scores 100 on completeness,
    consistency and validity, and 100 overall.  The year-format check fails
    for every collection in which some record has a year; on the one-record
    collection below completeness and validity are 100, consistency is
    200/3 and the overall score is 90. *)
Theorem C4_complete_records_score_90 :
  (forall data,
      (exists row, row ∈ data /\ is_Some (row !! "year")) ->
      QualityChecker._check_year_format (MkDataFrame data) = false)
  /\ exists m,
      QualityChecker.check_quality (QualityChecker.__init__ None) 2026
        [Samples.complete_record]
      = (inr m, [])
      /\ (QualityChecker.completeness_score m == 100)%Q
      /\ (QualityChecker.consistency_score m == 200 # 3)%Q
      /\ (QualityChecker.validity_score m == 100)%Q
      /\ (QualityChecker.overall_score m == 90)%Q
      /\ QualityChecker.issues m = [QualityChecker.FailedConsistency "year_format"].
Proof.
  split.
  - intros data H. apply has_column_true in H.
    rewrite check_year_format_spec, H. reflexivity.
  - eexists. split; [vm_compute; reflexivity |].
    repeat split; vm_compute; reflexivity.
Qed.

(** C5, as stated, fails: on a collection of two records, one of which has
    both a year out of range and a sample size of 0, the specified score is 50
    (one flagged record out of two), while [DataValidator] returns 0 (two
    flags out of two records) and [QualityChecker] returns 80 (two violated
    checks). *)
Lemma C5_validity_counterexample :
  (spec_validity 1900 2026 Samples.flag_pair == 50)%Q
  /\ (spec_validity 1800 2026 Samples.flag_pair == 50)%Q
  /\ (exists q,
         result (DataValidator._validity_score Samples.clock_2026
                   (MkDataFrame Samples.flag_pair) []).1
         = inr q
         /\ (q == 0)%Q /\ ~ (q == spec_validity 1900 2026 Samples.flag_pair)%Q)
  /\ (exists v,
         result (QualityChecker._check_validity 2026 (MkDataFrame Samples.flag_pair))
         = inr v
         /\ (QualityChecker.v_score v == 80)%Q
         /\ ~ (QualityChecker.v_score v == spec_validity 1800 2026 Samples.flag_pair)%Q).
Proof.
  split; [vm_compute; reflexivity |]. split; [vm_compute; reflexivity |].
  split.
  - eexists. split; [vm_compute; reflexivity |].
    split; [vm_compute; reflexivity | vm_compute; discriminate].
  - eexists. split; [vm_compute; reflexivity |].
    split; [vm_compute; reflexivity | vm_compute; discriminate].
Qed.

(** C5, amended.  For every non-empty collection of records whose years
    and sample sizes are integers or missing:
    [DataValidator._validity_score] is
    max(0, 100 - (year flags + sample-size flags) / records * 100), the year
    being flagged outside [1900, current year] and the sample size when it
    is 0 or less, so that a record failing both checks counts twice; and
    the validity score of [QualityChecker] is
    max(0, 100 - 10 * violated checks), the checks being the year in
    [1800, current year] and the positive sample size, however many records
    violate them. *)
Theorem C5_validity_scores (clk : DataValidator.clock) (data : list PyDict)
  (st : list DataValidator.warning) :
  data <> [] ->
  numeric_records data = true ->
  DataValidator._validity_score clk (MkDataFrame data) st
  = ((inr (Qmax 0
             (100 - inject_Z (Z.of_nat
                       (count (year_flagged 1900 (DataValidator.now_year clk)) data
                        + count sample_flagged data))
                    / inject_Z (Z.of_nat (length data)) * 100))%Q, []), st)
  /\ exists validity,
      QualityChecker._check_validity (DataValidator.now_year clk) (MkDataFrame data)
      = (inr validity, [])
      /\ QualityChecker.v_score validity
         = Qmax 0 (100 - inject_Z (Z.of_nat
                             (violated_checks 1800 (DataValidator.now_year clk) data))
                         * 10)%Q.
Proof.
  intros Hne Hnum. unfold numeric_records in Hnum.
  apply andb_true_iff in Hnum as [Hy Hs]. split.
  - apply dv_validity_score_numeric; assumption.
  - apply qc_check_validity_numeric; assumption.
Qed.

(** The amended C5 on two records, one failing both checks. *)
Lemma C5_validity_scores_witness :
  Samples.flag_pair <> []
  /\ numeric_records Samples.flag_pair = true
  /\ exists q,
      DataValidator._validity_score Samples.clock_2026
        (MkDataFrame Samples.flag_pair) []
      = ((inr q, []), [])
      /\ (q == 0)%Q.
Proof.
  split; [discriminate |]. split; [vm_compute; reflexivity |].
  eexists. split.
  - apply (C5_validity_scores Samples.clock_2026 Samples.flag_pair []);
      [discriminate | vm_compute; reflexivity].
  - vm_compute. reflexivity.
Defined.

(** C6, as stated, fails: the record below has a DOI that is resolved, and
    a link field whose one entry is itself a list; the scan of the link
    fields raises on that entry, the guard of [_extract_full_text_links]
    takes over before the DOI link is appended, and the list returned is
    empty. *)
Lemma C6_links_counterexample :
  result (_extract_doi Samples.nested_link) = inr (Some "10.1234/abc")
  /\ result (_extract_full_text_links Samples.nested_link) = inr []
  /\ count_occ string_dec [] (doi_link "10.1234/abc") <> 1%nat.
Proof.
  split; [vm_compute; reflexivity |]. split; [vm_compute; reflexivity |].
  simpl. discriminate.
Qed.

(** C6, amended.  For every raw record, [_extract_full_text_links] returns
    a list without duplicates; when a DOI is resolved and every link field
    (LID, OUR, full_text_url) is a string or a list of strings, or is not
    there, the list holds the entry https://doi.org/{doi} exactly once; when
    no DOI is resolved, every entry of the list is a string of the link
    fields, and nothing is synthesized. *)
Theorem C6_full_text_links (data : PyDict) :
  exists links,
    result (_extract_full_text_links data) = inr links
    /\ List.NoDup links
    /\ (forall d,
           result (_extract_doi data) = inr (Some d) ->
           url_fields_readable data = true ->
           count_occ string_dec links (doi_link d) = 1%nat)
    /\ ((forall d, result (_extract_doi data) <> inr (Some d)) ->
        forall l, In l links -> In l (source_urls data)).
Proof.
  exists (list_set (links_try data).1).
  split; [apply extract_full_text_links_value |].
  split; [apply list_set_NoDup |].
  split.
  - intros d Hd Hr.
    apply (proj1 (NoDup_count_occ' string_dec _) (list_set_NoDup _)).
    apply list_set_In. apply links_try_resolved; assumption.
  - intros Hno l Hl. apply list_elem_of_In.
    apply links_try_unresolved; [exact Hno |].
    apply list_set_In. exact Hl.
Qed.

(** The amended C6 on the record of the repository's link test: a DOI and
    one link; the DOI link is there exactly once. *)
Lemma C6_full_text_links_witness :
  result (_extract_doi Samples.doi_and_link) = inr (Some "10.1234/example.12345")
  /\ url_fields_readable Samples.doi_and_link = true
  /\ exists links,
      result (_extract_full_text_links Samples.doi_and_link) = inr links
      /\ count_occ string_dec links (doi_link "10.1234/example.12345") = 1%nat.
Proof.
  split; [vm_compute; reflexivity |]. split; [vm_compute; reflexivity |].
  destruct (C6_full_text_links Samples.doi_and_link) as [links [Hl [_ [Hone _]]]].
  exists links. split; [exact Hl |].
  apply Hone; vm_compute; reflexivity.
Defined.

(** C7 (the code departs from the specification).  Specified: the DOI returned is
    the substring in the syntax 10.NNNN+/suffix, and a string without such a
    substring yields no DOI, never a malformed value.  The dot of
    [DOI_PATTERN] is the wildcard of regular expressions, not a literal dot:
    the string 10X1234/abc, no piece of which is in the syntax of the
    specification, is returned as a DOI.  (What the code does on strings is
    [extract_doi_leftmost] with [doi_pattern_lang].) *)
Theorem C7_wildcard_dot_accepts_malformed :
  (forall before t after,
      "10X1234/abc" = (before ++ t ++ after)%string ->
      ~ in_lang false spec_doi_syntax t)
  /\ _extract_doi Samples.doi_without_dot = (inr (Some "10X1234/abc"), []).
Proof.
  split.
  - apply (search_from_none false spec_doi_syntax "10X1234/abc" 0).
    vm_compute. reflexivity.
  - vm_compute. reflexivity.
Qed.



(** C9.  Whatever the readers return, [search_databases] completes without
    raising; afterwards the collection is the collection before the call
    followed by the records the normaliser accepted, each tagged with its
    source, in the order PubMed, Cochrane, ClinicalTrials.gov and, within a
    source, in the order of the reader; and every record the normaliser
    rejected has its error record in the log. *)
Theorem C9_partial_failure (rd : Readers) (results : list result_entry)
  (query : string) (max_results : Z)
  (include_cochrane include_clinicaltrials : bool) :
  result (search_databases rd results query max_results
            include_cochrane include_clinicaltrials)
  = inr (results
           ++ normalized "pubmed"
                (map (pubmed_fetch_details rd) (pubmed_search rd query max_results))
           ++ normalized "cochrane"
                (if include_cochrane then cochrane_search rd query max_results else [])
           ++ normalized "clinicaltrials"
                (if include_clinicaltrials
                 then clinicaltrials_search rd query max_results else []))
  /\ (forall pmid e,
         pmid ∈ pubmed_search rd query max_results ->
         result (extract_metadata (pubmed_fetch_details rd pmid)) = inl e ->
         Log ERROR ("Failed to extract metadata for PMID " +:+ pmid +:+ ": "
                      +:+ message e)
           ∈ logs (search_databases rd results query max_results
                     include_cochrane include_clinicaltrials))
  /\ (forall article e,
         article ∈ (if include_cochrane
                     then cochrane_search rd query max_results else []) ->
         result (extract_metadata article) = inl e ->
         Log ERROR ("Failed to extract Cochrane metadata" +:+ ": " +:+ message e)
           ∈ logs (search_databases rd results query max_results
                     include_cochrane include_clinicaltrials))
  /\ (forall trial e,
         trial ∈ (if include_clinicaltrials
                   then clinicaltrials_search rd query max_results else []) ->
         result (extract_metadata trial) = inl e ->
         Log ERROR ("Failed to extract ClinicalTrials metadata" +:+ ": " +:+ message e)
           ∈ logs (search_databases rd results query max_results
                     include_cochrane include_clinicaltrials)).
Proof.
  split; [apply search_databases_result |].
  split; [apply search_databases_logs_pubmed |].
  split; [apply search_databases_logs_cochrane | apply search_databases_logs_trials].
Qed.

(** C9 on the end-to-end scenario: of a trial, a record without title and a
    record of 1750, the first and the third are collected, the second is
    logged. *)
Lemma C9_partial_failure_witness :
  exists first third,
    result (search_databases Samples.scenario_readers [] "query" 50 true true)
    = inr [MkEntry "pubmed" first; MkEntry "pubmed" third]
    /\ first !! "study_type" = Some (VStr "RCT")
    /\ first !! "sample_size" = Some (VInt 500)
    /\ third !! "year" = Some (VInt 1750)
    /\ Log ERROR
         "Failed to extract metadata for PMID 2: Failed to extract paper metadata: Invalid or missing title"
       ∈ logs (search_databases Samples.scenario_readers [] "query" 50 true true).
Proof.
  destruct (C9_partial_failure Samples.scenario_readers [] "query" 50 true true)
    as [Hres [Hlog _]].
  eexists. eexists. split; [rewrite Hres; vm_compute; reflexivity |].
  split; [vm_compute; reflexivity |]. split; [vm_compute; reflexivity |].
  split; [vm_compute; reflexivity |].
  apply (Hlog "2" (Exn ValueError
                    "Failed to extract paper metadata: Invalid or missing title")).
  - vm_compute. apply list_elem_of_further. apply list_elem_of_here.
  - vm_compute. reflexivity.
Defined.

(** C10.  When some record of the collection has the key year,
    [_check_year_consistency] raises NameError, the name np being defined
    nowhere in the module, and [validate_all] logs the error and returns the
    empty dict: no completeness, consistency, validity or summary result. *)
Theorem C10_validate_all_year_column (clk : DataValidator.clock)
  (data : list PyDict) (st : list DataValidator.warning) :
  (exists row, row ∈ data /\ is_Some (row !! "year")) ->
  DataValidator._check_year_consistency (MkDataFrame data)
  = raise (Exn NameError "name 'np' is not defined")
  /\ exists st',
      DataValidator.validate_all clk (MkDataFrame data) st
      = ((inr DataValidator.EmptyDict,
          [Log ERROR "Validation failed: name 'np' is not defined"]), st').
Proof.
  intros H. apply has_column_true in H. split.
  - apply check_year_consistency_raises. exact H.
  - apply validate_all_year_column. exact H.
Qed.

(** C10 on a collection of one complete record. *)
Lemma C10_validate_all_year_column_witness :
  (exists row, row ∈ [Samples.complete_record] /\ is_Some (row !! "year"))
  /\ result (DataValidator.validate_all Samples.clock_2026
               (MkDataFrame [Samples.complete_record]) []).1
     = inr DataValidator.EmptyDict.
Proof.
  assert (H : exists row, row ∈ [Samples.complete_record] /\ is_Some (row !! "year")).
  { exists Samples.complete_record. split; [apply list_elem_of_here |].
    vm_compute. eexists. reflexivity. }
  split; [exact H |].
  destruct (C10_validate_all_year_column Samples.clock_2026
              [Samples.complete_record] [] H) as [_ [st' E]].
  rewrite E. reflexivity.
Defined.

(* ===================================================================== *)
(** * Properties beyond the specification, X1 to X25 *)
(* ===================================================================== *)

Import Fields Groups MoreSamples Scores Validation ListCells Medline Dates Pipeline.

(* ===================================================================== *)
(** * Further properties of the normaliser *)
(* ===================================================================== *)

Section Trimming.
Import PyStr.

Lemma rstrip_idempotent (s : string) : rstrip (rstrip s) = rstrip s.
Proof.
  induction s as [| c s IH]; [reflexivity |].
  simpl. destruct (rstrip s) as [| d r] eqn:E.
  - destruct (isspace c) eqn:Ec; [reflexivity |].
    simpl. rewrite Ec. reflexivity.
  - simpl. simpl in IH. rewrite IH. reflexivity.
Qed.

Lemma lstrip_head (s : string) :
  lstrip s = "" \/ exists c r, lstrip s = String c r /\ isspace c = false.
Proof.
  induction s as [| c s IH]; [left; reflexivity |].
  simpl. destruct (isspace c) eqn:Ec; [exact IH |].
  right. exists c, s. auto.
Qed.

Lemma rstrip_head (c : ascii) (r : string) :
  isspace c = false -> exists r', rstrip (String c r) = String c r'.
Proof.
  intros Ec. simpl. destruct (rstrip r) as [| d r'].
  - rewrite Ec. eexists; reflexivity.
  - eexists; reflexivity.
Qed.

Lemma strip_idempotent (s : string) : strip (strip s) = strip s.
Proof.
  unfold strip. destruct (lstrip_head s) as [E | [c [r [E Ec]]]]; rewrite E.
  - reflexivity.
  - destruct (rstrip_head c r Ec) as [r' E'].
    assert (El : lstrip (rstrip (String c r)) = rstrip (String c r)).
    { rewrite E'. simpl. rewrite Ec. reflexivity. }
    rewrite El. apply rstrip_idempotent.
Qed.

End Trimming.

Section Titles.
Import PyStr Py PaperData Notions.

Lemma validate_title_inv (v : PyVal) (t : string) :
  result (_validate_title v) = inr t ->
  exists s, v = VStr s /\ t = strip s /\ (3 <= len (strip s))%nat.
Proof.
  intros H. destruct (classic_usable v) as [[s [-> Hlen]] | Hbad].
  - exists s. rewrite (validate_title_usable s Hlen) in H.
    injection H as <-. auto.
  - destruct (validate_title_unusable v Hbad) as [e He]. congruence.
Qed.

End Titles.

(** X1. A title that [_validate_title] returns carries no surrounding
    whitespace and has at least three characters, and validating it again
    returns it unchanged. *)
Theorem X1_validated_title_is_trimmed (v : PyVal) (t : string) :
  result (_validate_title v) = inr t ->
  strip t = t /\ (3 <= len t)%nat /\ _validate_title (VStr t) = ret t.
Proof.
  intros H. destruct (validate_title_inv v t H) as [s [-> [-> Hlen]]].
  assert (Hs : strip (strip s) = strip s) by apply strip_idempotent.
  split; [exact Hs |]. split; [exact Hlen |].
  rewrite <- Hs at 2. apply validate_title_usable. rewrite Hs. exact Hlen.
Qed.

Lemma X1_validated_title_is_trimmed_witness :
  strip "Valid Title" = "Valid Title" /\ (3 <= len "Valid Title")%nat
  /\ _validate_title (VStr "Valid Title") = ret "Valid Title".
Proof.
  apply (X1_validated_title_is_trimmed (VStr "  Valid Title  ") "Valid Title").
  reflexivity.
Defined.

Section Authors.
Import PyStr Py PaperData Notions Fields.

Lemma long_name_truthy (a : string) :
  truthy (VStr a) && (1 <? len a)%nat = long_name a.
Proof. destruct a; reflexivity. Qed.

Lemma authors_loop_strings (items : list string) (acc : list string) :
  authors_loop (map VStr items) acc
  = ret (acc ++ List.filter long_name (map strip items)).
Proof.
  revert acc. induction items as [| a items IH]; intros acc.
  - simpl. rewrite app_nil_r. reflexivity.
  - cbn [map authors_loop py_strip List.filter]. rewrite bind_ret_l, long_name_truthy.
    destruct (long_name (strip a)).
    + rewrite IH, <- app_assoc. reflexivity.
    + apply IH.
Qed.

Lemma strings_in_list (items : list PyVal) :
  forallb is_str items = true -> items = map VStr (strings_in (VList items)).
Proof.
  induction items as [| v items IH]; [reflexivity |].
  cbn [forallb]. intros H. apply andb_true_iff in H as [Hv H].
  destruct v; try discriminate. simpl. f_equal. apply IH. exact H.
Qed.

Lemma map_strip_strip (pieces : list string) :
  map strip (map strip pieces) = map strip pieces.
Proof.
  induction pieces as [| a pieces IH]; [reflexivity |].
  simpl. rewrite strip_idempotent, IH. reflexivity.
Qed.

Lemma extract_authors_value (data : PyDict) (pieces : list string) :
  author_pieces (raw_authors data) = Some pieces ->
  _extract_authors data
  = (inr (kept_authors pieces),
     match kept_authors pieces with
     | [] => [Log WARNING "No valid authors found"]
     | _ => []
     end).
Proof.
  intros Hp.
  assert (Hlist : forall ss, raw_authors data = VList (map VStr ss) ->
            _extract_authors data
            = (inr (kept_authors ss),
               match kept_authors ss with
               | [] => [Log WARNING "No valid authors found"]
               | _ => []
               end)).
  { intros ss Hraw. unfold _extract_authors, kept_authors. fold (raw_authors data).
    rewrite Hraw. cbn [iterate].
    rewrite bind_ret_l, authors_loop_strings, bind_ret_l. cbn [app].
    destruct (List.filter long_name (map strip ss)); reflexivity. }
  destruct (raw_authors data) as [| z | s | items] eqn:Hraw; try discriminate.
  - injection Hp as <-.
    unfold _extract_authors, kept_authors. fold (raw_authors data). rewrite Hraw.
    replace (map (fun a => VStr (strip a)) (split_char "," s))
      with (map VStr (map strip (split_char "," s)))
      by (rewrite map_map; reflexivity).
    rewrite bind_ret_l, authors_loop_strings, bind_ret_l, map_strip_strip.
    cbn [app]. destruct (List.filter long_name (map strip (split_char "," s)));
      reflexivity.
  - cbn [author_pieces] in Hp. destruct (forallb is_str items) eqn:E; [| discriminate].
    injection Hp as <-.
    rewrite (Hlist (strings_in (VList items)))
      by (f_equal; apply strings_in_list; exact E).
    reflexivity.
Qed.

End Authors.

(** X2. When the author field (the first of AU, authors, FAU the record
    has) is a string or a list of strings, [_extract_authors] raises
    nothing and returns the names of the field (for a string, its pieces
    between commas), each trimmed, in their order, less those of at most
    one character; it logs its warning exactly when no name is left. *)
Theorem X2_authors_trimmed_and_filtered (data : PyDict) (pieces : list string) :
  author_pieces (raw_authors data) = Some pieces ->
  result (_extract_authors data) = inr (kept_authors pieces)
  /\ logs (_extract_authors data)
     = match kept_authors pieces with
       | [] => [Log WARNING "No valid authors found"]
       | _ => []
       end.
Proof.
  intros H. rewrite (extract_authors_value data pieces H). split; reflexivity.
Qed.

Lemma X2_authors_trimmed_and_filtered_witness :
  result (_extract_authors authors_as_text) = inr ["Smith J"; "Doe A"]
  /\ logs (_extract_authors authors_as_text) = [].
Proof.
  apply (X2_authors_trimmed_and_filtered authors_as_text
           ["Smith J"; " Doe A "; " X"; ""]).
  reflexivity.
Defined.

Section CapturedGroups.
Import PyStr Re Notions Groups.

Lemma back_sound_groups (cap : bool) (lo : nat) (k : string -> outcome) (s : string)
  (n m : nat) (g : list string) :
  back cap lo k s n = Some (m, g) ->
  exists j m' g', (lo <= j <= n)%nat /\ k (drop j s) = Some (m', g')
                  /\ m = (j + m')%nat /\ g = captured cap (take j s) g'.
Proof.
  induction n as [| n IH]; cbn [back].
  - destruct (lo <=? 0)%nat eqn:E; [| discriminate].
    destruct (k (drop 0 s)) as [[m' g'] |] eqn:Ek; [| discriminate].
    intros [= <- <-]. apply Nat.leb_le in E. exists 0%nat, m', g'. repeat split; auto; lia.
  - destruct (lo <=? S n)%nat eqn:E.
    + destruct (k (drop (S n) s)) as [[m' g'] |] eqn:Ek.
      * intros [= <- <-]. apply Nat.leb_le in E.
        exists (S n), m', g'. repeat split; auto; lia.
      * intros H. destruct (IH H) as [j [m' [g' [Hj [Hk [Hm Hg]]]]]].
        exists j, m', g'. repeat split; auto; lia.
    + intros H. destruct (IH H) as [j [m' [g' [Hj [Hk [Hm Hg]]]]]].
      exists j, m', g'. repeat split; auto; lia.
Qed.

Lemma try_alts_sound_groups (ic cap : bool) (k : string -> outcome) (s : string)
  (alts : list string) (n : nat) (g : list string) :
  try_alts ic cap k s alts = Some (n, g) ->
  exists l rest m' g',
    l ∈ alts /\ match_lit ic l s = Some rest /\ k rest = Some (m', g')
    /\ n = (len l + m')%nat /\ g = captured cap (take (len l) s) g'.
Proof.
  induction alts as [| l alts IH]; cbn [try_alts]; [discriminate |].
  unfold lit_then.
  destruct (match_lit ic l s) as [rest |] eqn:El.
  - destruct (k rest) as [[m' g'] |] eqn:Ek.
    + intros [= <- <-]. exists l, rest, m', g'.
      repeat split; auto. apply list_elem_of_here.
    + intros H. destruct (IH H) as [l' [r' [m' [g' [Hin H']]]]].
      exists l', r', m', g'. split; [apply list_elem_of_further; exact Hin | exact H'].
  - intros H. destruct (IH H) as [l' [r' [m' [g' [Hin H']]]]].
    exists l', r', m', g'. split; [apply list_elem_of_further; exact Hin | exact H'].
Qed.

Lemma take_len_app (u rest : string) : take (len u) (u ++ rest) = u.
Proof.
  replace (len u) with (len u + 0)%nat by lia. rewrite take_app.
  destruct rest; simpl; apply append_nil_r.
Qed.

(** What the matcher consumes, and what its groups capture. *)
Lemma match_here_groups (ic : bool) (p : pattern) (s : string) (n : nat)
  (g : list string) :
  match_here ic p s = Some (n, g) ->
  (n <= len s)%nat /\ in_lang_groups ic p (take n s) g.
Proof.
  revert s n g. induction p as [| a p IH]; intros s n g.
  - simpl. intros [= <- <-]. split; [lia | destruct s; split; reflexivity].
  - destruct a as [l | cap alts | cap cls lo hi]; cbn [match_here in_lang_groups].
    + unfold lit_then.
      destruct (match_lit ic l s) as [rest |] eqn:El; [| discriminate].
      destruct (match_here ic p rest) as [[m' g'] |] eqn:Ek; [| discriminate].
      intros [= <- <-]. apply match_lit_spec in El as [u [-> Hu]].
      destruct (IH _ _ _ Ek) as [Hle Hin].
      rewrite <- (lit_eq_len ic l u Hu), take_app, len_app.
      split; [lia |]. exists u, (take m' rest), g'. auto.
    + intros H.
      apply try_alts_sound_groups in H as [l [rest [m' [g' [Hl [El [Ek [-> ->]]]]]]]].
      apply match_lit_spec in El as [u [-> Hu]].
      destruct (IH _ _ _ Ek) as [Hle Hin].
      rewrite <- (lit_eq_len ic l u Hu), take_app, len_app, take_len_app.
      split; [lia |]. exists u, (take m' rest), g'. split; [reflexivity |].
      split; [exists l; auto |]. split; [exact Hin | reflexivity].
    + intros H. apply back_sound_groups in H as [j [m' [g' [Hj [Ek [-> ->]]]]]].
      destruct (IH _ _ _ Ek) as [Hle Hin].
      pose proof (span_le_len cls hi s) as Hs.
      rewrite len_drop in Hle by lia.
      rewrite take_add by lia. split; [lia |].
      exists (take j s), (take m' (drop j s)), g'. split; [reflexivity |].
      split; [| split; [exact Hin | reflexivity]].
      split; [apply (span_all cls hi); lia |].
      rewrite len_take by lia. split; [lia |].
      pose proof (span_within cls hi s) as Hw. destruct hi; simpl in *; [lia | exact I].
Qed.

Lemma search_from_groups (ic : bool) (p : pattern) (s : string) (pos : nat)
  (m : re_match) :
  search_from ic p s pos = Some m ->
  occurs_in (group0 m) s /\ in_lang_groups ic p (group0 m) (groups m).
Proof.
  revert pos. induction s as [| c s IH]; intros pos; cbn [search_from].
  - destruct (match_here ic p "") as [[n g] |] eqn:E; [| discriminate].
    intros [= <-]. destruct (match_here_groups _ _ _ _ _ E) as [_ Hin].
    split; [| exact Hin]. exists "", (drop n ""). cbn [group0].
    symmetry; apply (take_drop n "").
  - destruct (match_here ic p (String c s)) as [[n g] |] eqn:E.
    + intros [= <-]. destruct (match_here_groups _ _ _ _ _ E) as [_ Hin].
      split; [| exact Hin]. exists "", (drop n (String c s)). cbn [group0].
      symmetry; apply (take_drop n (String c s)).
    + intros H. destruct (IH _ H) as [[before [after Hs]] Hin].
      split; [| exact Hin]. exists (String c before), after.
      rewrite append_cons. congruence.
Qed.

Lemma occurs_in_app_l (u a b : string) : occurs_in (a ++ b) u -> occurs_in a u.
Proof.
  intros [x [y ->]]. exists x, (b ++ y)%string. rewrite append_assoc. reflexivity.
Qed.

Lemma occurs_in_app_r (u a b : string) : occurs_in (a ++ b) u -> occurs_in b u.
Proof.
  intros [x [y ->]]. exists (x ++ a)%string, y. rewrite !append_assoc. reflexivity.
Qed.

End CapturedGroups.

Section Digits.
Import PyStr Notions.

Lemma isdigit_code (c : ascii) : isdigit c = true -> (code c - 48 <= 9)%nat.
Proof.
  unfold isdigit, between. intros H. apply andb_true_iff in H as [H1 H2].
  apply Nat.leb_le in H1, H2. lia.
Qed.

Lemma int_of_digits_aux_bounds (u : string) (acc : Z) :
  all_chars isdigit u = true -> (0 <= acc)%Z ->
  (acc * 10 ^ Z.of_nat (len u) <= int_of_digits_aux u acc
   < (acc + 1) * 10 ^ Z.of_nat (len u))%Z.
Proof.
  revert acc. induction u as [| c u IH]; intros acc Hall Hacc.
  - simpl. lia.
  - cbn [all_chars] in Hall. apply andb_true_iff in Hall as [Hc Hall].
    apply isdigit_code in Hc.
    unfold len in *. cbn [String.length int_of_digits_aux].
    specialize (IH (10 * acc + Z.of_nat (code c - 48))%Z Hall ltac:(lia)).
    rewrite Nat2Z.inj_succ, Z.pow_succ_r by lia.
    assert (Hp : (0 < 10 ^ Z.of_nat (String.length u))%Z) by (apply Z.pow_pos_nonneg; lia).
    nia.
Qed.

Lemma int_of_digits_bounds (u : string) :
  all_chars isdigit u = true ->
  (0 <= int_of_digits u < 10 ^ Z.of_nat (len u))%Z.
Proof.
  intros H. pose proof (int_of_digits_aux_bounds u 0 H ltac:(lia)) as B.
  unfold int_of_digits. lia.
Qed.

End Digits.

Section Guarded.
Import Py.

Lemma result_try_except_inv {A} (m : M A) (h : exn -> M A) (a : A) :
  result (try_except m h) = inr a ->
  result m = inr a \/ exists e, result m = inl e /\ result (h e) = inr a.
Proof.
  destruct m as [[e | a'] l]; simpl.
  - intros H. right. exists e. split; [reflexivity |].
    destruct (h e) as [r l']. exact H.
  - intros H. left. exact H.
Qed.

Lemma py_join3_inv (sep : string) (v1 v2 v3 : PyVal) (joined : string) :
  result (py_join sep [v1; v2; v3]) = inr joined ->
  exists s1 s2 s3,
    v1 = VStr s1 /\ v2 = VStr s2 /\ v3 = VStr s3
    /\ joined = PyStr.join sep [s1; s2; s3].
Proof.
  unfold py_join. intros H.
  destruct v1 as [| ? | s1 | ?]; try discriminate H.
  destruct v2 as [| ? | s2 | ?]; try discriminate H.
  destruct v3 as [| ? | s3 | ?]; try discriminate H.
  exists s1, s2, s3. repeat split. injection H as <-. reflexivity.
Qed.

End Guarded.

Section SampleSize.
Import PyStr Re Py PaperData Notions Groups.

Lemma patterns_loop_some (text : string) (ps : list pattern) (n : Z) :
  result (patterns_loop text ps) = inr (Some n) ->
  exists p m g, In p ps /\ search p text = Some m /\ group1 m = Some g
                /\ n = int_of_digits g.
Proof.
  induction ps as [| p ps IH]; cbn [patterns_loop]; [discriminate |].
  destruct (search p text) as [m |] eqn:E.
  - destruct (group1 m) as [g |] eqn:G; [| discriminate].
    intros [= <-]. exists p, m, g. repeat split; auto. left. reflexivity.
  - intros H. destruct (IH H) as [p' [m [g [Hin H']]]].
    exists p', m, g. split; [right; exact Hin | exact H'].
Qed.

(** The group of each sample-size pattern is a run of digits inside the
    text matched. *)
Lemma sample_size_group (p : pattern) (t : string) (gs : list string) (g : string) :
  In p sample_size_patterns -> in_lang_groups false p t gs -> head gs = Some g ->
  occurs_in g t /\ all_chars isdigit g = true /\ (1 <= len g)%nat.
Proof.
  unfold sample_size_patterns.
  intros [<- | [<- | [<- | [<- | []]]]]; cbn [in_lang_groups atom_lang captured];
    intros H Hg.
  - destruct H as [u1 [v1 [g1 [-> [_ [H ->]]]]]].
    destruct H as [u2 [v2 [g2 [-> [_ [H ->]]]]]].
    destruct H as [u3 [v3 [g3 [-> [_ [H ->]]]]]].
    destruct H as [u4 [v4 [g4 [-> [_ [H ->]]]]]].
    destruct H as [u5 [v5 [g5 [-> [[Hd [Hl _]] [[-> ->] ->]]]]]].
    injection Hg as <-. split; [| auto].
    exists (u1 ++ u2 ++ u3 ++ u4)%string, "". rewrite !append_assoc. reflexivity.
  - destruct H as [u1 [v1 [g1 [-> [_ [H ->]]]]]].
    destruct H as [u2 [v2 [g2 [-> [_ [H ->]]]]]].
    destruct H as [u3 [v3 [g3 [-> [_ [H ->]]]]]].
    destruct H as [u5 [v5 [g5 [-> [[Hd [Hl _]] [[-> ->] ->]]]]]].
    injection Hg as <-. split; [| auto].
    exists (u1 ++ u2 ++ u3)%string, "". rewrite !append_assoc. reflexivity.
  - destruct H as [u1 [v1 [g1 [-> [_ [H ->]]]]]].
    destruct H as [u2 [v2 [g2 [-> [_ [H ->]]]]]].
    destruct H as [u5 [v5 [g5 [-> [[Hd [Hl _]] [_ ->]]]]]].
    injection Hg as <-. split; [| auto].
    exists (u1 ++ u2)%string, v5. rewrite !append_assoc. reflexivity.
  - destruct H as [u1 [v1 [g1 [-> [_ [H ->]]]]]].
    destruct H as [u2 [v2 [g2 [-> [_ [H ->]]]]]].
    destruct H as [u5 [v5 [g5 [-> [[Hd [Hl _]] [_ ->]]]]]].
    injection Hg as <-. split; [| auto].
    exists (u1 ++ u2)%string, v5. rewrite !append_assoc. reflexivity.
Qed.

Lemma occurs_in_trans (a b c : string) : occurs_in a b -> occurs_in b c -> occurs_in a c.
Proof.
  intros [x [y ->]] [x' [y' ->]]. exists (x' ++ x)%string, (y ++ y')%string.
  rewrite !append_assoc. reflexivity.
Qed.

End SampleSize.

(** X3. A sample size that [_extract_sample_size] returns is the value of
    a run of decimal digits that occurs in the lower-cased text of the
    fields AB, abstract and methods (which are then strings): it is never
    negative, and no sign or decimal point is read. *)
Theorem X3_sample_size_is_a_digit_run (data : PyDict) (n : Z) :
  result (_extract_sample_size data) = inr (Some n) ->
  exists ab abstract methods g,
    get data "AB" (VStr "") = VStr ab
    /\ get data "abstract" (VStr "") = VStr abstract
    /\ get data "methods" (VStr "") = VStr methods
    /\ occurs_in g (lower (ab ++ " " ++ abstract ++ " " ++ methods))
    /\ all_chars isdigit g = true /\ (1 <= len g)%nat
    /\ n = int_of_digits g /\ (0 <= n)%Z.
Proof.
  unfold _extract_sample_size. intros H.
  apply result_try_except_inv in H as [H | [e [_ H]]]; [| discriminate H].
  apply bind_inv_inr in H as [joined [Hj H]].
  apply py_join3_inv in Hj as [ab [abstract [methods [Hab [Habs [Hmet ->]]]]]].
  apply patterns_loop_some in H as [p [m [g [Hp [Hs [Hg ->]]]]]].
  apply search_from_groups in Hs as [Hocc Hlang].
  destruct (sample_size_group p _ _ g Hp Hlang Hg) as [Hin [Hd Hl]].
  exists ab, abstract, methods, g.
  repeat split; auto.
  - apply (occurs_in_trans _ _ _ Hin Hocc).
  - apply int_of_digits_bounds. exact Hd.
Qed.

Lemma X3_sample_size_is_a_digit_run_witness :
  exists ab abstract methods g,
    get zero_participants "AB" (VStr "") = VStr ab
    /\ get zero_participants "abstract" (VStr "") = VStr abstract
    /\ get zero_participants "methods" (VStr "") = VStr methods
    /\ occurs_in g (lower (ab ++ " " ++ abstract ++ " " ++ methods))
    /\ all_chars isdigit g = true /\ (1 <= len g)%nat
    /\ 0%Z = int_of_digits g /\ (0 <= 0)%Z.
Proof.
  apply (X3_sample_size_is_a_digit_run zero_participants 0).
  reflexivity.
Defined.

Section Years.
Import PyStr Re Py Datetime PaperData Notions Groups.

Lemma date_formats_compile (fmt : string) :
  In fmt date_formats ->
  (exists p, compile false fmt = Some (re_Y :: p))
  /\ forall g gs, (fields fmt (g :: gs) (1900, 1, 1)%Z).1.1 = int_of_digits g.
Proof.
  unfold date_formats.
  intros [<- | [<- | [<- | [<- | []]]]];
    (split; [eexists; reflexivity |]);
    intros g [| a [| b gs]]; reflexivity.
Qed.

Lemma strptime_year_bounds (tok fmt : string) (y : Z) :
  In fmt date_formats ->
  result (strptime_year tok fmt) = inr y ->
  all_chars isdigit (take 4 tok) = true /\ (4 <= len tok)%nat
  /\ y = int_of_digits (take 4 tok) /\ (1 <= y <= 9999)%Z.
Proof.
  intros Hfmt. destruct (date_formats_compile fmt Hfmt) as [[p Hc] Hf].
  unfold strptime_year. rewrite Hc. unfold match_start.
  destruct (match_here true (re_Y :: p) tok) as [[n g] |] eqn:E; [| discriminate].
  apply match_here_groups in E as [Hn Hl].
  cbn [in_lang_groups re_Y atom_lang within captured] in Hl.
  destruct Hl as [u [v [g' [Htake [[Hd [Hlo Hhi]] [_ ->]]]]]].
  assert (Hlen : len u = 4%nat) by lia.
  assert (Hu : take 4 tok = u).
  { rewrite <- (take_drop n tok), Htake, append_assoc, <- Hlen. apply take_len_app. }
  assert (Htok : (4 <= len tok)%nat).
  { rewrite <- (take_drop n tok), Htake, !len_app. lia. }
  cbn [groups]. specialize (Hf u g').
  destruct (negb _); [discriminate |].
  destruct (fields fmt (u :: g') (1900, 1, 1)%Z) as [[y' mo] d].
  simpl in Hf. subst y'.
  destruct (int_of_digits u <? 1)%Z eqn:Ey; [discriminate |].
  destruct (days_in_month (int_of_digits u) mo <? d)%Z; [discriminate |].
  intros [= <-]. apply Z.ltb_ge in Ey.
  pose proof (int_of_digits_bounds u Hd) as B. rewrite Hlen in B.
  rewrite Hu. simpl in B. repeat split; auto; lia.
Qed.

Lemma formats_loop_some (date_str : PyVal) (fmts : list string) (y : Z) :
  result (formats_loop date_str fmts) = inr (Some y) ->
  exists fmt tok, In fmt fmts /\ result (first_token date_str) = inr tok
                  /\ result (strptime_year tok fmt) = inr y.
Proof.
  induction fmts as [| fmt fmts IH]; cbn [formats_loop]; [discriminate |].
  unfold try_except_kind. intros H.
  apply result_try_except_inv in H as [H | [e [_ H]]].
  - apply bind_inv_inr in H as [tok [Htok H]].
    apply bind_inv_inr in H as [y' [Hy H]]. injection H as ->.
    exists fmt, tok. split; [left; reflexivity | auto].
  - destruct (is_ValueError (kind e)); [| discriminate H].
    destruct (IH H) as [fmt' [tok [Hin H']]].
    exists fmt', tok. split; [right; exact Hin | exact H'].
Qed.

Lemma fields_loop_some (data : PyDict) (fs : list string) (y : Z) :
  result (fields_loop data fs) = inr (Some y) ->
  exists field, In field fs
    /\ result (formats_loop (get data field VNone) date_formats) = inr (Some y).
Proof.
  induction fs as [| field fs IH]; cbn [fields_loop]; [discriminate |].
  intros H. destruct (truthy (get data field VNone)).
  - apply bind_inv_inr in H as [[y' |] [Hr H]].
    + injection H as ->. exists field. split; [left; reflexivity | exact Hr].
    + destruct (IH H) as [field' [Hin H']]. exists field'. split; [right |]; auto.
  - destruct (IH H) as [field' [Hin H']]. exists field'. split; [right |]; auto.
Qed.

Lemma first_token_inv (v : PyVal) (tok : string) :
  result (first_token v) = inr tok ->
  exists s, v = VStr s /\ head (split_ws s) = Some tok.
Proof.
  destruct v as [| z | s | l]; try discriminate. cbn [first_token].
  destruct (split_ws s) as [| t ts] eqn:E; [discriminate |].
  intros [= <-]. exists s. rewrite E. auto.
Qed.

End Years.

(** X4. A year that [_extract_year] returns lies between 1 and 9999: it is
    the number written by the first four characters, all digits, of the
    first whitespace-separated word of one of the fields DP, PDAT,
    publication_date, year, which is then a string. *)
Theorem X4_year_is_four_leading_digits (data : PyDict) (y : Z) :
  result (_extract_year data) = inr (Some y) ->
  exists field s tok,
    In field ["DP"; "PDAT"; "publication_date"; "year"]
    /\ data !! field = Some (VStr s)
    /\ head (split_ws s) = Some tok
    /\ all_chars isdigit (take 4 tok) = true /\ (4 <= len tok)%nat
    /\ y = int_of_digits (take 4 tok) /\ (1 <= y <= 9999)%Z.
Proof.
  unfold _extract_year. intros H.
  apply result_try_except_inv in H as [H | [e [_ H]]]; [| discriminate H].
  apply fields_loop_some in H as [field [Hfield H]].
  apply formats_loop_some in H as [fmt [tok [Hfmt [Htok H]]]].
  apply first_token_inv in Htok as [s [Hs Hhead]].
  destruct (strptime_year_bounds tok fmt y Hfmt H) as [Hd [Hl [Hy Hb]]].
  exists field, s, tok. repeat split; auto; try lia.
  unfold get in Hs. destruct (data !! field) as [v |]; [congruence | discriminate].
Qed.

Lemma X4_year_is_four_leading_digits_witness :
  exists field s tok,
    In field ["DP"; "PDAT"; "publication_date"; "year"]
    /\ Samples.trial_record !! field = Some (VStr s)
    /\ head (split_ws s) = Some tok
    /\ all_chars isdigit (take 4 tok) = true /\ (4 <= len tok)%nat
    /\ 2023%Z = int_of_digits (take 4 tok) /\ (1 <= 2023 <= 9999)%Z.
Proof.
  apply (X4_year_is_four_leading_digits Samples.trial_record 2023).
  reflexivity.
Defined.

Section GreedySuffix.
Import PyStr Re Notions Groups.

Lemma drop_add (j m : nat) (s : string) : drop (j + m) s = drop m (drop j s).
Proof.
  revert s. induction j as [| j IH]; intros s; [reflexivity |].
  destruct s as [| c s]; [destruct m; reflexivity |]. simpl. apply IH.
Qed.

Lemma span_stops (cls : ascii -> bool) (s : string) :
  stops cls (drop (span cls None s) s).
Proof.
  induction s as [| c s IH]; [exact I |].
  cbn [span]. destruct (cls c) eqn:E; [exact IH | exact E].
Qed.

(** A pattern that ends with an unbounded repetition takes the whole run:
    what follows the match does not begin with a character of the class. *)
Lemma match_here_last_rep (ic : bool) (p : pattern) (cap : bool)
  (cls : ascii -> bool) (lo : nat) (s : string) (n : nat) (g : list string) :
  match_here ic (p ++ [Rep cap cls lo None]) s = Some (n, g) ->
  stops cls (drop n s).
Proof.
  revert s n g. induction p as [| a p IH]; intros s n g.
  - cbn [app match_here]. intros H.
    destruct (lo <=? span cls None s)%nat eqn:E.
    + assert (Hb : back cap lo (fun _ => Some (0%nat, [])) s (span cls None s)
                   = Some ((span cls None s + 0)%nat,
                           captured cap (take (span cls None s) s) [])).
      { destruct (span cls None s); cbn [back]; rewrite E; reflexivity. }
      cbn [match_here] in H. rewrite Hb in H. injection H as <- _.
      rewrite Nat.add_0_r. apply span_stops.
    + apply back_sound in H as [j [_ [_ [Hj _]]]].
      apply Nat.leb_gt in E. lia.
  - cbn [app]. destruct a as [l | cap' alts | cap' cls' lo' hi']; cbn [match_here].
    + unfold lit_then.
      destruct (match_lit ic l s) as [rest |] eqn:El; [| discriminate].
      destruct (match_here ic (p ++ [Rep cap cls lo None]) rest) as [[m' g'] |] eqn:Ek;
        [| discriminate].
      intros [= <- <-]. apply match_lit_spec in El as [u [-> Hu]].
      rewrite <- (lit_eq_len ic l u Hu), drop_add, drop_app. apply (IH _ _ _ Ek).
    + intros H. apply try_alts_sound in H as [l [rest [m' [g' [_ [El [Ek ->]]]]]]].
      apply match_lit_spec in El as [u [-> Hu]].
      rewrite <- (lit_eq_len ic l u Hu), drop_add, drop_app. apply (IH _ _ _ Ek).
    + intros H. apply back_sound in H as [j [m' [g' [_ [Ek ->]]]]].
      rewrite drop_add. apply (IH _ _ _ Ek).
Qed.

Lemma search_from_last_rep (ic : bool) (p : pattern) (cap : bool)
  (cls : ascii -> bool) (lo : nat) (s : string) (pos : nat) (m : re_match) :
  search_from ic (p ++ [Rep cap cls lo None]) s pos = Some m ->
  exists before after,
    s = (before ++ group0 m ++ after)%string /\ stops cls after.
Proof.
  revert pos. induction s as [| c s IH]; intros pos; cbn [search_from].
  - destruct (match_here ic (p ++ [Rep cap cls lo None]) "") as [[n g] |] eqn:E;
      [| discriminate].
    intros [= <-]. exists "", (drop n ""). cbn [group0].
    split; [symmetry; apply (take_drop n "") | apply (match_here_last_rep _ _ _ _ _ _ _ _ E)].
  - destruct (match_here ic (p ++ [Rep cap cls lo None]) (String c s))
      as [[n g] |] eqn:E.
    + intros [= <-]. exists "", (drop n (String c s)). cbn [group0].
      split; [symmetry; apply (take_drop n (String c s))
             | apply (match_here_last_rep _ _ _ _ _ _ _ _ E)].
    + intros H. destruct (IH _ H) as [before [after [Hs Hstop]]].
      exists (String c before), after. rewrite append_cons.
      split; [congruence | exact Hstop].
Qed.

End GreedySuffix.

(** X5. A DOI that [_extract_doi] returns is a piece of the DOI field,
    which is then a string: the text [10], one character that is no line
    feed, four to nine digits, a slash and one or more characters of the
    suffix class, hence at least nine characters; the suffix runs as far as
    it can, so that what follows the DOI in the field does not begin with a
    character of the suffix class. *)
Theorem X5_resolved_doi_shape (data : PyDict) (d : string) :
  result (_extract_doi data) = inr (Some d) ->
  exists s before after c digits suffix,
    doi_field data = VStr s
    /\ s = (before ++ d ++ after)%string /\ stops doi_suffix_char after
    /\ d = ("10" ++ String c "" ++ digits ++ "/" ++ suffix)%string
    /\ isdot c = true
    /\ all_chars isdigit digits = true /\ (4 <= len digits <= 9)%nat
    /\ all_chars doi_suffix_char suffix = true /\ (1 <= len suffix)%nat
    /\ (9 <= len d)%nat.
Proof.
  intros H.
  assert (Hstr : exists s, doi_field data = VStr s).
  { unfold _extract_doi in H. fold (doi_field data) in H.
    destruct (doi_field data) as [| z | s | l]; [discriminate H | | eauto |].
    - destruct (truthy (VInt z)); discriminate H.
    - destruct (truthy (VList l)); discriminate H. }
  destruct Hstr as [s Hs].
  rewrite (extract_doi_on_string data s Hs), result_ret in H.
  unfold search in H.
  destruct (search_from false DOI_PATTERN s 0) as [m |] eqn:E; [| discriminate].
  injection H as <-.
  destruct (search_from_some _ _ _ _ _ E) as [_ [_ [_ [_ [Hin _]]]]].
  apply doi_pattern_lang in Hin
    as [c [digits [suffix [Hd [Hc [Hdig [Hlen [Hsuf Hsl]]]]]]]].
  change DOI_PATTERN
    with ([Lit "10"; One isdot; Rep false isdigit 4 (Some 9%nat); Lit "/"]
            ++ [Rep false doi_suffix_char 1 None]) in E.
  apply search_from_last_rep in E as [before [after [Hsplit Hstop]]].
  exists s, before, after, c, digits, suffix.
  repeat split; auto; try lia.
  rewrite Hd, !len_app. unfold len at 1 2 4. simpl. lia.
Qed.

Lemma X5_resolved_doi_shape_witness :
  exists s before after c digits suffix,
    doi_field doi_in_a_sentence = VStr s
    /\ s = (before ++ "10.1234/abc)." ++ after)%string
    /\ stops doi_suffix_char after
    /\ "10.1234/abc)." = ("10" ++ String c "" ++ digits ++ "/" ++ suffix)%string
    /\ isdot c = true
    /\ all_chars isdigit digits = true /\ (4 <= len digits <= 9)%nat
    /\ all_chars doi_suffix_char suffix = true /\ (1 <= len suffix)%nat
    /\ (9 <= len "10.1234/abc).")%nat.
Proof.
  apply (X5_resolved_doi_shape doi_in_a_sentence "10.1234/abc).").
  reflexivity.
Defined.

Section HttpLinks.
Import PyStr Re Py PaperData Notions.

Lemma urls_loop_http (urls : list PyVal) (links : list string) (l : string) :
  l ∈ (urls_loop urls links).1 -> l ∈ links \/ is_http l = true.
Proof.
  revert links. induction urls as [| u rest IH]; intros links; [simpl; auto |].
  destruct u as [| z | s | items]; cbn [urls_loop]; simpl; auto.
  fold (is_http s). destruct (is_http s) eqn:E.
  - intros H. destruct (IH _ H) as [H' | H']; [| auto].
    apply elem_of_app in H' as [H' | H']; [auto |].
    apply list_elem_of_singleton in H' as ->. auto.
  - apply IH.
Qed.

Lemma link_fields_loop_http (data : PyDict) (fields : list string)
  (links : list string) (l : string) :
  l ∈ (link_fields_loop data fields links).1 -> l ∈ links \/ is_http l = true.
Proof.
  revert links. induction fields as [| field rest IH]; intros links; [simpl; auto |].
  cbn [link_fields_loop].
  destruct (get data field (VList [])) as [| z | s | items];
    unfold iterate, ret, raise; cbv beta iota; try solve [simpl; auto].
  - pose proof (urls_loop_http [VStr s] links l) as U.
    destruct (urls_loop [VStr s] links) as [links' [e |]]; simpl in U |- *; [exact U |].
    intros H. destruct (IH _ H) as [H' | H']; auto.
  - pose proof (urls_loop_http items links l) as U.
    destruct (urls_loop items links) as [links' [e |]]; simpl in U |- *; [exact U |].
    intros H. destruct (IH _ H) as [H' | H']; auto.
Qed.

Lemma links_try_http (data : PyDict) (l : string) :
  l ∈ (links_try data).1 -> is_http l = true.
Proof.
  unfold links_try.
  pose proof (link_fields_loop_http data ["LID"; "OUR"; "full_text_url"] [] l) as L.
  destruct (link_fields_loop data ["LID"; "OUR"; "full_text_url"] []) as [links o].
  simpl in L.
  assert (Hin : l ∈ links -> is_http l = true).
  { intros H. destruct (L H) as [H' | H']; [inversion H' | exact H']. }
  destruct o as [e |]; [exact Hin |].
  destruct (_extract_doi data) as [[e | [d |]] lg]; cbn [fst]; try exact Hin.
  destruct (truthy (VStr d)); [| exact Hin].
  intros H. apply elem_of_app in H as [H | H]; [auto |].
  apply list_elem_of_singleton in H as ->. reflexivity.
Qed.

End HttpLinks.

(** X6. [_extract_full_text_links] always returns, and every link it
    returns begins with [http://] or [https://]: a value of a link field
    that does not is dropped, whatever the record holds. *)
Theorem X6_links_are_web_links (data : PyDict) :
  exists links,
    result (_extract_full_text_links data) = inr links
    /\ forall l, In l links -> is_http l = true.
Proof.
  exists (list_set (links_try data).1).
  split; [apply extract_full_text_links_value |].
  intros l H. apply list_set_In in H. apply (links_try_http data l H).
Qed.

(** X7. Whatever makes [extract_metadata] fail, the exception that leaves
    it is a [ValueError] whose text is [Failed to extract paper metadata: ]
    followed by the text of the cause, and the last record logged is an
    error with the same cause. *)
Theorem X7_extraction_failure_is_reported (data : PyDict) (e : exn) :
  result (extract_metadata data) = inl e ->
  exists cause earlier,
    e = Exn ValueError ("Failed to extract paper metadata: " ++ cause)
    /\ logs (extract_metadata data)
       = earlier ++ [Log ERROR ("Error extracting metadata: " ++ cause)].
Proof.
  unfold extract_metadata, try_except.
  match goal with
  | |- context [match ?body with _ => _ end] => destruct body as [[e' | m] l]
  end; simpl; [| discriminate].
  intros [= <-]. exists (message e'), l. split; reflexivity.
Qed.

Lemma X7_extraction_failure_is_reported_witness :
  exists cause earlier,
    Exn ValueError "Failed to extract paper metadata: Invalid or missing title"
    = Exn ValueError ("Failed to extract paper metadata: " ++ cause)
    /\ logs (extract_metadata Samples.untitled_record)
       = earlier ++ [Log ERROR ("Error extracting metadata: " ++ cause)].
Proof.
  apply (X7_extraction_failure_is_reported Samples.untitled_record).
  reflexivity.
Defined.

(* ===================================================================== *)
(** * Further properties of the quality scores *)
(* ===================================================================== *)

Section ScoreRanges.
Import Py Pandas QualityChecker Scores.

Lemma filter_length_bound {X} (p : X -> bool) (l : list X) :
  (length (List.filter p l) <= length l)%nat.
Proof. induction l as [| x l IH]; simpl; [lia |]. destruct (p x); simpl; lia. Qed.

Lemma ratio_range (k n : nat) :
  (k <= n)%nat ->
  in_range (inject_Z (Z.of_nat k) / inject_Z (Z.of_nat n) * 100)%Q.
Proof.
  intros H. unfold in_range. destruct n as [| n].
  - assert (k = 0%nat) as -> by lia. split; discriminate.
  - assert (Hn : (0 < inject_Z (Z.of_nat (S n)))%Q).
    { change 0%Q with (inject_Z 0). rewrite <- Zlt_Qlt. lia. }
    assert (H0 : (0 <= inject_Z (Z.of_nat k) / inject_Z (Z.of_nat (S n)))%Q).
    { apply Qle_shift_div_l; [exact Hn |]. rewrite Qmult_0_l.
      change 0%Q with (inject_Z 0). rewrite <- Zle_Qle. lia. }
    assert (H1 : (inject_Z (Z.of_nat k) / inject_Z (Z.of_nat (S n)) <= 1)%Q).
    { apply Qle_shift_div_r; [exact Hn |]. rewrite Qmult_1_l.
      rewrite <- Zle_Qle. lia. }
    set (x := (inject_Z (Z.of_nat k) / inject_Z (Z.of_nat (S n)))%Q) in *.
    split; lra.
Qed.

Lemma notna_mean_range (col : list cell) : in_range (notna_mean col * 100)%Q.
Proof. unfold notna_mean. apply ratio_range, filter_length_bound. Qed.

Lemma dict_set_range (k : string) (v : Q) (d : list (string * Q)) :
  in_range v -> Forall (fun kv => in_range (snd kv)) d ->
  Forall (fun kv => in_range (snd kv)) (dict_set k v d).
Proof.
  intros Hv. induction d as [| [k' v'] d IH]; intros Hd; cbn [dict_set].
  - constructor; [exact Hv | constructor].
  - inversion Hd as [| ? ? Hh Ht]; subst.
    destruct (String.eqb k k'); constructor; auto.
Qed.

Lemma completeness_loop_range (df : DataFrame) (fields : list string)
  (acc : list (string * Q)) :
  Forall (fun kv => in_range (snd kv)) acc ->
  Forall (fun kv => in_range (snd kv)) (completeness_loop df fields acc).
Proof.
  revert acc. induction fields as [| f fields IH]; intros acc Hacc; [exact Hacc |].
  cbn [completeness_loop]. apply IH, dict_set_range; [| exact Hacc].
  destruct (has_column df f); [apply notna_mean_range | split; discriminate].
Qed.

Lemma qsum_range (d : list (string * Q)) :
  Forall (fun kv => in_range (snd kv)) d ->
  (0 <= qsum (map snd d) /\ qsum (map snd d) <= 100 * inject_Z (Z.of_nat (length d)))%Q.
Proof.
  induction 1 as [| [k v] d [H0 H1] _ [IH0 IH1]].
  - split; discriminate.
  - cbn [map qsum foldr length snd] in *. fold (qsum (map snd d)).
    replace (Z.of_nat (S (length d))) with (Z.of_nat (length d) + 1)%Z by lia.
    rewrite inject_Z_plus. change (inject_Z 1) with 1%Q.
    set (s := qsum (map snd d)) in *. set (n := inject_Z (Z.of_nat (length d))) in *.
    split; lra.
Qed.

Lemma divide_inv (x : Q) (n : nat) (q : Q) :
  result (divide x n) = inr q ->
  n <> 0%nat /\ q = (x / inject_Z (Z.of_nat n))%Q.
Proof. destruct n; [discriminate |]. intros [= <-]. split; [lia | reflexivity]. Qed.

Lemma mean_range (x : Q) (n : nat) :
  n <> 0%nat -> (0 <= x)%Q -> (x <= 100 * inject_Z (Z.of_nat n))%Q ->
  in_range (x / inject_Z (Z.of_nat n))%Q.
Proof.
  intros Hn H0 H1.
  assert (Hp : (0 < inject_Z (Z.of_nat n))%Q).
  { change 0%Q with (inject_Z 0). rewrite <- Zlt_Qlt. lia. }
  split.
  - apply Qle_shift_div_l; [exact Hp |]. rewrite Qmult_0_l. exact H0.
  - apply Qle_shift_div_r; [exact Hp | exact H1].
Qed.

Lemma check_completeness_range (fields : list string) (df : DataFrame)
  (c : completeness_result) :
  result (_check_completeness fields df) = inr c -> in_range (c_score c).
Proof.
  unfold _check_completeness. intros H.
  apply bind_inv_inr in H as [q [Hq H]]. injection H as <-. cbn [c_score].
  apply divide_inv in Hq as [Hn ->].
  destruct (qsum_range (completeness_loop df fields [])
              (completeness_loop_range df fields [] ltac:(constructor))) as [H0 H1].
  apply mean_range; assumption.
Qed.

Lemma check_consistency_range (df : DataFrame) (k : consistency_result) :
  result (_check_consistency df) = inr k ->
  in_range (k_score k)
  /\ (_check_year_format df = false -> (k_score k <= 200 # 3)%Q).
Proof.
  unfold _check_consistency. intros H.
  apply bind_inv_inr in H as [doi_format [_ H]].
  destruct (_check_year_format df), (_check_author_format df), doi_format;
    injection H as <-; cbn [k_score]; (split; [split |]); try discriminate;
    intros; discriminate.
Qed.

Lemma check_validity_scores (now : Z) (df : DataFrame) (v : validity_result) :
  result (_check_validity now df) = inr v ->
  (length (v_issues v) <= 2)%nat
  /\ v_score v = Qmax 0 (100 - inject_Z (Z.of_nat (length (v_issues v))) * 10)%Q.
Proof.
  unfold _check_validity. intros H.
  apply bind_inv_inr in H as [issues1 [H1 H]].
  apply bind_inv_inr in H as [issues2 [H2 H]].
  injection H as <-. cbn [v_issues v_score]. split; [| reflexivity].
  assert (L1 : (length issues1 <= 1)%nat).
  { destruct (has_column df "year"); [| injection H1 as <-; simpl; lia].
    apply bind_inv_inr in H1 as [too_old [_ H1]].
    apply bind_inv_inr in H1 as [too_new [_ H1]].
    injection H1 as <-. destruct (selected _ _); simpl; lia. }
  destruct (has_column df "sample_size"); [| injection H2 as <-; lia].
  apply bind_inv_inr in H2 as [nonpositive [_ H2]].
  injection H2 as <-. destruct (selected _ _); [lia |].
  rewrite length_app. simpl. lia.
Qed.

End ScoreRanges.

(** X8. Whenever [check_quality] returns, whatever the required fields and
    the records: the completeness, consistency and overall scores lie
    between 0 and 100, and the validity score is 100, 90 or 80, since at
    most two issues, one per check, are ever counted. *)
Theorem X8_quality_scores_in_range (required_fields : list string) (now : Z)
  (data : list PyDict) (m : QualityChecker.QualityMetrics) :
  result (QualityChecker.check_quality required_fields now data) = inr m ->
  in_range (QualityChecker.completeness_score m)
  /\ in_range (QualityChecker.consistency_score m)
  /\ (QualityChecker.validity_score m == 100
      \/ QualityChecker.validity_score m == 90
      \/ QualityChecker.validity_score m == 80)%Q
  /\ in_range (QualityChecker.overall_score m).
Proof.
  unfold QualityChecker.check_quality. intros H.
  apply result_try_except_inv in H as [H | [e [_ H]]]; [| discriminate H].
  apply bind_inv_inr in H as [c [Hc H]].
  apply bind_inv_inr in H as [k [Hk H]].
  apply bind_inv_inr in H as [v [Hv H]].
  injection H as <-.
  cbn [QualityChecker.completeness_score QualityChecker.consistency_score
         QualityChecker.validity_score QualityChecker.overall_score].
  pose proof (check_completeness_range _ _ _ Hc) as Rc.
  destruct (check_consistency_range _ _ Hk) as [Rk _].
  destruct (check_validity_scores _ _ _ Hv) as [Lv Sv].
  assert (Rv : (QualityChecker.v_score v == 100 \/ QualityChecker.v_score v == 90
                \/ QualityChecker.v_score v == 80)%Q).
  { rewrite Sv.
    destruct (length (QualityChecker.v_issues v)) as [| [| [| n]]]; [| | | lia];
      [left | right; left | right; right]; reflexivity. }
  repeat split; try apply Rc; try apply Rk; try exact Rv;
    destruct Rc as [Rc0 Rc1], Rk as [Rk0 Rk1];
    destruct Rv as [Rv | [Rv | Rv]]; rewrite Rv; lra.
Qed.

Lemma X8_quality_scores_in_range_witness :
  exists m,
    result (QualityChecker.check_quality ["title"] 2026 [Samples.complete_record])
    = inr m
    /\ in_range (QualityChecker.completeness_score m)
    /\ in_range (QualityChecker.consistency_score m)
    /\ (QualityChecker.validity_score m == 100
        \/ QualityChecker.validity_score m == 90
        \/ QualityChecker.validity_score m == 80)%Q
    /\ in_range (QualityChecker.overall_score m).
Proof.
  eexists. split; [vm_compute; reflexivity |].
  apply (X8_quality_scores_in_range ["title"] 2026 [Samples.complete_record]).
  vm_compute. reflexivity.
Defined.

Section NormalisedFrames.
Import Py Pandas PaperData QualityChecker Scores Notions.

Lemma dict_year (m : PaperMetadata) :
  __dict__ m !! "year" = Some (opt_val VInt (year m)).
Proof. reflexivity. Qed.

Lemma dict_sample_size (m : PaperMetadata) :
  __dict__ m !! "sample_size" = Some (opt_val VInt (sample_size m)).
Proof. reflexivity. Qed.

Lemma dict_doi (m : PaperMetadata) :
  __dict__ m !! "doi" = Some (opt_val VStr (doi m)).
Proof. reflexivity. Qed.


Lemma normalised_has_column (ms : list PaperMetadata) (name : string) :
  ms <> [] -> (forall m, is_Some (__dict__ m !! name)) ->
  has_column (MkDataFrame (normalised ms)) name = true.
Proof.
  intros Hne Hk. destruct ms as [| m ms]; [congruence |].
  apply has_column_true. exists (__dict__ m). split; [apply list_elem_of_here | apply Hk].
Qed.

Lemma normalised_numeric (ms : list PaperMetadata) :
  forallb (int_or_missing "year") (normalised ms) = true
  /\ forallb (int_or_missing "sample_size") (normalised ms) = true.
Proof.
  unfold normalised. induction ms as [| m ms [IH1 IH2]]; [split; reflexivity |].
  cbn [map forallb]. rewrite IH1, IH2. unfold int_or_missing.
  rewrite dict_year, dict_sample_size.
  destruct (year m), (sample_size m); split; reflexivity.
Qed.

Lemma text_column_accessor (col : list cell) :
  col <> [] -> forallb text_cell col = true -> has_str_accessor col = true.
Proof.
  intros Hne Hall.
  assert (H1 : forall lo hi, forallb (int_in lo hi) col = false).
  { intros lo hi. destruct col as [| c col]; [congruence |].
    cbn [forallb] in *. apply andb_true_iff in Hall as [Hc _].
    destruct c as [| []]; try discriminate; reflexivity. }
  assert (H2 : existsb (fun c => Pandas.is_int c || match c with NaN => true | _ => false end)
                 col = false).
  { clear Hne H1. induction col as [| c col IH]; [reflexivity |].
    cbn [forallb existsb] in *. apply andb_true_iff in Hall as [Hc Hall].
    rewrite (IH Hall). destruct c as [| []]; try discriminate; reflexivity. }
  assert (H3 : forallb Pandas.is_str (List.filter (fun c => negb (isna c)) col) = true).
  { clear Hne H1 H2. induction col as [| c col IH]; [reflexivity |].
    cbn [forallb] in Hall. apply andb_true_iff in Hall as [Hc Hall].
    destruct c as [| []]; try discriminate; simpl; auto. }
  unfold has_str_accessor, dtype_of. rewrite !H1, H2, andb_false_r.
  destruct (List.filter (fun c => negb (isna c)) col) as [| p present]; [reflexivity |].
  cbn [forallb] in *. apply andb_true_iff in H3 as [Hp _].
  destruct p as [| []]; try discriminate. reflexivity.
Qed.

Lemma normalised_doi_column (ms : list PaperMetadata) :
  forallb text_cell (column (MkDataFrame (normalised ms)) "doi") = true.
Proof.
  unfold column, normalised. cbn [rows].
  induction ms as [| m ms IH]; [reflexivity |].
  cbn [map forallb]. rewrite IH, dict_doi. destruct (doi m); reflexivity.
Qed.

Lemma completeness_loop_nonempty (df : DataFrame) (fields : list string)
  (acc : list (string * Q)) :
  fields <> [] \/ acc <> [] -> completeness_loop df fields acc <> [].
Proof.
  revert acc. induction fields as [| f fields IH]; intros acc H.
  - destruct H as [H | H]; [congruence | exact H].
  - cbn [completeness_loop]. apply IH. right.
    destruct acc as [| [k v] acc]; cbn [dict_set]; [discriminate |].
    destruct (String.eqb f k); discriminate.
Qed.

Lemma check_completeness_returns (fields : list string) (df : DataFrame) :
  fields <> [] -> exists c, _check_completeness fields df = ret c.
Proof.
  intros H. unfold _check_completeness.
  rewrite divide_pos, bind_ret_l.
  - eexists. reflexivity.
  - pose proof (completeness_loop_nonempty df fields [] (or_introl H)) as Hn.
    destruct (completeness_loop df fields []); [congruence | discriminate].
Qed.

End NormalisedFrames.

(** X9. On every non-empty collection of records that the normaliser
    produced, [check_quality] with the default required fields returns,
    reports the failed [year_format] check, and gives a consistency score
    of at most 200/3 and an overall score of at most 90: the record always
    has a year entry, and the dtype of the year column is never one of the
    two the check accepts. *)
Theorem X9_normalised_records_score_at_most_90 (ms : list PaperMetadata) (now : Z) :
  ms <> [] ->
  exists m,
    result (QualityChecker.check_quality (QualityChecker.__init__ None) now
              (normalised ms)) = inr m
    /\ In (QualityChecker.FailedConsistency "year_format") (QualityChecker.issues m)
    /\ (QualityChecker.consistency_score m <= 200 # 3)%Q
    /\ (QualityChecker.overall_score m <= 90)%Q.
Proof.
  intros Hne.
  set (df := MkDataFrame (normalised ms)).
  assert (Hyear : has_column df "year" = true)
    by (apply normalised_has_column; [exact Hne | intros m; rewrite dict_year; eauto]).
  assert (Hdoi : has_column df "doi" = true)
    by (apply normalised_has_column; [exact Hne | intros m; rewrite dict_doi; eauto]).
  assert (Hfmt : QualityChecker._check_year_format df = false)
    by (rewrite check_year_format_spec, Hyear; reflexivity).
  destruct (check_completeness_returns (QualityChecker.__init__ None) df
              ltac:(discriminate)) as [c Hc].
  assert (Hk : exists b, QualityChecker._check_doi_format df = ret b).
  { unfold QualityChecker._check_doi_format, str_match_all. rewrite Hdoi. cbn [negb].
    rewrite text_column_accessor; [eexists; reflexivity | | apply normalised_doi_column].
    unfold df, column, normalised. cbn [rows].
    destruct ms; [congruence | discriminate]. }
  destruct Hk as [b Hb].
  destruct (normalised_numeric ms) as [Ny Ns].
  destruct (qc_check_validity_numeric now (normalised ms) Ny Ns) as [v [Hv Sv]].
  fold df in Hv.
  assert (Hkk : exists k, QualityChecker._check_consistency df = ret k
                 /\ QualityChecker.k_checks k
                    = [("year_format", false);
                       ("author_format", QualityChecker._check_author_format df);
                       ("doi_format", b)]).
  { unfold QualityChecker._check_consistency. rewrite Hb, bind_ret_l, Hfmt.
    cbn [length]. rewrite divide_pos by discriminate. rewrite bind_ret_l.
    eexists. split; reflexivity. }
  destruct Hkk as [k [Hk Hchecks]].
  assert (Hrun : QualityChecker.check_quality (QualityChecker.__init__ None) now
                   (normalised ms)
                 = ret (QualityChecker.MkQualityMetrics
                          (QualityChecker.c_score c) (QualityChecker.k_score k)
                          (QualityChecker.v_score v)
                          (QualityChecker.c_score c * (4 # 10)
                           + QualityChecker.k_score k * (3 # 10)
                           + QualityChecker.v_score v * (3 # 10))%Q
                          (QualityChecker._get_completeness_issues c
                             ++ QualityChecker._get_consistency_issues k
                             ++ QualityChecker._get_validity_issues v))).
  { unfold QualityChecker.check_quality. fold df.
    rewrite Hc, Hk, Hv. reflexivity. }
  eexists. rewrite Hrun. split; [reflexivity |].
  cbn [QualityChecker.issues QualityChecker.consistency_score
         QualityChecker.overall_score].
  assert (Rc : in_range (QualityChecker.c_score c))
    by (apply (check_completeness_range (QualityChecker.__init__ None) df);
        rewrite Hc; reflexivity).
  assert (Rk : (QualityChecker.k_score k <= 200 # 3)%Q).
  { apply (check_consistency_range df k); [rewrite Hk; reflexivity | exact Hfmt]. }
  assert (Rv : (QualityChecker.v_score v <= 100)%Q).
  { rewrite Sv. apply Q.max_lub; [discriminate |].
    assert (H0 : (0 <= inject_Z (Z.of_nat (violated_checks 1800 now (normalised ms))))%Q).
    { change 0%Q with (inject_Z 0). rewrite <- Zle_Qle. lia. }
    set (x := inject_Z (Z.of_nat (violated_checks 1800 now (normalised ms)))) in *.
    lra. }
  split; [| split; [exact Rk | destruct Rc; lra]].
  apply in_or_app. right. apply in_or_app. left.
  unfold QualityChecker._get_consistency_issues. rewrite Hchecks. left. reflexivity.
Qed.

Lemma X9_normalised_records_score_at_most_90_witness :
  exists m,
    result (QualityChecker.check_quality (QualityChecker.__init__ None) 2026
              (normalised [complete_metadata])) = inr m
    /\ In (QualityChecker.FailedConsistency "year_format") (QualityChecker.issues m)
    /\ (QualityChecker.consistency_score m <= 200 # 3)%Q
    /\ (QualityChecker.overall_score m <= 90)%Q.
Proof.
  apply (X9_normalised_records_score_at_most_90 [complete_metadata] 2026).
  discriminate.
Defined.

(* ===================================================================== *)
(** * Further properties of the validator *)
(* ===================================================================== *)

Section ValidatorState.
Import Py Pandas DataValidator Validation.

Lemma vbind_inv {A B} (m : V A) (f : A -> V B) (st st2 : list warning) (b : B)
  (l : list log_record) :
  vbind m f st = ((inr b, l), st2) ->
  exists a l1 l2 st1,
    m st = ((inr a, l1), st1) /\ f a st1 = ((inr b, l2), st2) /\ l = l1 ++ l2.
Proof.
  unfold vbind. destruct (m st) as [[[e | a] l1] st1]; [discriminate |].
  destruct (f a st1) as [[r l2] st2'] eqn:E. intros [= -> <- <-].
  exists a, l1, l2, st1. auto.
Qed.

Lemma keeps_vret {A} (a : A) : keeps_results (vret a).
Proof. intros st. reflexivity. Qed.

Lemma keeps_vlift {A} (m : M A) : keeps_results (vlift m).
Proof. intros st. reflexivity. Qed.

Lemma keeps_vbind {A B} (m : V A) (f : A -> V B) :
  keeps_results m -> (forall a, keeps_results (f a)) -> keeps_results (vbind m f).
Proof.
  intros Hm Hf st. unfold vbind. specialize (Hm st).
  destruct (m st) as [[[e | a] l1] st1]; simpl in Hm; subst st1; [reflexivity |].
  specialize (Hf a st). destruct (f a st) as [[r l2] st2]. exact Hf.
Qed.

Ltac keeps :=
  repeat first
    [ apply keeps_vret | apply keeps_vlift
    | apply keeps_vbind; [| intros ?]
    | match goal with |- context [if ?b then _ else _] => destruct b end ].

Lemma check_consistency_keeps (df : DataFrame) : keeps_results (_check_consistency df).
Proof. unfold _check_consistency. keeps. Qed.

Lemma check_validity_keeps (clk : clock) (df : DataFrame) :
  keeps_results (_check_validity clk df).
Proof. unfold _check_validity. keeps. Qed.

Lemma consistency_score_keeps (df : DataFrame) : keeps_results (_consistency_score df).
Proof. unfold _consistency_score. keeps. Qed.

Lemma validity_score_keeps (clk : clock) (df : DataFrame) :
  keeps_results (_validity_score clk df).
Proof. unfold _validity_score. keeps. Qed.

(** One pass of the completeness check: its value does not depend on the
    warnings recorded so far, and it appends the warnings of the fields
    below their thresholds. *)
Lemma completeness_loop_spec (df : DataFrame) (fields : list (string * Q))
  (acc : list (string * Q)) :
  exists completeness,
    forall st,
      completeness_loop df fields acc st
      = ((inr completeness, []), st ++ low_fields df fields).
Proof.
  revert acc. induction fields as [| [field threshold] rest IH]; intros acc.
  - exists acc. intros st. cbn. rewrite app_nil_r. reflexivity.
  - cbn [completeness_loop low_fields flat_map fst snd].
    fold (low_fields df rest).
    destruct (has_column df field); cbn [andb]; [| apply IH].
    set (score := (notna_mean (column df field) * 100)%Q).
    destruct (IH (QualityChecker.dict_set field score acc)) as [c E].
    exists c. intros st.
    destruct (negb (Qle_bool threshold score)).
    + unfold vbind, append_result. simpl. rewrite E, <- app_assoc. reflexivity.
    + rewrite vbind_vret. apply E.
Qed.

Lemma keeps_eq {A} (m : V A) (st st' : list warning) (r : M A) :
  keeps_results m -> m st = (r, st') -> st' = st.
Proof. intros H E. specialize (H st). rewrite E in H. exact H. Qed.

(** What a call of [validate_all] that returns the four results went
    through. *)
Lemma validate_all_results_inv (clk : clock) (df : DataFrame) (st st' : list warning)
  (c : list (string * Q)) (k : list (string * bool)) (v : list (string * list nat))
  (s : summary) (l : list log_record) :
  validate_all clk df st = ((inr (Results c k v s), l), st') ->
  c <> []
  /\ st' = st ++ low_fields df required_fields ++ low_fields df required_fields
  /\ total_issues s = length st'.
Proof.
  destruct (completeness_loop_spec df required_fields []) as [comp Hcomp].
  set (W := low_fields df required_fields) in *. clearbody W.
  unfold validate_all, v_try_except.
  match goal with
  | |- context [match ?body st with _ => _ end] =>
      destruct (body st) as [[[e | r] l0] st0] eqn:E
  end; [cbn; discriminate |].
  intros [= -> <- <-].
  apply vbind_inv in E as [c' [l1 [l1' [st1 [E1 [E _]]]]]].
  apply vbind_inv in E as [k' [l2 [l2' [st2 [E2 [E _]]]]]].
  apply vbind_inv in E as [v' [l3 [l3' [st3 [E3 [E _]]]]]].
  apply vbind_inv in E as [s' [l4 [l4' [st4 [E4 [E _]]]]]].
  injection E as -> -> -> -> _ <-.
  unfold _check_completeness in E1. rewrite Hcomp in E1.
  injection E1 as <- _ <-.
  apply (keeps_eq _ _ _ _ (check_consistency_keeps df)) in E2 as ->.
  apply (keeps_eq _ _ _ _ (check_validity_keeps clk df)) in E3 as ->.
  unfold _generate_validation_summary in E4.
  apply vbind_inv in E4 as [score [l5 [l5' [st5 [E5 [E4 _]]]]]].
  cbn in E4. injection E4 as <- _ <-.
  unfold _calculate_quality_score in E5.
  apply vbind_inv in E5 as [q1 [l6 [l6' [st6 [E6 [E5 _]]]]]].
  apply vbind_inv in E5 as [q2 [l7 [l7' [st7 [E7 [E5 _]]]]]].
  apply vbind_inv in E5 as [q3 [l8 [l8' [st8 [E8 [E5 _]]]]]].
  injection E5 as _ _ <-.
  apply (keeps_eq _ _ _ _ (validity_score_keeps clk df)) in E8 as ->.
  apply (keeps_eq _ _ _ _ (consistency_score_keeps df)) in E7 as ->.
  unfold _completeness_score in E6.
  apply vbind_inv in E6 as [c2 [l9 [l9' [st9 [E9 [E6 _]]]]]].
  unfold _check_completeness in E9. rewrite Hcomp in E9.
  injection E9 as <- _ <-.
  unfold vlift in E6. injection E6 as E6 <-.
  split; [| split; [rewrite <- app_assoc; reflexivity | reflexivity]].
  intros ->. discriminate E6.
Qed.

Lemma validate_all_no_rows (clk : clock) (st : list warning) :
  exists l, validate_all clk (MkDataFrame []) st = ((inr EmptyDict, l), st).
Proof. eexists. vm_compute. reflexivity. Qed.

End ValidatorState.

(** X10. [validate_all] never raises: whatever the records and whatever
    was recorded before, it returns the four results or the empty dict,
    and it returns the empty dict only after logging the error
    [Validation failed: ...] with the text of the cause. *)
Theorem X10_validate_all_never_raises (clk : DataValidator.clock) (df : DataFrame)
  (st : list DataValidator.warning) :
  exists value,
    result (fst (DataValidator.validate_all clk df st)) = inr value
    /\ (value = DataValidator.EmptyDict ->
        exists earlier cause,
          logs (fst (DataValidator.validate_all clk df st))
          = earlier ++ [Log ERROR ("Validation failed: " ++ cause)]).
Proof.
  unfold DataValidator.validate_all, DataValidator.v_try_except.
  match goal with
  | |- context [match ?body st with _ => _ end] =>
      destruct (body st) as [[[e | r] l0] st0] eqn:E
  end.
  - eexists. split; [reflexivity |]. intros _. exists l0, (message e). reflexivity.
  - exists r. split; [reflexivity |]. intros ->. exfalso.
    apply vbind_inv in E as [c' [l1 [l1' [st1 [_ [E _]]]]]].
    apply vbind_inv in E as [k' [l2 [l2' [st2 [_ [E _]]]]]].
    apply vbind_inv in E as [v' [l3 [l3' [st3 [_ [E _]]]]]].
    apply vbind_inv in E as [s' [l4 [l4' [st4 [_ [E _]]]]]].
    discriminate E.
Qed.

(** X11. [validate_all] returns its four results only for a collection
    that has records, has no year column and has at least one of the
    required fields as a column: in every other case it returns the empty
    dict. *)
Theorem X11_validate_all_results_need_no_year (clk : DataValidator.clock)
  (df : DataFrame) (st st' : list DataValidator.warning)
  (c : list (string * Q)) (k : list (string * bool)) (v : list (string * list nat))
  (s : DataValidator.summary) (l : list log_record) :
  DataValidator.validate_all clk df st
  = ((inr (DataValidator.Results c k v s), l), st') ->
  rows df <> [] /\ has_column df "year" = false
  /\ exists field, In field (map fst DataValidator.required_fields)
                   /\ has_column df field = true.
Proof.
  intros H. split; [| split].
  - intros Hrows. destruct df as [data]. simpl in Hrows. subst data.
    destruct (validate_all_no_rows clk st) as [l' E]. congruence.
  - destruct (has_column df "year") eqn:Hy; [| reflexivity].
    destruct (validate_all_year_column clk df st Hy) as [st'' E]. congruence.
  - destruct (validate_all_results_inv _ _ _ _ _ _ _ _ _ H) as [Hc _].
    destruct (completeness_loop_spec df DataValidator.required_fields [])
      as [comp Hcomp].
    destruct (existsb (has_column df) (map fst DataValidator.required_fields)) eqn:E.
    + apply existsb_exists in E as [field [Hin Hf]]. exists field. auto.
    + exfalso. apply Hc.
      unfold DataValidator.validate_all, DataValidator.v_try_except,
        DataValidator._check_completeness in H.
      cbn [DataValidator.required_fields map fst existsb] in E.
      repeat (apply orb_false_iff in E as [? E]).
      cbn [DataValidator.required_fields DataValidator.completeness_loop] in H.
      repeat match goal with Hf : has_column df _ = false |- _ =>
               rewrite Hf in H; clear Hf end.
      rewrite vbind_vret in H.
      match type of H with
      | context [match ?body st with _ => _ end] =>
          destruct (body st) as [[[e | r] l0] st0] eqn:Eb
      end; [cbn in H; discriminate H |].
      injection H as -> _ _.
      apply vbind_inv in Eb as [k' [l2 [l2' [st2 [_ [Eb _]]]]]].
      apply vbind_inv in Eb as [v' [l3 [l3' [st3 [_ [Eb _]]]]]].
      apply vbind_inv in Eb as [s' [l4 [l4' [st4 [_ [Eb _]]]]]].
      injection Eb as Eb _. congruence.
Qed.

Lemma X11_validate_all_results_need_no_year_witness :
  rows (MkDataFrame [untitled_row]) <> []
  /\ has_column (MkDataFrame [untitled_row]) "year" = false
  /\ exists field, In field (map fst DataValidator.required_fields)
                   /\ has_column (MkDataFrame [untitled_row]) field = true.
Proof.
  eapply (X11_validate_all_results_need_no_year Samples.clock_2026
            (MkDataFrame [untitled_row]) []).
  vm_compute. reflexivity.
Defined.

(** X12. When [validate_all] returns its four results, every warning of
    the completeness check has been recorded twice, because the summary
    runs the check again: [validation_results] is what it was before the
    call followed by two copies of the warnings, and [total_issues] is its
    length, so that it also counts what earlier calls recorded. *)
Theorem X12_completeness_warnings_recorded_twice (clk : DataValidator.clock)
  (df : DataFrame) (st st' : list DataValidator.warning)
  (c : list (string * Q)) (k : list (string * bool)) (v : list (string * list nat))
  (s : DataValidator.summary) (l : list log_record) :
  DataValidator.validate_all clk df st
  = ((inr (DataValidator.Results c k v s), l), st') ->
  st' = st ++ low_fields df DataValidator.required_fields
           ++ low_fields df DataValidator.required_fields
  /\ DataValidator.total_issues s
     = (length st + 2 * length (low_fields df DataValidator.required_fields))%nat.
Proof.
  intros H. destruct (validate_all_results_inv _ _ _ _ _ _ _ _ _ H) as [_ [Hst Ht]].
  split; [exact Hst |]. rewrite Ht, Hst, !length_app. lia.
Qed.

Lemma X12_completeness_warnings_recorded_twice_witness :
  exists st' s,
    st' = [] ++ low_fields (MkDataFrame [untitled_row]) DataValidator.required_fields
             ++ low_fields (MkDataFrame [untitled_row]) DataValidator.required_fields
    /\ DataValidator.total_issues s
       = (length (@nil DataValidator.warning)
          + 2 * length (low_fields (MkDataFrame [untitled_row])
                          DataValidator.required_fields))%nat
    /\ DataValidator.total_issues s = 2%nat.
Proof.
  eexists. eexists. 
  assert (H := X12_completeness_warnings_recorded_twice Samples.clock_2026
                 (MkDataFrame [untitled_row]) []).
  specialize (H _ _ _ _ _ _ ltac:(vm_compute; reflexivity)).
  destruct H as [H1 H2]. split; [exact H1 |]. split; [exact H2 | reflexivity].
Defined.

(* ===================================================================== *)
(** * Properties of the report, the export and repeated searches *)
(* ===================================================================== *)

Section Reports.
Import Py Pandas DataValidator Raised Report ReviewOutput ListCells.

(** The collections on which [validate_all] gives up: those without
    records and those with a year column. *)
Lemma validate_all_empty_dict (clk : clock) (df : DataFrame) (st : list warning) :
  rows df = [] \/ has_column df "year" = true ->
  exists l st', validate_all clk df st = ((inr EmptyDict, l), st').
Proof.
  intros [H | H].
  - destruct df as [data]. simpl in H. subst data.
    destruct (validate_all_no_rows clk st) as [l E]. eauto.
  - destruct (validate_all_year_column clk df st H) as [st' E]. eauto.
Qed.

Lemma normalized_data (src : string) (articles : list PyDict) (r : result_entry) :
  r ∈ normalized src articles -> exists m, data r = __dict__ m.
Proof.
  unfold normalized. intros H. apply list_elem_of_omap in H as [article [_ H]].
  destruct (result (extract_metadata article)) as [e | m]; [discriminate |].
  injection H as <-. exists m. reflexivity.
Qed.

Lemma search_databases_data (rd : Readers) (query : string) (max_results : Z)
  (include_cochrane include_clinicaltrials : bool) (results : list result_entry)
  (r : result_entry) :
  result (search_databases rd [] query max_results include_cochrane
            include_clinicaltrials) = inr results ->
  r ∈ results -> exists m, data r = __dict__ m.
Proof.
  rewrite search_databases_result. intros [= <-] H. cbn [app] in H.
  repeat (apply elem_of_app in H as [H | H]; [apply (normalized_data _ _ _ H) |]).
  apply (normalized_data _ _ _ H).
Qed.

Lemma dict_has_year (m : PaperMetadata) : is_Some (__dict__ m !! "year").
Proof. rewrite dict_year. eauto. Qed.

Lemma results_frame (results : list result_entry) :
  (forall r, r ∈ results -> exists m, data r = __dict__ m) ->
  rows (MkDataFrame (map data results)) = []
  \/ has_column (MkDataFrame (map data results)) "year" = true.
Proof.
  intros H. destruct results as [| r results]; [left; reflexivity |]. right.
  apply has_column_true. exists (data r). split; [apply list_elem_of_here |].
  destruct (H r (list_elem_of_here _ _)) as [m ->]. apply dict_has_year.
Qed.



Lemma generate_report_gives_up (clk : clock) (now : string) (df : DataFrame)
  (st : list warning) :
  rows df = [] \/ has_column df "year" = true ->
  written (generate_report clk now df st)
  = Some [Title; Generated now; CompletenessHeading]
  /\ ended (generate_report clk now df st) = inl (KeyError "completeness")
  /\ exists earlier,
       logged (generate_report clk now df st)
       = earlier ++ [Log ERROR "Report generation failed: 'completeness'"].
Proof.
  intros H. destruct (validate_all_empty_dict clk df st H) as [l [st' E]].
  unfold generate_report. rewrite E. cbn.
  split; [reflexivity |]. split; [reflexivity |]. exists l. reflexivity.
Qed.

End Reports.

(** X13. On a collection without records or with a year column,
    [generate_report] fails with [KeyError('completeness')] after three
    writes: the report file holds its title, the line of the date and the
    heading of the completeness section, and the failure is logged before
    it is raised again. *)
Theorem X13_report_stops_after_its_heading (clk : DataValidator.clock) (now : string)
  (df : DataFrame) (st : list DataValidator.warning) :
  rows df = [] \/ has_column df "year" = true ->
  Report.written (Report.generate_report clk now df st)
  = Some [Report.Title; Report.Generated now; Report.CompletenessHeading]
  /\ Report.ended (Report.generate_report clk now df st)
     = inl (Raised.KeyError "completeness")
  /\ exists earlier,
       Report.logged (Report.generate_report clk now df st)
       = earlier ++ [Log ERROR "Report generation failed: 'completeness'"].
Proof. apply generate_report_gives_up. Qed.

Lemma X13_report_stops_after_its_heading_witness :
  Report.written (Report.generate_report Samples.clock_2026 "2026-11-04 12:00:00"
                    (MkDataFrame [Samples.complete_record]) [])
  = Some [Report.Title; Report.Generated "2026-11-04 12:00:00";
          Report.CompletenessHeading]
  /\ Report.ended (Report.generate_report Samples.clock_2026 "2026-11-04 12:00:00"
                     (MkDataFrame [Samples.complete_record]) [])
     = inl (Raised.KeyError "completeness")
  /\ exists earlier,
       Report.logged (Report.generate_report Samples.clock_2026 "2026-11-04 12:00:00"
                        (MkDataFrame [Samples.complete_record]) [])
       = earlier ++ [Log ERROR "Report generation failed: 'completeness'"].
Proof.
  apply (X13_report_stops_after_its_heading Samples.clock_2026 "2026-11-04 12:00:00"
           (MkDataFrame [Samples.complete_record]) []).
  right. vm_compute. reflexivity.
Defined.

(** X14. On every collection that [search_databases] built, starting from
    none, [validate_data] returns the empty dict: the normalised records
    always carry a year entry, so [validate_all] gives up; when a report is
    asked for, the file holds its first three writes only and the error
    [Data validation failed: 'completeness'] is logged last. *)
Theorem X14_validate_data_returns_nothing (rd : Readers) (query : string)
  (max_results : Z) (include_cochrane include_clinicaltrials : bool)
  (results : list result_entry) (clk : DataValidator.clock) (now : string)
  (generate_report : bool) :
  result (search_databases rd [] query max_results include_cochrane
            include_clinicaltrials) = inr results ->
  ReviewOutput.returned (ReviewOutput.validate_data clk now results generate_report)
  = DataValidator.EmptyDict
  /\ ReviewOutput.report_file
       (ReviewOutput.validate_data clk now results generate_report)
     = (if generate_report
        then Some [Report.Title; Report.Generated now; Report.CompletenessHeading]
        else None)
  /\ (generate_report = true ->
      exists earlier,
        ReviewOutput.run_log
          (ReviewOutput.validate_data clk now results generate_report)
        = earlier ++ [Log ERROR "Data validation failed: 'completeness'"]).
Proof.
  intros H.
  pose proof (results_frame results
                (fun r => search_databases_data _ _ _ _ _ _ r H)) as Hdf.
  unfold ReviewOutput.validate_data, DataValidator.__init__.
  destruct (validate_all_empty_dict clk _ [] Hdf) as [l [st' E]]. rewrite E.
  destruct generate_report; [| repeat split; discriminate].
  destruct (generate_report_gives_up clk now _ st' Hdf) as [Hw [He [earlier Hl]]].
  rewrite He, Hw, Hl. cbn.
  split; [reflexivity |]. split; [reflexivity |]. intros _.
  exists (l ++ earlier ++ [Log ERROR "Report generation failed: 'completeness'"]).
  rewrite <- !app_assoc. reflexivity.
Qed.

Lemma X14_validate_data_returns_nothing_witness :
  exists results,
    result (search_databases Samples.scenario_readers [] "trial" 10 false false)
    = inr results
    /\ ReviewOutput.returned
         (ReviewOutput.validate_data Samples.clock_2026 "2026-11-04 12:00:00"
            results true)
       = DataValidator.EmptyDict
    /\ ReviewOutput.report_file
         (ReviewOutput.validate_data Samples.clock_2026 "2026-11-04 12:00:00"
            results true)
       = Some [Report.Title; Report.Generated "2026-11-04 12:00:00";
               Report.CompletenessHeading].
Proof.
  eexists. split; [vm_compute; reflexivity |].
  match goal with
  | |- context [ReviewOutput.validate_data _ _ ?results _] =>
      destruct (X14_validate_data_returns_nothing Samples.scenario_readers
                  "trial" 10 false false results Samples.clock_2026
                  "2026-11-04 12:00:00" true ltac:(vm_compute; reflexivity))
        as [H1 [H2 _]]
  end.
  split; [exact H1 | exact H2].
Defined.

Section Exports.
Import Py Pandas Exporters ReviewOutput ListCells.



End Exports.

(** X15. [export_results] with a format other than [csv] and [excel]
    raises [ValueError("Supported formats: 'csv', 'excel'")], logs the
    failure once and calls no exporter, whatever the collection. *)
Theorem X15_unsupported_export_format (bk : Exporters.Backend)
  (results : list result_entry) (format filename : string) :
  format <> "csv" -> format <> "excel" ->
  ReviewOutput.export_results bk results format filename
  = (inl (Exn ValueError "Supported formats: 'csv', 'excel'"),
     [Log ERROR "Export failed: Supported formats: 'csv', 'excel'"]).
Proof.
  intros Hcsv Hxl. unfold ReviewOutput.export_results.
  apply String.eqb_neq in Hcsv, Hxl. rewrite Hcsv, Hxl. reflexivity.
Qed.

Lemma X15_unsupported_export_format_witness :
  ReviewOutput.export_results hashing_backend [] "json" "out"
  = (inl (Exn ValueError "Supported formats: 'csv', 'excel'"),
     [Log ERROR "Export failed: Supported formats: 'csv', 'excel'"]).
Proof.
  apply (X15_unsupported_export_format hashing_backend [] "json" "out");
    discriminate.
Defined.



(** X17. [search_databases] never clears [self.results]: running the same
    search a second time appends the same records again, so that the
    collection built by the first run is then held twice. *)
Theorem X17_repeated_search_duplicates (rd : Readers) (query : string)
  (max_results : Z) (include_cochrane include_clinicaltrials : bool)
  (results : list result_entry) :
  result (search_databases rd [] query max_results include_cochrane
            include_clinicaltrials) = inr results ->
  result (search_databases rd results query max_results include_cochrane
            include_clinicaltrials) = inr (results ++ results).
Proof.
  rewrite !search_databases_result. intros [= <-]. reflexivity.
Qed.

Lemma X17_repeated_search_duplicates_witness :
  exists results,
    result (search_databases Samples.scenario_readers [] "trial" 10 false false)
    = inr results
    /\ result (search_databases Samples.scenario_readers results "trial" 10 false false)
       = inr (results ++ results).
Proof.
  eexists. split; [vm_compute; reflexivity |].
  apply (X17_repeated_search_duplicates Samples.scenario_readers "trial" 10 false false).
  vm_compute. reflexivity.
Defined.

(* ===================================================================== *)
(** * Properties of the MEDLINE parser *)
(* ===================================================================== *)

Section Lines.
Import PyStr Notions Medline.

Lemma rev_onto_rev_onto (s a b : string) :
  rev_onto (rev_onto s a) b = rev_onto a (s ++ b).
Proof.
  revert a b. induction s as [| c s IH]; intros a b; [reflexivity |].
  cbn [rev_onto]. rewrite IH. reflexivity.
Qed.

Lemma split_char_aux_app (sep : ascii) (a b cur : string) :
  split_char_aux sep (a ++ String sep b) cur
  = split_char_aux sep a cur ++ split_char_aux sep b "".
Proof.
  revert cur. induction a as [| c a IH]; intros cur.
  - change ("" ++ String sep b)%string with (String sep b).
    cbn [split_char_aux]. rewrite Ascii.eqb_refl. reflexivity.
  - rewrite append_cons. cbn [split_char_aux].
    destruct (Ascii.eqb c sep); [rewrite IH; reflexivity | apply IH].
Qed.

Lemma split_char_app (sep : ascii) (a b : string) :
  split_char sep (a ++ String sep b) = split_char sep a ++ split_char sep b.
Proof. apply split_char_aux_app. Qed.

Lemma split_char_aux_one (sep : ascii) (s cur : string) :
  ~ In sep (chars s) -> split_char_aux sep s cur = [rev_onto (rev_onto s cur) ""].
Proof.
  revert cur. induction s as [| c s IH]; intros cur H; [reflexivity |].
  cbn [split_char_aux rev_onto]. cbn [chars list_ascii_of_string In] in H.
  destruct (Ascii.eqb c sep) eqn:E.
  - apply Ascii.eqb_eq in E. tauto.
  - apply IH. unfold chars. tauto.
Qed.

Lemma split_char_one (sep : ascii) (s : string) :
  ~ In sep (chars s) -> split_char sep s = [s].
Proof.
  intros H. unfold split_char. rewrite (split_char_aux_one sep s "" H).
  rewrite rev_onto_rev_onto. cbn [rev_onto]. rewrite append_nil_r. reflexivity.
Qed.

Lemma chars_app (a b : string) : chars (a ++ b) = chars a ++ chars b.
Proof.
  induction a as [| c a IH]; [reflexivity |].
  rewrite append_cons. unfold chars in *. cbn [list_ascii_of_string app].
  rewrite IH. reflexivity.
Qed.

Lemma rstrip_empty (u : string) : rstrip u = "" -> all_chars isspace u = true.
Proof.
  induction u as [| c u IH]; [reflexivity |].
  cbn [rstrip all_chars]. destruct (rstrip u) as [| d r]; [| discriminate].
  destruct (isspace c); [| discriminate]. intros _. apply IH. reflexivity.
Qed.

Lemma lstrip_spaces (s : string) :
  all_chars isspace (lstrip s) = true -> all_chars isspace s = true.
Proof.
  induction s as [| c s IH]; [reflexivity |].
  cbn [lstrip]. destruct (isspace c) eqn:E; [| auto].
  intros H. cbn [all_chars]. rewrite E. apply IH. exact H.
Qed.

Lemma strip_empty (s : string) : strip s = "" -> all_chars isspace s = true.
Proof. intros H. apply lstrip_spaces, rstrip_empty. exact H. Qed.

Lemma all_chars_In (cls : ascii -> bool) (s : string) (c : ascii) :
  all_chars cls s = true -> In c (chars s) -> cls c = true.
Proof.
  induction s as [| d s IH]; [intros _ []|].
  cbn [all_chars chars list_ascii_of_string In]. intros H [-> | Hin];
    apply andb_true_iff in H as [Hd H]; auto.
Qed.

Lemma strip_nonempty (s : string) (c : ascii) :
  In c (chars s) -> isspace c = false -> String.eqb (strip s) "" = false.
Proof.
  intros Hin Hc. apply String.eqb_neq. intros H.
  apply strip_empty in H. rewrite (all_chars_In _ _ _ H Hin) in Hc. discriminate.
Qed.

Lemma prefix_chars (p s : string) (c : ascii) :
  String.prefix p s = true -> In c (chars p) -> In c (chars s).
Proof.
  intros H Hin. apply prefix_spec in H as [rest ->].
  rewrite chars_app. apply in_or_app. left. exact Hin.
Qed.

End Lines.

Section Parser.
Import PyStr Py Raised Pubmed Notions Medline.

Lemma split_dash_none (line : string) :
  split_dash line = None <-> ~ In "-"%char (chars line).
Proof.
  induction line as [| c line IH]; [cbn; tauto |].
  cbn [split_dash chars list_ascii_of_string In]. fold (chars line).
  destruct (Ascii.eqb c "-") eqn:E.
  - apply Ascii.eqb_eq in E. split; [discriminate | tauto].
  - apply Ascii.eqb_neq in E. destruct (split_dash line) as [[a b] |].
    + split; [discriminate |]. intros H.
      assert (Hno : ~ In "-"%char (chars line)) by tauto.
      apply IH in Hno. discriminate.
    + split; [| reflexivity]. intros _ [H | H]; [congruence |].
      destruct IH as [IH _]. apply (IH eq_refl H).
Qed.

Lemma split_dash_tag (field value : string) :
  ~ In "-"%char (chars field) ->
  split_dash (field ++ "-" ++ value) = Some (field, value).
Proof.
  induction field as [| c field IH]; intros H; [reflexivity |].
  rewrite append_cons. cbn [split_dash]. cbn [chars list_ascii_of_string In] in H.
  fold (chars field) in H.
  destruct (Ascii.eqb c "-") eqn:E; [apply Ascii.eqb_eq in E; tauto |].
  rewrite IH by tauto. reflexivity.
Qed.

Lemma pmid_line_is_read (line : string) :
  startswith "PMID" line = true ->
  String.eqb (strip line) "" = false /\ startswith "      " line = false.
Proof.
  intros H. split.
  - apply (strip_nonempty line "P"); [| reflexivity].
    apply (prefix_chars "PMID" line "P" H). left. reflexivity.
  - apply prefix_spec in H as [rest ->]. reflexivity.
Qed.

Lemma parse_line_bad (st : parse_state) (line : string) :
  startswith "PMID" line = true -> split_dash line = None ->
  parse_line st line = inl index_out_of_range.
Proof.
  intros Hp Hd. destruct (pmid_line_is_read line Hp) as [H1 H2].
  unfold parse_line. destruct st as [data cf]. rewrite H1, H2, Hp, Hd. reflexivity.
Qed.

Lemma parse_line_outcome (st : parse_state) (line : string) :
  field_is_key st ->
  match parse_line st line with
  | inr st' => field_is_key st'
  | inl e =>
      e = index_out_of_range /\ startswith "PMID" line = true
      /\ split_dash line = None
  end.
Proof.
  destruct st as [data cf]. unfold field_is_key, parse_line. cbn [fst snd].
  intros Hkey.
  destruct (String.eqb (strip line) ""); [exact Hkey |].
  destruct (startswith "      " line).
  - destruct cf as [field |]; [| exact I].
    destruct (negb (String.eqb field "")); [| exact Hkey].
    destruct Hkey as [value Hv]. rewrite Hv. cbn [fst snd].
    rewrite lookup_insert_eq. eauto.
  - destruct (startswith "PMID" line).
    + destruct (split_dash line) as [[before after] |]; [| auto].
      cbn [fst snd]. destruct cf as [field |]; [| exact I].
      destruct (decide (field = "pmid")) as [-> | Hne].
      * rewrite lookup_insert_eq. eauto.
      * rewrite lookup_insert_ne by congruence. exact Hkey.
    + destruct (split_dash line) as [[field value] |]; [| exact Hkey].
      cbn [fst snd]. rewrite lookup_insert_eq. eauto.
Qed.

Lemma parse_lines_error (lines : list string) (st : parse_state) (e : raised) :
  field_is_key st -> parse_lines lines st = inl e ->
  e = index_out_of_range
  /\ exists line, In line lines /\ startswith "PMID" line = true
                  /\ split_dash line = None.
Proof.
  revert st. induction lines as [| line lines IH]; intros st Hkey; [discriminate |].
  cbn [parse_lines]. pose proof (parse_line_outcome st line Hkey) as Ho.
  destruct (parse_line st line) as [e' | st'].
  - intros [= <-]. destruct Ho as [He [Hp Hd]]. split; [exact He |].
    exists line. split; [left; reflexivity | auto].
  - intros H. destruct (IH st' Ho H) as [He [line' [Hin H']]].
    split; [exact He |]. exists line'. split; [right; exact Hin | exact H'].
Qed.

Lemma parse_lines_bad (lines : list string) (st : parse_state) (line : string) :
  field_is_key st -> In line lines ->
  startswith "PMID" line = true -> split_dash line = None ->
  parse_lines lines st = inl index_out_of_range.
Proof.
  revert st. induction lines as [| line0 lines IH]; intros st Hkey Hin Hp Hd;
    [destruct Hin |].
  cbn [parse_lines]. pose proof (parse_line_outcome st line0 Hkey) as Ho.
  destruct (parse_line st line0) as [e' | st'] eqn:E.
  - destruct Ho as [-> _]. reflexivity.
  - destruct Hin as [-> | Hin].
    + rewrite (parse_line_bad st line Hp Hd) in E. discriminate.
    + apply (IH st' Ho Hin Hp Hd).
Qed.

Lemma parse_lines_app (l1 l2 : list string) (st : parse_state) :
  parse_lines (l1 ++ l2) st
  = match parse_lines l1 st with
    | inl e => inl e
    | inr st' => parse_lines l2 st'
    end.
Proof.
  revert st. induction l1 as [| line l1 IH]; intros st; [reflexivity |].
  cbn [app parse_lines]. destruct (parse_line st line); [reflexivity | apply IH].
Qed.

Lemma parse_line_tag (st : parse_state) (field value : string) :
  tag_line field value ->
  parse_line st (field ++ "-" ++ value)
  = inr (<[strip field := strip value]> (fst st), Some (strip field)).
Proof.
  intros [Hdash [_ [_ [Hsp Hpm]]]]. destruct st as [data cf]. unfold parse_line.
  rewrite Hsp, Hpm, (split_dash_tag field value Hdash).
  rewrite (strip_nonempty _ "-"); [reflexivity | | reflexivity].
  rewrite chars_app. apply in_or_app. right. left. reflexivity.
Qed.

End Parser.

(** X18. [_parse_medline] fails on exactly the records that have a line
    beginning with [PMID] and holding no ['-']; the failure is then the
    [IndexError] of [line.split('-', 1)[1]].  In particular the
    concatenation [data[current_field] += ...] never meets a missing
    key. *)
Theorem X18_parse_medline_failure (record : string) (e : Raised.raised) :
  Pubmed._parse_medline record = inl e
  <-> e = Raised.index_out_of_range
      /\ exists line,
           In line (split_char Pubmed.nl record)
           /\ startswith "PMID" line = true
           /\ ~ In "-"%char (chars line).
Proof.
  unfold Pubmed._parse_medline. split.
  - destruct (Pubmed.parse_lines (split_char Pubmed.nl record) (∅, None))
      as [e' | [data cf]] eqn:E; [| discriminate].
    intros [= <-].
    destruct (parse_lines_error _ (∅, None) _ I E) as [He [line [Hin [Hp Hd]]]].
    split; [exact He |]. exists line. rewrite <- split_dash_none. auto.
  - intros [-> [line [Hin [Hp Hd]]]]. apply split_dash_none in Hd.
    rewrite (parse_lines_bad _ (∅, None) line I Hin Hp Hd). reflexivity.
Qed.

(** X19. A tag line appended to a record that parses replaces the value
    of its field: the parsed data is that of the record with the trimmed
    field bound to the trimmed value.  A field that occurs on several
    lines, as AU does once per author, keeps the value of the last line
    only. *)
Theorem X19_parse_medline_last_line_wins (record field value : string)
  (data : gmap string string) :
  Pubmed._parse_medline record = inr data ->
  tag_line field value ->
  Pubmed._parse_medline (record ++ String Pubmed.nl (field ++ "-" ++ value))
  = inr (<[strip field := strip value]> data).
Proof.
  unfold Pubmed._parse_medline. intros H Htag.
  rewrite split_char_app, parse_lines_app.
  destruct (Pubmed.parse_lines (split_char Pubmed.nl record) (∅, None))
    as [e | [data' cf]]; [discriminate |].
  injection H as ->.
  rewrite split_char_one.
  - cbn [Pubmed.parse_lines]. rewrite (parse_line_tag _ field value Htag). reflexivity.
  - destruct Htag as [_ [Hf [Hv _]]]. rewrite !chars_app. intros Hin.
    apply in_app_or in Hin as [Hin | Hin]; [tauto |].
    apply in_app_or in Hin as [Hin | Hin]; [| tauto].
    destruct Hin as [Hin | []]. discriminate Hin.
Qed.

Lemma X19_parse_medline_last_line_wins_witness :
  Pubmed._parse_medline ("AU  - Smith J" ++ String Pubmed.nl ("AU  " ++ "-" ++ " Doe A"))
  = inr (<[strip "AU  " := strip " Doe A"]> {["AU" := "Smith J"]}).
Proof.
  apply (X19_parse_medline_last_line_wins "AU  - Smith J" "AU  " " Doe A").
  - reflexivity.
  - unfold tag_line. cbn. intuition discriminate.
Defined.

Section ParsedRecords.
Import PyStr Py PaperData Pubmed Notions Fields.

Lemma get_raw_record (data : gmap string string) (key : string) (default : PyVal) :
  get (raw_record data) key default
  = match data !! key with
    | Some s => VStr s
    | None => default
    end.
Proof.
  unfold get, raw_record. rewrite lookup_fmap. destruct (data !! key); reflexivity.
Qed.

Lemma raw_record_authors (data : gmap string string) :
  exists pieces, author_pieces (raw_authors (raw_record data)) = Some pieces.
Proof.
  unfold raw_authors. rewrite !get_raw_record.
  destruct (data !! "AU"); [eexists; reflexivity |].
  destruct (data !! "authors"); [eexists; reflexivity |].
  destruct (data !! "FAU"); eexists; reflexivity.
Qed.

Lemma raw_record_doi (data : gmap string string) :
  exists s, get (raw_record data) "DOI" (get (raw_record data) "doi" (VStr "")) = VStr s.
Proof.
  rewrite !get_raw_record.
  destruct (data !! "DOI"); [eexists; reflexivity |].
  destruct (data !! "doi"); eexists; reflexivity.
Qed.

Lemma raw_record_title (data : gmap string string) :
  exists s, resolved_title (raw_record data) = VStr s.
Proof.
  unfold resolved_title. rewrite !get_raw_record.
  destruct (data !! "TI"); [eexists; reflexivity |].
  destruct (data !! "title"); eexists; reflexivity.
Qed.

End ParsedRecords.

(** X20. On a record as [_parse_medline] returns it, whose values are all
    strings, the normaliser fails on the title only: with a usable title
    [extract_metadata] returns a record, and without one it raises
    [ValueError] with the text of the title check; the failures of the
    author and DOI extractions cannot occur. *)
Theorem X20_parsed_records_fail_on_title_only (data : gmap string string) :
  (usable_title (resolved_title (Pubmed.raw_record data)) ->
   exists m, result (extract_metadata (Pubmed.raw_record data)) = inr m)
  /\ (~ usable_title (resolved_title (Pubmed.raw_record data)) ->
      result (extract_metadata (Pubmed.raw_record data))
      = inl (Exn ValueError
               "Failed to extract paper metadata: Invalid or missing title")).
Proof.
  split.
  - intros [s [Hs Hlen]].
    destruct (raw_record_authors data) as [pieces Hp].
    destruct (raw_record_doi data) as [d Hd].
    destruct (extract_metadata_returns (Pubmed.raw_record data) s
                (kept_authors pieces)
                (option_map group0 (search DOI_PATTERN d)) Hs Hlen)
      as [m [Hm _]].
    + rewrite (extract_authors_value _ pieces Hp). reflexivity.
    + rewrite (extract_doi_on_string _ d Hd). reflexivity.
    + exists m. exact Hm.
  - intros Hbad. destruct (raw_record_title data) as [s Hs].
    unfold extract_metadata. fold (resolved_title (Pubmed.raw_record data)).
    rewrite Hs in *.
    assert (Hv : _validate_title (VStr s)
                 = raise (Exn ValueError "Invalid or missing title")).
    { unfold _validate_title. destruct (truthy (VStr s)); [| reflexivity].
      cbn [negb py_strip]. rewrite bind_ret_l.
      destruct (len (strip s) <? 3)%nat eqn:E; [reflexivity |].
      exfalso. apply Hbad. exists s. split; [reflexivity |].
      apply Nat.ltb_ge in E. exact E. }
    rewrite Hv. reflexivity.
Qed.

(** X21. A MEDLINE record with a line that begins with [PMID] and holds
    no ['-'] is lost: [fetch_details] logs the [IndexError] and returns the
    empty dict, which the normaliser rejects for its missing title. *)
Theorem X21_unparsable_record_is_dropped (efetch : string -> Raised.raised + string)
  (pmid record line : string) :
  efetch pmid = inr record ->
  In line (split_char Pubmed.nl record) ->
  startswith "PMID" line = true -> ~ In "-"%char (chars line) ->
  Pubmed.fetch_details efetch pmid
  = (∅, [Log ERROR ("Failed to fetch details for PMID " ++ pmid
                      ++ ": list index out of range")])
  /\ result (extract_metadata (Pubmed.raw_record (fst (Pubmed.fetch_details efetch pmid))))
     = inl (Exn ValueError
              "Failed to extract paper metadata: Invalid or missing title").
Proof.
  intros Hfetch Hin Hp Hd.
  assert (E : Pubmed.fetch_details efetch pmid
              = (∅, [Log ERROR ("Failed to fetch details for PMID " ++ pmid
                                  ++ ": list index out of range")])).
  { unfold Pubmed.fetch_details. rewrite Hfetch.
    apply split_dash_none in Hd. unfold Pubmed._parse_medline.
    rewrite (parse_lines_bad _ (∅, None) line I Hin Hp Hd). reflexivity. }
  split; [exact E |]. rewrite E. reflexivity.
Qed.

Lemma X21_unparsable_record_is_dropped_witness :
  Pubmed.fetch_details (fun _ => inr "PMID 12345678") "12345678"
  = (∅, [Log ERROR ("Failed to fetch details for PMID " ++ "12345678"
                      ++ ": list index out of range")])
  /\ result (extract_metadata
               (Pubmed.raw_record
                  (fst (Pubmed.fetch_details (fun _ => inr "PMID 12345678") "12345678"))))
     = inl (Exn ValueError
              "Failed to extract paper metadata: Invalid or missing title").
Proof.
  apply (X21_unparsable_record_is_dropped (fun _ => inr "PMID 12345678")
           "12345678" "PMID 12345678" "PMID 12345678").
  - reflexivity.
  - left. reflexivity.
  - reflexivity.
  - cbn. intuition discriminate.
Defined.

Section QualityFailures.
Import Py Pandas QualityChecker.

Lemma bind_inv_inl {A B} (m : M A) (f : A -> M B) (e : exn) :
  result (bind m f) = inl e ->
  result m = inl e \/ exists a, result m = inr a /\ result (f a) = inl e.
Proof.
  destruct m as [[e' | a] l].
  - intros H. injection H as <-. left. reflexivity.
  - intros H. right. exists a. split; [reflexivity |].
    unfold bind in H. destruct (f a) as [r l']. exact H.
Qed.

Lemma compare_raises (sym : string) (op : Z -> Z -> bool) (rhs : Z)
  (col : list cell) (e : exn) :
  result (compare sym op rhs col) = inl e -> kind e = TypeError.
Proof.
  induction col as [| c col IH]; [discriminate |].
  cbn [compare]. intros H.
  apply bind_inv_inl in H as [H | [b [_ H]]].
  - destruct c as [| [| z | s | l]]; try discriminate H;
      injection H as <-; reflexivity.
  - apply bind_inv_inl in H as [H | [bs [_ H]]]; [apply IH; exact H | discriminate H].
Qed.

Lemma check_validity_raises (now : Z) (df : DataFrame) (e : exn) :
  result (_check_validity now df) = inl e -> kind e = TypeError.
Proof.
  unfold _check_validity. intros H.
  apply bind_inv_inl in H as [H | [issues1 [_ H]]].
  - destruct (has_column df "year"); [| discriminate H].
    apply bind_inv_inl in H as [H | [too_old [_ H]]];
      [apply (compare_raises _ _ _ _ _ H) |].
    apply bind_inv_inl in H as [H | [too_new [_ H]]];
      [apply (compare_raises _ _ _ _ _ H) | discriminate H].
  - apply bind_inv_inl in H as [H | [issues2 [_ H]]]; [| discriminate H].
    destruct (has_column df "sample_size"); [| discriminate H].
    apply bind_inv_inl in H as [H | [nonpositive [_ H]]];
      [apply (compare_raises _ _ _ _ _ H) | discriminate H].
Qed.

Lemma check_consistency_raises (df : DataFrame) (e : exn) :
  result (_check_consistency df) = inl e -> kind e = AttributeError.
Proof.
  unfold _check_consistency. intros H.
  apply bind_inv_inl in H as [H | [doi_format [_ H]]].
  - unfold _check_doi_format, str_match_all in H.
    destruct (negb (has_column df "doi")); [discriminate H |].
    destruct (has_str_accessor (column df "doi")); [discriminate H |].
    injection H as <-. reflexivity.
  - apply bind_inv_inl in H as [H | [score [_ H]]]; discriminate H.
Qed.

Lemma init_nonempty (required_fields : option (list string)) :
  __init__ required_fields <> [].
Proof. destruct required_fields as [[| f fs] |]; discriminate. Qed.

End QualityFailures.

(** X22. [check_quality] fails in two ways only, whatever the records and
    the required fields given to the constructor: with [AttributeError]
    when the DOI column admits no string methods, and with [TypeError] when
    a year or a sample size is compared that is a string or a list.  The
    error is logged as [Quality check failed: ...] and raised again
    unchanged; no division by zero can occur. *)
Theorem X22_quality_check_failures (required_fields : option (list string))
  (now : Z) (data : list PyDict) (e : exn) :
  result (QualityChecker.check_quality (QualityChecker.__init__ required_fields)
            now data) = inl e ->
  (kind e = AttributeError \/ kind e = TypeError)
  /\ exists earlier,
       logs (QualityChecker.check_quality (QualityChecker.__init__ required_fields)
               now data)
       = earlier ++ [Log ERROR ("Quality check failed: " ++ message e)].
Proof.
  unfold QualityChecker.check_quality, try_except.
  match goal with
  | |- context [match ?body with _ => _ end] =>
      destruct body as [[e' | m] l] eqn:E
  end; [| discriminate].
  cbn. intros [= <-]. split; [| exists l; reflexivity].
  assert (He : result (completeness <-
                         QualityChecker._check_completeness
                           (QualityChecker.__init__ required_fields) (MkDataFrame data) ;;
                       consistency <- QualityChecker._check_consistency (MkDataFrame data) ;;
                       validity <- QualityChecker._check_validity now (MkDataFrame data) ;;
                       ret (QualityChecker.MkQualityMetrics
                              (QualityChecker.c_score completeness)
                              (QualityChecker.k_score consistency)
                              (QualityChecker.v_score validity)
                              (QualityChecker.c_score completeness * (4 # 10)
                               + QualityChecker.k_score consistency * (3 # 10)
                               + QualityChecker.v_score validity * (3 # 10))%Q
                              (QualityChecker._get_completeness_issues completeness
                                 ++ QualityChecker._get_consistency_issues consistency
                                 ++ QualityChecker._get_validity_issues validity)))%py
                = inl e') by (rewrite E; reflexivity).
  clear E.
  destruct (check_completeness_returns (QualityChecker.__init__ required_fields)
              (MkDataFrame data) (init_nonempty required_fields)) as [c Hc].
  rewrite Hc, bind_ret_l in He.
  apply bind_inv_inl in He as [He | [k [_ He]]];
    [left; apply (check_consistency_raises _ _ He) |].
  apply bind_inv_inl in He as [He | [v [_ He]]];
    [right; apply (check_validity_raises _ _ _ He) | discriminate He].
Qed.

Lemma X22_quality_check_failures_witness :
  (kind (Exn TypeError "'<' not supported between instances of 'str' and 'int'")
   = AttributeError
   \/ kind (Exn TypeError "'<' not supported between instances of 'str' and 'int'")
      = TypeError)
  /\ exists earlier,
       logs (QualityChecker.check_quality (QualityChecker.__init__ None) 2026
               [year_as_text])
       = earlier
           ++ [Log ERROR ("Quality check failed: "
                            ++ message (Exn TypeError
                                 "'<' not supported between instances of 'str' and 'int'"))].
Proof.
  apply (X22_quality_check_failures None 2026 [year_as_text]).
  vm_compute. reflexivity.
Defined.

Section Words.
Import PyStr Re Py Datetime PaperData Notions Medline Dates.

Lemma all_chars_rev_onto (cls : ascii -> bool) (a b : string) :
  all_chars cls (rev_onto a b) = all_chars cls a && all_chars cls b.
Proof.
  revert b. induction a as [| c a IH]; intros b; [reflexivity |].
  cbn [rev_onto all_chars]. rewrite IH. cbn [all_chars].
  destruct (cls c), (all_chars cls a), (all_chars cls b); reflexivity.
Qed.

Lemma split_ws_aux_words (s cur : string) :
  all_chars notspace cur = true ->
  Forall (fun t => all_chars notspace t = true) (split_ws_aux s cur).
Proof.
  revert cur. induction s as [| c s IH]; intros cur Hcur.
  - cbn [split_ws_aux]. destruct cur as [| d cur]; constructor; [| constructor].
    rewrite all_chars_rev_onto, Hcur. reflexivity.
  - cbn [split_ws_aux]. destruct (isspace c) eqn:E.
    + destruct cur as [| d cur]; [apply IH; reflexivity |].
      constructor; [| apply IH; reflexivity].
      rewrite all_chars_rev_onto, Hcur. reflexivity.
    + apply IH. cbn [all_chars]. unfold notspace at 1. rewrite E, Hcur. reflexivity.
Qed.

Lemma first_token_cases (v : PyVal) :
  (exists tok, first_token v = ret tok /\ all_chars notspace tok = true)
  \/ (exists e, first_token v = raise e /\ is_ValueError (kind e) = false).
Proof.
  destruct v as [| z | s | l]; try (right; eexists; split; reflexivity).
  cbn [first_token]. pose proof (split_ws_aux_words s "" eq_refl) as H.
  fold (split_ws s) in H.
  destruct (split_ws s) as [| tok toks]; [right; eexists; split; reflexivity |].
  left. exists tok. split; [reflexivity |]. inversion H. assumption.
Qed.

Lemma chars_take (n : nat) (s : string) (c : ascii) :
  In c (chars (take n s)) -> In c (chars s).
Proof.
  intros H. rewrite <- (take_drop n s), chars_app. apply in_or_app. left. exact H.
Qed.

(** A word holds no whitespace, which the format [%Y %b %d] asks for. *)
Lemma spaced_format_fails (tok : string) :
  all_chars notspace tok = true ->
  strptime_year tok "%Y %b %d" = raise (bad_time tok "%Y %b %d").
Proof.
  intros Hw. unfold strptime_year.
  change (compile false "%Y %b %d")
    with (Some [re_Y; Rep false isspace 1 None; re_b; Rep false isspace 1 None; re_d]).
  unfold match_start.
  destruct (match_here true
              [re_Y; Rep false isspace 1 None; re_b; Rep false isspace 1 None; re_d] tok)
    as [[n g] |] eqn:E; [| reflexivity].
  exfalso. apply match_here_sound in E as [_ Hin].
  cbn [in_lang] in Hin.
  destruct Hin as [u1 [v1 [Ht [_ [u2 [v2 [-> [[Hsp [Hlen _]] _]]]]]]]].
  destruct u2 as [| c u2]; [unfold len in Hlen; simpl in Hlen; lia |].
  cbn [all_chars] in Hsp. apply andb_true_iff in Hsp as [Hc _].
  assert (Hin : In c (chars tok)).
  { apply (chars_take n). rewrite Ht, !chars_app.
    apply in_or_app. right. apply in_or_app. left. left. reflexivity. }
  pose proof (all_chars_In _ _ _ Hw Hin) as Hn. unfold notspace in Hn.
  rewrite Hc in Hn. discriminate.
Qed.

Lemma try_except_kind_ext {A} (k : exn_kind -> bool) (m : M A) (h1 h2 : exn -> M A) :
  (forall e, result m = inl e -> k (kind e) = true -> h1 e = h2 e) ->
  try_except_kind k m h1 = try_except_kind k m h2.
Proof.
  intros H. unfold try_except_kind, try_except.
  destruct m as [[e | a] l]; [| reflexivity].
  destruct (k (kind e)) eqn:E; [| reflexivity].
  rewrite (H e eq_refl E). reflexivity.
Qed.

End Words.

(** X23. The fourth date format of [_extract_year], [%Y %b %d], never
    parses: the text handed to [strptime] is one whitespace-separated word,
    and the format asks for whitespace.  Whatever the date value, the loop
    over the four formats does what the loop over the first three does, so
    that a date such as [2023 Jan 15] is read through its first word
    only. *)
Theorem X23_spaced_date_format_is_dead (date_str : PyVal) :
  formats_loop date_str date_formats = formats_loop date_str live_formats.
Proof.
  unfold date_formats, live_formats. cbn [formats_loop].
  destruct (first_token_cases date_str) as [[tok [Ht Hw]] | [e [He Hk]]].
  - repeat (apply try_except_kind_ext; intros ? _ _).
    rewrite Ht, bind_ret_l, (spaced_format_fails tok Hw). reflexivity.
  - rewrite He. unfold try_except_kind, try_except, raise, bind.
    rewrite Hk. cbn. rewrite ?Hk. reflexivity.
Qed.

Section ResolvedDois.
Import PyStr Re Py PaperData Pandas Notions Scores Pipeline.

Lemma extract_metadata_doi (data : PyDict) (m : PaperMetadata) :
  result (extract_metadata data) = inr m ->
  result (_extract_doi data) = inr (doi m).
Proof.
  unfold extract_metadata. intros H.
  apply result_try_except_inv in H as [H | [e [_ H]]]; [| discriminate H].
  apply bind_inv_inr in H as [t [_ H]].
  apply bind_inv_inr in H as [au [_ H]].
  apply bind_inv_inr in H as [d [Hd H]].
  apply bind_inv_inr in H as [y [_ H]].
  apply bind_inv_inr in H as [n [_ H]].
  apply bind_inv_inr in H as [st [_ H]].
  apply bind_inv_inr in H as [links [_ H]].
  injection H as <-. exact Hd.
Qed.

(** A DOI that the search of [_extract_doi] found is matched by the same
    pattern at its start. *)
Lemma extracted_doi_matches (data : PyDict) (d : string) :
  result (_extract_doi data) = inr (Some d) ->
  match_start false DOI_PATTERN d <> None.
Proof.
  intros H.
  assert (Hin : in_lang false DOI_PATTERN d).
  { unfold _extract_doi in H.
    destruct (get data "DOI" (get data "doi" (VStr ""))) as [| z | s | l] eqn:Hs;
      [discriminate H | destruct (truthy (VInt z)); discriminate H |
      | destruct (truthy (VList l)); discriminate H].
    destruct (extract_doi_leftmost data s Hs) as [Hsome _].
    unfold _extract_doi in Hsome. rewrite Hs in Hsome.
    destruct (Hsome d H) as [_ [_ [_ [Hlang _]]]]. exact Hlang. }
  pose proof (match_here_complete false DOI_PATTERN d "" Hin) as Hm.
  rewrite append_nil_r in Hm. unfold match_start.
  destruct (match_here false DOI_PATTERN d) as [[n g] |]; [discriminate | contradiction].
Qed.

Lemma extracted_doi_cells (ms : list PaperMetadata) :
  Forall extracted ms ->
  forallb (fun c =>
             match c with
             | Obj (VStr s) =>
                 match match_start false DOI_PATTERN s with
                 | Some _ => true
                 | None => false
                 end
             | _ => true
             end) (column (MkDataFrame (normalised ms)) "doi") = true.
Proof.
  unfold column, normalised. cbn [rows].
  induction 1 as [| m ms [data Hm] _ IH]; [reflexivity |].
  cbn [map forallb]. rewrite IH, dict_doi, andb_true_r.
  apply extract_metadata_doi in Hm.
  destruct (doi m) as [d |]; [| reflexivity]. cbn [opt_val].
  pose proof (extracted_doi_matches data d Hm) as Hd.
  destruct (match_start false DOI_PATTERN d); [reflexivity | contradiction].
Qed.

Lemma extracted_doi_format (ms : list PaperMetadata) :
  Forall extracted ms ->
  (if negb (has_column (MkDataFrame (normalised ms)) "doi") then ret true
   else str_match_all DOI_PATTERN (column (MkDataFrame (normalised ms)) "doi"))
  = ret true.
Proof.
  intros H. destruct (has_column (MkDataFrame (normalised ms)) "doi") eqn:Hc;
    [| reflexivity].
  cbn [negb]. unfold str_match_all.
  rewrite text_column_accessor, (extracted_doi_cells ms H); [reflexivity | |].
  - destruct ms; [discriminate Hc | discriminate].
  - apply normalised_doi_column.
Qed.

End ResolvedDois.

(** X24. The DOI check of either checker accepts whatever the normaliser
    resolved: on every collection of records that [extract_metadata]
    returned, [_check_doi_format] of [QualityChecker] and of
    [DataValidator] raises nothing and yields [True].  The search of
    [_extract_doi] and the anchored match of the check use the same
    pattern. *)
Theorem X24_resolved_dois_pass_the_doi_check (ms : list PaperMetadata) :
  Forall extracted ms ->
  QualityChecker._check_doi_format (MkDataFrame (normalised ms)) = ret true
  /\ DataValidator._check_doi_format (MkDataFrame (normalised ms)) = ret true.
Proof.
  intros H. split; apply (extracted_doi_format ms H).
Qed.

Lemma X24_resolved_dois_pass_the_doi_check_witness :
  exists m,
    result (extract_metadata Samples.trial_record) = inr m
    /\ QualityChecker._check_doi_format (MkDataFrame (normalised [m])) = ret true
    /\ DataValidator._check_doi_format (MkDataFrame (normalised [m])) = ret true.
Proof.
  destruct (result (extract_metadata Samples.trial_record)) as [e | m] eqn:E;
    [vm_compute in E; discriminate E |].
  exists m. split; [reflexivity |].
  apply (X24_resolved_dois_pass_the_doi_check [m]).
  constructor; [| constructor]. exists Samples.trial_record. exact E.
Defined.

Section ValidatorScores.
Import Py Pandas DataValidator Scores Validation.

Lemma dv_completeness_loop_range (df : DataFrame) (fields : list (string * Q))
  (acc c : list (string * Q)) (st st' : list warning) (l : list log_record) :
  Forall (fun kv => in_range (snd kv)) acc ->
  completeness_loop df fields acc st = ((inr c, l), st') ->
  Forall (fun kv => in_range (snd kv)) c.
Proof.
  revert acc st l. induction fields as [| [field threshold] rest IH];
    intros acc st l Hacc.
  - cbn. intros [= <- _ _]. exact Hacc.
  - cbn [completeness_loop]. destruct (has_column df field); [| apply IH; exact Hacc].
    intros H. apply vbind_inv in H as [[] [l1 [l2 [st1 [_ [H _]]]]]].
    apply (IH _ _ _ (dict_set_range _ _ _ (notna_mean_range _) Hacc) H).
Qed.

Lemma completeness_score_range (df : DataFrame) (st st' : list warning) (q : Q)
  (l : list log_record) :
  _completeness_score df st = ((inr q, l), st') -> in_range q.
Proof.
  unfold _completeness_score, _check_completeness. intros H.
  apply vbind_inv in H as [c [l1 [l2 [st1 [Hc [H _]]]]]].
  apply (dv_completeness_loop_range df _ [] c) in Hc; [| constructor].
  unfold vlift in H. injection H as H _.
  assert (Hq : result (QualityChecker.divide (QualityChecker.qsum (map snd c)) (length c))
               = inr q) by (rewrite H; reflexivity).
  apply divide_inv in Hq as [Hn ->].
  destruct (qsum_range c Hc) as [H0 H1]. apply mean_range; assumption.
Qed.

Lemma consistency_score_range (df : DataFrame) (st st' : list warning) (q : Q)
  (l : list log_record) :
  _consistency_score df st = ((inr q, l), st') -> in_range q.
Proof.
  unfold _consistency_score, _check_consistency. intros H.
  apply vbind_inv in H as [k [l1 [l2 [st1 [Hk [H _]]]]]].
  apply vbind_inv in Hk as [b1 [l3 [l4 [st2 [_ [Hk _]]]]]].
  apply vbind_inv in Hk as [b3 [l5 [l6 [st3 [_ [Hk _]]]]]].
  injection Hk as <- _ _.
  apply vbind_inv in H as [score [l7 [l8 [st4 [H [Hq _]]]]]].
  injection Hq as <- _ _.
  destruct b1, (_check_author_format df), b3; cbn in H; injection H as <- _ _;
    split; discriminate.
Qed.

Lemma validity_score_range (clk : clock) (df : DataFrame) (st st' : list warning)
  (q : Q) (l : list log_record) :
  _validity_score clk df st = ((inr q, l), st') -> in_range q.
Proof.
  unfold _validity_score. intros H.
  apply vbind_inv in H as [v [l1 [l2 [st1 [_ [H _]]]]]].
  apply vbind_inv in H as [ratio [l3 [l4 [st2 [Hr [H _]]]]]].
  injection H as <- _ _. unfold vlift in Hr. injection Hr as Hr _.
  set (total := fold_right Nat.add 0%nat (map (fun fi : string * list nat => length (snd fi)) v))
    in *.
  assert (Hq : result (QualityChecker.divide (inject_Z (Z.of_nat total)) (df_len df))
               = inr ratio) by (rewrite Hr; reflexivity).
  apply divide_inv in Hq as [Hn ->].
  assert (H0 : (0 <= inject_Z (Z.of_nat total) / inject_Z (Z.of_nat (df_len df)))%Q).
  { apply Qle_shift_div_l.
    - change 0%Q with (inject_Z 0). rewrite <- Zlt_Qlt. lia.
    - rewrite Qmult_0_l. change 0%Q with (inject_Z 0). rewrite <- Zle_Qle. lia. }
  set (r := (inject_Z (Z.of_nat total) / inject_Z (Z.of_nat (df_len df)))%Q) in *.
  split; [apply Q.le_max_l |]. apply Q.max_lub; [discriminate | lra].
Qed.

Lemma quality_score_range (clk : clock) (df : DataFrame) (st st' : list warning)
  (q : Q) (l : list log_record) :
  _calculate_quality_score clk df st = ((inr q, l), st') -> in_range q.
Proof.
  unfold _calculate_quality_score. intros H.
  apply vbind_inv in H as [q1 [l1 [l1' [st1 [H1 [H _]]]]]].
  apply vbind_inv in H as [q2 [l2 [l2' [st2 [H2 [H _]]]]]].
  apply vbind_inv in H as [q3 [l3 [l3' [st3 [H3 [H _]]]]]].
  injection H as <- _ _.
  apply completeness_score_range in H1 as [A0 A1].
  apply consistency_score_range in H2 as [B0 B1].
  apply validity_score_range in H3 as [C0 C1].
  split; lra.
Qed.

End ValidatorScores.

(** X25. When [validate_all] returns its four results, the quality score
    of the summary lies between 0 and 100. *)
Theorem X25_validator_quality_score_in_range (clk : DataValidator.clock)
  (df : DataFrame) (st st' : list DataValidator.warning)
  (c : list (string * Q)) (k : list (string * bool)) (v : list (string * list nat))
  (s : DataValidator.summary) (l : list log_record) :
  DataValidator.validate_all clk df st
  = ((inr (DataValidator.Results c k v s), l), st') ->
  in_range (DataValidator.quality_score s).
Proof.
  unfold DataValidator.validate_all, DataValidator.v_try_except.
  match goal with
  | |- context [match ?body st with _ => _ end] =>
      destruct (body st) as [[[e | r] l0] st0] eqn:E
  end; [cbn; discriminate |].
  intros [= -> _ _].
  apply vbind_inv in E as [c' [l1 [l1' [st1 [_ [E _]]]]]].
  apply vbind_inv in E as [k' [l2 [l2' [st2 [_ [E _]]]]]].
  apply vbind_inv in E as [v' [l3 [l3' [st3 [_ [E _]]]]]].
  apply vbind_inv in E as [s' [l4 [l4' [st4 [E4 [E _]]]]]].
  injection E as _ _ _ -> _ _.
  unfold DataValidator._generate_validation_summary in E4.
  apply vbind_inv in E4 as [score [l5 [l5' [st5 [E5 [E4 _]]]]]].
  cbn in E4. injection E4 as <- _ _. cbn [DataValidator.quality_score].
  apply (quality_score_range _ _ _ _ _ _ E5).
Qed.

Lemma X25_validator_quality_score_in_range_witness :
  exists s, in_range (DataValidator.quality_score s)
            /\ DataValidator.total_issues s = 2%nat.
Proof.
  eexists. split.
  - eapply (X25_validator_quality_score_in_range Samples.clock_2026
              (MkDataFrame [untitled_row]) []).
    vm_compute. reflexivity.
  - reflexivity.
Defined.
